(** * plansController: investment-plan lifecycle and ledger

    A shallow embedding of [src/plansController.js]: the request handlers
    [activatePlan], [upgradePlan], [collectDailyProfit], [renewPlan],
    [createPlan], [updatePlan], [deletePlan] and the two listings, as
    functions from a store to a response and a new store.

    Modelling conventions.
    - Amounts are JavaScript Numbers.  The handlers are written over a type
      [num] with the operations the source applies to Numbers ([Runtime]):
      what is proved for every [Runtime] holds of the source's double
      arithmetic, with its rounding and its NaN.  Two runtimes are given:
      [ieeeRuntime], the binary64 floats of the source, and [exactRuntime],
      rationals without rounding.
    - A [Date] is its millisecond time value, an integer.  A request is
      served at one instant [now]: the clock reads of one handler return
      the same value.  Moving a date by calendar days ([setDate]) is an
      operation of the runtime, since it depends on the server's time zone.
    - The MongoDB collections are finite maps from ids to documents; the
      [Transaction] collection is a list, newest first.  [save] writes the
      in-memory document back under its id.
    - An uncaught exception (a property read on [null]) is the response
      [Thrown]; nothing after the throwing statement runs. *)

From Stdlib Require Import ZArith QArith Qminmax Qround Qfield String List Lia Lqa.
From Stdlib Require Import Floats.
From stdpp Require Import gmap strings.

Set Warnings "-inexact-float".

Local Open Scope Z_scope.
Local Open Scope Q_scope.
Local Open Scope string_scope.

(** ** Numbers and dates of the runtime *)

Class Runtime (num : Type) := {
  num_ofZ : Z → num;            (* an integer literal, or an integer as a Number *)
  num_add : num → num → num;    (* x + y *)
  num_sub : num → num → num;    (* x - y *)
  num_mul : num → num → num;    (* x * y *)
  num_div : num → num → num;    (* x / y *)
  num_opp : num → num;          (* -x *)
  num_lt : num → num → bool;    (* x < y, also y > x *)
  num_le : num → num → bool;    (* x <= y, also y >= x *)
  num_isNaN : num → bool;       (* isNaN(x) *)
  num_falsy : num → bool;       (* !x *)
  (* x.toFixed(1) prints the decimal numeral of [toFixed1 x / 10] *)
  toFixed1 : num → Z;
  (* d.setDate(d.getDate() + n) on the date with time value [t] *)
  addDays : Z → Z → Z
}.

#[global] Hint Mode Runtime ! : typeclass_instances.
Arguments addDays num {_} _ _.

Notation "x ⊕ y" := (num_add x y) (at level 50, left associativity).
Notation "x ⊖ y" := (num_sub x y) (at level 50, left associativity).
Notation "x ⊗ y" := (num_mul x y) (at level 40, left associativity).
Notation "x ⊘ y" := (num_div x y) (at level 40, left associativity).

(** Two identities of IEEE 754 arithmetic, which exact arithmetic shares:
    a subtraction is the addition of the opposite, and subtracting the
    literal 0 changes nothing. *)
Class RuntimeLaws (num : Type) `{Runtime num} := {
  sub_add_opp : ∀ x y : num, x ⊖ y = x ⊕ num_opp y;
  sub_zero : ∀ x : num, x ⊖ num_ofZ 0 = x
}.

(** ** Data model *)

Abbreviation id := positive.

(** Modelled from the spec: the Mongoose schemas of [./models] are not part
    of the sources.  The documents carry the fields the controller reads
    and writes, typed as in the data model of the specification. *)
Record User (num : Type) := mkUser {
  userId : string;
  walletBalance : num;
  bonusBalance : num;
  invitedBy : option id;
  activePlanInstance : option id
}.
Arguments mkUser {num}.
Arguments userId {num}.
Arguments walletBalance {num}.
Arguments bonusBalance {num}.
Arguments invitedBy {num}.
Arguments activePlanInstance {num}.

Record Plan (num : Type) := mkPlan {
  name : string;
  minAmount : num;
  maxAmount : num;
  dailyYieldType : string;
  dailyYieldValue : num;
  durationDays : Z;
  hashRate : option string;
  imageUrl : string
}.
Arguments mkPlan {num}.
Arguments name {num}.
Arguments minAmount {num}.
Arguments maxAmount {num}.
Arguments dailyYieldType {num}.
Arguments dailyYieldValue {num}.
Arguments durationDays {num}.
Arguments hashRate {num}.
Arguments imageUrl {num}.

Inductive instanceStatus := active | expired.

Record PlanInstance (num : Type) := mkPlanInstance {
  pi_user : id;
  pi_plan : id;
  investedAmount : num;
  dailyProfit : num;
  startDate : Z;
  endDate : Z;
  lastCollectedDate : option Z;
  totalCollected : num;
  status : instanceStatus
}.
Arguments mkPlanInstance {num}.
Arguments pi_user {num}.
Arguments pi_plan {num}.
Arguments investedAmount {num}.
Arguments dailyProfit {num}.
Arguments startDate {num}.
Arguments endDate {num}.
Arguments lastCollectedDate {num}.
Arguments totalCollected {num}.
Arguments status {num}.

Inductive transactionType := investment | commission | collection.

Record Transaction (num : Type) := mkTransaction {
  tx_user : id;
  tx_type : transactionType;
  tx_amount : num;
  tx_description : string
}.
Arguments mkTransaction {num}.
Arguments tx_user {num}.
Arguments tx_type {num}.
Arguments tx_amount {num}.
Arguments tx_description {num}.

Record Settings (num : Type) := mkSettings {
  referralCommissionRate : num;
  dailyCommissionRate : num
}.
Arguments mkSettings {num}.
Arguments referralCommissionRate {num}.
Arguments dailyCommissionRate {num}.

Record Store (num : Type) := mkStore {
  users : gmap id (User num);
  plans : gmap id (Plan num);
  instances : gmap id (PlanInstance num);
  transactions : list (Transaction num);
  settings : option (Settings num)   (* the document with configKey "main_settings" *)
}.
Arguments mkStore {num}.
Arguments users {num}.
Arguments plans {num}.
Arguments instances {num}.
Arguments transactions {num}.
Arguments settings {num}.

(** ** Responses *)

Inductive response (num : Type) :=
  | SettingsMissing                      (* 500 *)
  | AlreadyHasActivePlan                 (* 400, activate *)
  | PlanNotFound                         (* 404 *)
  | AmountOutOfRange                     (* 400 *)
  | ActivateShortOfFunds                 (* 400 *)
  | Activated (iid : id) (planInstance : PlanInstance num)   (* 201 *)
  | NoPlanToUpgrade                      (* 400 *)
  | NewPlanNotFound                      (* 404 *)
  | NotHigherTier                        (* 400 *)
  | UpgradeShortOfFunds (priceDifference : num)          (* 400 *)
  | Upgraded                             (* 200 *)
  | NoPlanToCollect                      (* 400 *)
  | PlanExpired                          (* 400 *)
  | CollectionTooSoon (remainingHours : Z)  (* 400; the hours shown, in tenths *)
  | Collected (profit : num)             (* 200 *)
  | HistoryNotFound                      (* 404 *)
  | NotExpired                           (* 400 *)
  | RenewWhileActive                     (* 400 *)
  | RenewShortOfFunds (renewalCost : num)  (* 400 *)
  | Renewed                              (* 200 *)
  | MissingFields                        (* 400 *)
  | PlanCreated (pid : id) (plan : Plan num) (* 201 *)
  | PlanUpdated (plan : Plan num)        (* 200 *)
  | PlanHasActiveHolders (activeInstances : nat)         (* 400 *)
  | PlanDeleted                          (* 200 *)
  | Thrown.                              (* TypeError, left to the error middleware *)
Arguments SettingsMissing {num}.
Arguments AlreadyHasActivePlan {num}.
Arguments PlanNotFound {num}.
Arguments AmountOutOfRange {num}.
Arguments ActivateShortOfFunds {num}.
Arguments Activated {num}.
Arguments NoPlanToUpgrade {num}.
Arguments NewPlanNotFound {num}.
Arguments NotHigherTier {num}.
Arguments UpgradeShortOfFunds {num}.
Arguments Upgraded {num}.
Arguments NoPlanToCollect {num}.
Arguments PlanExpired {num}.
Arguments CollectionTooSoon {num}.
Arguments Collected {num}.
Arguments HistoryNotFound {num}.
Arguments NotExpired {num}.
Arguments RenewWhileActive {num}.
Arguments RenewShortOfFunds {num}.
Arguments Renewed {num}.
Arguments MissingFields {num}.
Arguments PlanCreated {num}.
Arguments PlanUpdated {num}.
Arguments PlanHasActiveHolders {num}.
Arguments PlanDeleted {num}.
Arguments Thrown {num}.

Definition statusCode {num} (r : response num) : Z :=
  match r with
  | SettingsMissing | Thrown => 500
  | PlanNotFound | NewPlanNotFound | HistoryNotFound => 404
  | Activated _ _ | PlanCreated _ _ => 201
  | Upgraded | Collected _ | Renewed | PlanUpdated _ | PlanDeleted => 200
  | _ => 400
  end%Z.

(** The error taxonomy of the specification, and the class of each failing
    response.  [MissingField] and [Uncaught] are not named by the taxonomy. *)
Inductive errorKind :=
  | NotFound | PreconditionFailed | InsufficientFunds | InvalidAmount
  | ConfigurationMissing | PlanInUse | MissingField | Uncaught.

Definition errorOf {num} (r : response num) : option errorKind :=
  match r with
  | SettingsMissing => Some ConfigurationMissing
  | PlanNotFound | NewPlanNotFound | HistoryNotFound => Some NotFound
  | AmountOutOfRange => Some InvalidAmount
  | ActivateShortOfFunds | UpgradeShortOfFunds _ | RenewShortOfFunds _ =>
      Some InsufficientFunds
  | AlreadyHasActivePlan | NoPlanToUpgrade | NotHigherTier | NoPlanToCollect
  | PlanExpired | CollectionTooSoon _ | NotExpired | RenewWhileActive =>
      Some PreconditionFailed
  | PlanHasActiveHolders _ => Some PlanInUse
  | MissingFields => Some MissingField
  | Thrown => Some Uncaught
  | Activated _ _ | Upgraded | Collected _ | Renewed | PlanCreated _ _
  | PlanUpdated _ | PlanDeleted => None
  end.

(** The double-quote character of the message templates. *)
Definition dquote : string := String (Ascii.ascii_of_nat 34) EmptyString.

(** One day and one hour in milliseconds. *)
Definition DAY_MS : Z := (24 * 60 * 60 * 1000)%Z.
Definition HOUR_MS : Z := (1000 * 60 * 60)%Z.

#[global] Instance instanceStatus_eq_dec : EqDecision instanceStatus.
Proof. solve_decision. Defined.

Section Handlers.
Context {num : Type} `{Runtime num}.

(** ** Helpers shared by the handlers *)

(** [plan.dailyYieldType === 'fixed' ? plan.dailyYieldValue
       : (amount * plan.dailyYieldValue) / 100] *)
Definition computeDailyProfit (plan : Plan num) (amount : num) : num :=
  if String.eqb (dailyYieldType plan) "fixed" then dailyYieldValue plan
  else (amount ⊗ dailyYieldValue plan) ⊘ num_ofZ 100.

(** The bonus-first split of [activatePlan], lines 57-68:
    the pair [(bonusAmountUsed, realAmountToPay)]. *)
Definition splitFunding (bonus amount : num) : num * num :=
  if num_lt (num_ofZ 0) bonus then
    if num_le amount bonus then (amount, num_ofZ 0)
    else (bonus, amount ⊖ bonus)
  else (num_ofZ 0, amount).

(** The document passed to [PlanInstance.create].  The handlers do not
    pass [totalCollected] and [status]; they take the schema defaults, 0
    and active in the data model of the specification.  [endDate] is a
    date at the same instant moved forward by [durationDays] calendar
    days with [setDate]. *)
Definition newInstanceDoc (uid pid : id) (plan : Plan num) (amount profit : num)
    (now : Z) : PlanInstance num :=
  {| pi_user := uid; pi_plan := pid;
     investedAmount := amount; dailyProfit := profit;
     startDate := now; endDate := addDays num now (durationDays plan);
     lastCollectedDate := Some now;
     totalCollected := num_ofZ 0; status := active |}.

(** A new document gets an id no document of the collection has. *)
Definition freshId {A} (m : gmap id A) : id := fresh (dom m).

Definition setUsers (st : Store num) (us : gmap id (User num)) : Store num :=
  {| users := us; plans := plans st; instances := instances st;
     transactions := transactions st; settings := settings st |}.

Definition setPlans (st : Store num) (ps : gmap id (Plan num)) : Store num :=
  {| users := users st; plans := ps; instances := instances st;
     transactions := transactions st; settings := settings st |}.

Definition setInstances (st : Store num) (ins : gmap id (PlanInstance num))
    : Store num :=
  {| users := users st; plans := plans st; instances := ins;
     transactions := transactions st; settings := settings st |}.

Definition saveUser (st : Store num) (uid : id) (u : User num) : Store num :=
  setUsers st (<[uid := u]> (users st)).

Definition saveInstance (st : Store num) (iid : id) (i : PlanInstance num)
    : Store num :=
  setInstances st (<[iid := i]> (instances st)).

(** [Transaction.create] *)
Definition createTransaction (st : Store num) (t : Transaction num) : Store num :=
  {| users := users st; plans := plans st; instances := instances st;
     transactions := t :: transactions st; settings := settings st |}.

(** [u.walletBalance += x] *)
Definition credit (u : User num) (x : num) : User num :=
  {| userId := userId u; walletBalance := walletBalance u ⊕ x;
     bonusBalance := bonusBalance u; invitedBy := invitedBy u;
     activePlanInstance := activePlanInstance u |}.

(** ** activatePlan *)

(** Lines 102-116: the activation commission of the referrer. *)
Definition payActivationCommission (st : Store num) (cfg : Settings num)
    (user : User num) (amount : num) : Store num :=
  match invitedBy user with
  | None => st
  | Some rid =>
      match users st !! rid with
      | None => st
      | Some referrer =>
          let commissionAmount :=
            amount ⊗ (referralCommissionRate cfg ⊘ num_ofZ 100) in
          let st1 := saveUser st rid (credit referrer commissionAmount) in
          createTransaction st1
            {| tx_user := rid; tx_type := commission;
               tx_amount := commissionAmount;
               tx_description :=
                 "Comissão por ativação de plano do usuário " ++ userId user |}
      end
  end.

(** [amount] is [Number(investedAmount)]; [None] stands for the NaN of a
    text that is not a number. *)
Definition activatePlan (st : Store num) (uid planId : id) (amount : option num)
    (now : Z) : response num * Store num :=
  match settings st with
  | None => (SettingsMissing, st)
  | Some cfg =>
  match users st !! uid with
  | None => (Thrown, st)
  | Some user =>
  if bool_decide (is_Some (activePlanInstance user)) then (AlreadyHasActivePlan, st) else
  match plans st !! planId with
  | None => (PlanNotFound, st)
  | Some plan =>
  match amount with
  | None => (AmountOutOfRange, st)
  | Some amount =>
  if num_isNaN amount || num_lt amount (minAmount plan)
     || num_lt (maxAmount plan) amount
  then (AmountOutOfRange, st) else
  let '(bonusAmountUsed, realAmountToPay) :=
    splitFunding (bonusBalance user) amount in
  if num_lt (walletBalance user) realAmountToPay
  then (ActivateShortOfFunds, st) else
  let profit := computeDailyProfit plan amount in
  let iid := freshId (instances st) in
  let newPlanInstance := newInstanceDoc uid planId plan amount profit now in
  let st1 := saveInstance st iid newPlanInstance in
  let user' :=
    {| userId := userId user;
       walletBalance := walletBalance user ⊖ realAmountToPay;
       bonusBalance := bonusBalance user ⊖ bonusAmountUsed;
       invitedBy := invitedBy user;
       activePlanInstance := Some iid |} in
  let st2 := saveUser st1 uid user' in
  let st3 := createTransaction st2
    {| tx_user := uid; tx_type := investment; tx_amount := num_opp amount;
       tx_description := "Investimento no plano " ++ dquote ++ name plan ++ dquote |} in
  (Activated iid newPlanInstance, payActivationCommission st3 cfg user' amount)
  end end end end.

(** ** upgradePlan *)

(** [populate('activePlanInstance')]: the referenced instance document, or
    [null] when the reference is empty or dangling. *)
Definition populateActive (st : Store num) (user : User num)
    : option (id * PlanInstance num) :=
  match activePlanInstance user with
  | None => None
  | Some iid =>
      match instances st !! iid with
      | None => None
      | Some planInstance => Some (iid, planInstance)
      end
  end.

Definition setStatus (i : PlanInstance num) (s : instanceStatus) : PlanInstance num :=
  {| pi_user := pi_user i; pi_plan := pi_plan i;
     investedAmount := investedAmount i; dailyProfit := dailyProfit i;
     startDate := startDate i; endDate := endDate i;
     lastCollectedDate := lastCollectedDate i;
     totalCollected := totalCollected i; status := s |}.

Definition upgradePlan (st : Store num) (uid newPlanId : id) (now : Z)
    : response num * Store num :=
  match users st !! uid with
  | None => (Thrown, st)
  | Some user =>
  match populateActive st user with
  | None => (NoPlanToUpgrade, st)
  | Some (oldId, oldPlanInstance) =>
  match plans st !! newPlanId with
  | None => (NewPlanNotFound, st)
  | Some newPlan =>
  match plans st !! pi_plan oldPlanInstance with
  | None => (Thrown, st)                 (* oldPlan is null *)
  | Some oldPlan =>
  if num_le (minAmount newPlan) (minAmount oldPlan) then (NotHigherTier, st) else
  let priceDifference := minAmount newPlan ⊖ minAmount oldPlan in
  if num_lt (walletBalance user) priceDifference
  then (UpgradeShortOfFunds priceDifference, st) else
  let st1 := saveInstance st oldId (setStatus oldPlanInstance expired) in
  let profit := computeDailyProfit newPlan (minAmount newPlan) in
  let iid := freshId (instances st1) in
  let newPlanInstance :=
    newInstanceDoc uid newPlanId newPlan (minAmount newPlan) profit now in
  let st2 := saveInstance st1 iid newPlanInstance in
  let user' :=
    {| userId := userId user;
       walletBalance := walletBalance user ⊖ priceDifference;
       bonusBalance := bonusBalance user;
       invitedBy := invitedBy user;
       activePlanInstance := Some iid |} in
  let st3 := saveUser st2 uid user' in
  (Upgraded, createTransaction st3
    {| tx_user := uid; tx_type := investment;
       tx_amount := num_opp priceDifference;
       tx_description :=
         "Upgrade do plano " ++ dquote ++ name oldPlan ++ dquote ++
         " para " ++ dquote ++ name newPlan ++ dquote |})
  end end end end.

(** ** collectDailyProfit *)

(** Lines 233-241: the daily commission of the referrer. *)
Definition payDailyCommission (st : Store num) (cfg : Settings num)
    (user : User num) (profit : num) : Store num :=
  match invitedBy user with
  | None => st
  | Some rid =>
      match users st !! rid with
      | None => st
      | Some referrer =>
          if bool_decide (is_Some (activePlanInstance referrer)) then
            let dailyCommission :=
              profit ⊗ (dailyCommissionRate cfg ⊘ num_ofZ 100) in
            let st1 := saveUser st rid (credit referrer dailyCommission) in
            createTransaction st1
              {| tx_user := rid; tx_type := commission;
                 tx_amount := dailyCommission;
                 tx_description :=
                   "Comissão diária do lucro do usuário " ++ userId user |}
          else st
      end
  end.

(** [planInstance.lastCollectedDate || planInstance.startDate] *)
Definition lastCollectionBase (planInstance : PlanInstance num) : Z :=
  match lastCollectedDate planInstance with
  | Some d => d
  | None => startDate planInstance
  end.

Definition nextCollectionTime (planInstance : PlanInstance num) : Z :=
  (lastCollectionBase planInstance + DAY_MS)%Z.

(** Line 218: [((nextCollectionTime - Date.now()) / (1000 * 60 * 60)).toFixed(1)],
    the hours shown by the message, in tenths. *)
Definition remainingHoursAt (planInstance : PlanInstance num) (now : Z) : Z :=
  toFixed1 (num:=num) (num_ofZ (nextCollectionTime planInstance - now) ⊘ num_ofZ HOUR_MS).

Definition collectDailyProfit (st : Store num) (uid : id) (now : Z)
    : response num * Store num :=
  match settings st with
  | None => (SettingsMissing, st)
  | Some cfg =>
  match users st !! uid with
  | None => (Thrown, st)
  | Some user =>
  match populateActive st user with
  | None => (NoPlanToCollect, st)
  | Some (iid, planInstance) =>
  if (endDate planInstance <? now)%Z then
    let st1 := saveInstance st iid (setStatus planInstance expired) in
    let user' :=
      {| userId := userId user; walletBalance := walletBalance user;
         bonusBalance := bonusBalance user; invitedBy := invitedBy user;
         activePlanInstance := None |} in
    (PlanExpired, saveUser st1 uid user')
  else
  if (now <? nextCollectionTime planInstance)%Z
  then (CollectionTooSoon (remainingHoursAt planInstance now), st) else
  let profit := dailyProfit planInstance in
  let planInstance' :=
    {| pi_user := pi_user planInstance; pi_plan := pi_plan planInstance;
       investedAmount := investedAmount planInstance;
       dailyProfit := dailyProfit planInstance;
       startDate := startDate planInstance; endDate := endDate planInstance;
       lastCollectedDate := Some now;
       totalCollected := totalCollected planInstance ⊕ profit;
       status := status planInstance |} in
  let st1 := saveInstance st iid planInstance' in
  let user' := credit user profit in
  let st2 := saveUser st1 uid user' in
  let st3 := createTransaction st2
    {| tx_user := uid; tx_type := collection; tx_amount := profit;
       tx_description := "Coleta de rendimento diário" |} in
  (Collected profit, payDailyCommission st3 cfg user' profit)
  end end end.

(** ** renewPlan *)

Definition renewPlan (st : Store num) (uid instanceId : id) (now : Z)
    : response num * Store num :=
  match instances st !! instanceId with
  | None => (HistoryNotFound, st)
  | Some oldInstance =>
  match users st !! uid with
  | None => (Thrown, st)                 (* user is null *)
  | Some user =>
  if negb (bool_decide (pi_user oldInstance = uid)) then (HistoryNotFound, st) else
  match status oldInstance with
  | active => (NotExpired, st)
  | expired =>
  if bool_decide (is_Some (activePlanInstance user)) then (RenewWhileActive, st) else
  match plans st !! pi_plan oldInstance with
  | None => (Thrown, st)                 (* planToRenew is null *)
  | Some planToRenew =>
  let renewalCost := minAmount planToRenew in
  if num_lt (walletBalance user) renewalCost
  then (RenewShortOfFunds renewalCost, st) else
  let profit := computeDailyProfit planToRenew renewalCost in
  let iid := freshId (instances st) in
  let newInstance :=
    newInstanceDoc uid (pi_plan oldInstance) planToRenew renewalCost profit now in
  let st1 := saveInstance st iid newInstance in
  let user' :=
    {| userId := userId user;
       walletBalance := walletBalance user ⊖ renewalCost;
       bonusBalance := bonusBalance user;
       invitedBy := invitedBy user;
       activePlanInstance := Some iid |} in
  let st2 := saveUser st1 uid user' in
  (Renewed, createTransaction st2
    {| tx_user := uid; tx_type := investment; tx_amount := num_opp renewalCost;
       tx_description :=
         "Renovação do plano " ++ dquote ++ name planToRenew ++ dquote |})
  end end end end.

End Handlers.

Section Catalog.
Context {num : Type} `{Runtime num}.

(** ** Admin catalog management *)

(** JavaScript truthiness of an optional field. *)
Definition truthyStr (o : option string) : bool :=
  match o with Some s => negb (String.eqb s EmptyString) | None => false end.
Definition truthyNum (o : option num) : bool :=
  match o with Some q => negb (num_falsy q) | None => false end.
Definition truthyInt (o : option Z) : bool :=
  match o with Some z => negb (z =? 0)%Z | None => false end.

End Catalog.

(** The fields of [req.body] that the catalog handlers read, for a JSON
    body whose numeric fields are Numbers; an absent field is [None].  (A
    numeric field sent as text, as a form upload sends it, is truthy
    whenever the text is not empty; such bodies are outside this model.) *)
Record PlanBody (num : Type) := mkPlanBody {
  b_name : option string;
  b_minAmount : option num;
  b_maxAmount : option num;
  b_dailyYieldType : option string;
  b_dailyYieldValue : option num;
  b_durationDays : option Z;
  b_hashRate : option string;
  b_imageUrl : option string
}.
Arguments mkPlanBody {num}.
Arguments b_name {num}.
Arguments b_minAmount {num}.
Arguments b_maxAmount {num}.
Arguments b_dailyYieldType {num}.
Arguments b_dailyYieldValue {num}.
Arguments b_durationDays {num}.
Arguments b_hashRate {num}.
Arguments b_imageUrl {num}.

Inductive request (num : Type) :=
  | Activate (uid planId : id) (amount : option num)
  | Upgrade (uid newPlanId : id)
  | Collect (uid : id)
  | Renew (uid instanceId : id)
  | CreatePlan (body : PlanBody num) (file : option string)
  | UpdatePlan (pid : id) (body : PlanBody num) (file : option string)
  | DeletePlan (pid : id).
Arguments Activate {num}.
Arguments Upgrade {num}.
Arguments Collect {num}.
Arguments Renew {num}.
Arguments CreatePlan {num}.
Arguments UpdatePlan {num}.
Arguments DeletePlan {num}.

Section Requests.
Context {num : Type} `{Runtime num}.

(** [file] is [req.file.path] when an image was uploaded. *)
Definition createPlan (st : Store num) (body : PlanBody num) (file : option string)
    : response num * Store num :=
  match b_name body, b_minAmount body, b_maxAmount body,
        b_dailyYieldType body, b_dailyYieldValue body, b_durationDays body with
  | Some n, Some lo, Some hi, Some ty, Some v, Some d =>
      if truthyStr (b_name body) && truthyNum (b_minAmount body)
         && truthyNum (b_maxAmount body) && truthyStr (b_dailyYieldType body)
         && truthyNum (b_dailyYieldValue body) && truthyInt (b_durationDays body)
      then
        let plan :=
          {| name := n; minAmount := lo; maxAmount := hi;
             dailyYieldType := ty; dailyYieldValue := v; durationDays := d;
             hashRate := b_hashRate body;
             imageUrl := match file with Some p => p | None => EmptyString end |} in
        let pid := freshId (plans st) in
        (PlanCreated pid plan, setPlans st (<[pid := plan]> (plans st)))
      else (MissingFields, st)
  | _, _, _, _, _, _ => (MissingFields, st)
  end.

(** [Object.assign(plan, req.body)]: every field present in the body
    overwrites the field of the document. *)
Definition assignBody (plan : Plan num) (body : PlanBody num) : Plan num :=
  {| name := default (name plan) (b_name body);
     minAmount := default (minAmount plan) (b_minAmount body);
     maxAmount := default (maxAmount plan) (b_maxAmount body);
     dailyYieldType := default (dailyYieldType plan) (b_dailyYieldType body);
     dailyYieldValue := default (dailyYieldValue plan) (b_dailyYieldValue body);
     durationDays := default (durationDays plan) (b_durationDays body);
     hashRate := match b_hashRate body with
                 | Some h => Some h
                 | None => hashRate plan
                 end;
     imageUrl := default (imageUrl plan) (b_imageUrl body) |}.

Definition setImageUrl (plan : Plan num) (p : string) : Plan num :=
  {| name := name plan; minAmount := minAmount plan;
     maxAmount := maxAmount plan; dailyYieldType := dailyYieldType plan;
     dailyYieldValue := dailyYieldValue plan;
     durationDays := durationDays plan; hashRate := hashRate plan;
     imageUrl := p |}.

Definition updatePlan (st : Store num) (pid : id) (body : PlanBody num)
    (file : option string) : response num * Store num :=
  match plans st !! pid with
  | None => (PlanNotFound, st)
  | Some plan =>
      let plan1 := assignBody plan body in
      let updatedPlan :=
        match file with Some p => setImageUrl plan1 p | None => plan1 end in
      (PlanUpdated updatedPlan, setPlans st (<[pid := updatedPlan]> (plans st)))
  end.

(** [PlanInstance.countDocuments({ plan: plan._id, status: 'active' })] *)
Definition countActive (st : Store num) (pid : id) : nat :=
  size (filter (λ kv : id * PlanInstance num,
                  pi_plan kv.2 = pid ∧ status kv.2 = active) (instances st)).

Definition deletePlan (st : Store num) (pid : id) : response num * Store num :=
  match plans st !! pid with
  | None => (PlanNotFound, st)
  | Some plan =>
      let activeInstances := countActive st pid in
      if bool_decide (0 < activeInstances)%nat
      then (PlanHasActiveHolders activeInstances, st)
      else (PlanDeleted, setPlans st (delete pid (plans st)))
  end.

(** ** Request sequences *)

Definition isLifecycle (r : request num) : bool :=
  match r with
  | Activate _ _ _ | Upgrade _ _ | Collect _ | Renew _ _ => true
  | _ => false
  end.

Definition handle (st : Store num) (now : Z) (r : request num)
    : response num * Store num :=
  match r with
  | Activate uid planId amount => activatePlan st uid planId amount now
  | Upgrade uid newPlanId => upgradePlan st uid newPlanId now
  | Collect uid => collectDailyProfit st uid now
  | Renew uid instanceId => renewPlan st uid instanceId now
  | CreatePlan body file => createPlan st body file
  | UpdatePlan pid body file => updatePlan st pid body file
  | DeletePlan pid => deletePlan st pid
  end.

(** The store after a sequence of requests, each served at its own time. *)
Fixpoint run (st : Store num) (reqs : list (Z * request num)) : Store num :=
  match reqs with
  | [] => st
  | (now, r) :: rest => run (handle st now r).2 rest
  end.

(** ** Observations on a store *)

Definition walletOf (st : Store num) (uid : id) : num :=
  match users st !! uid with Some u => walletBalance u | None => num_ofZ 0 end.

Definition bonusOf (st : Store num) (uid : id) : num :=
  match users st !! uid with Some u => bonusBalance u | None => num_ofZ 0 end.

(** The sum of the signed amounts of a user's transactions in a list. *)
Fixpoint ledgerSum (uid : id) (txs : list (Transaction num)) : num :=
  match txs with
  | [] => num_ofZ 0
  | t :: rest =>
      (if bool_decide (tx_user t = uid) then tx_amount t else num_ofZ 0)
      ⊕ ledgerSum uid rest
  end.

Definition ledgerOf (st : Store num) (uid : id) : num :=
  ledgerSum uid (transactions st).

(** The balance obtained from [w] by adding, oldest first, the signed
    amounts of the transactions of [uid] in [txs] (newest first). *)
Fixpoint replayLedger (uid : id) (txs : list (Transaction num)) (w : num) : num :=
  match txs with
  | [] => w
  | t :: older =>
      let w' := replayLedger uid older w in
      if bool_decide (tx_user t = uid) then w' ⊕ tx_amount t else w'
  end.

(** No user holds a bonus: no bonus balance passes the test
    [bonusBalance > 0] of [activatePlan]. *)
Definition noBonus (st : Store num) : Prop :=
  ∀ uid user, users st !! uid = Some user →
              num_lt (num_ofZ 0) (bonusBalance user) = false.

(** From [st] to [st'] the transactions [new] were recorded, every user
    of [st'] is a user of [st] with the bonus balance they had, and every
    wallet balance is the old one with the user's new transactions
    replayed on it. *)
Definition ledgerReplayed (st st' : Store num) (new : list (Transaction num))
    : Prop :=
  transactions st' = (new ++ transactions st)%list
  ∧ (∀ uid user, users st !! uid = Some user →
       ∃ user', users st' !! uid = Some user'
                ∧ walletBalance user'
                  = replayLedger uid new (walletBalance user)
                ∧ bonusBalance user' = bonusBalance user)
  ∧ (∀ uid, users st !! uid = None → users st' !! uid = None).

(** Every plan of the catalog has [minAmount <= maxAmount]. *)
Definition catalogOk (st : Store num) : Prop :=
  ∀ pid plan, plans st !! pid = Some plan →
              num_le (minAmount plan) (maxAmount plan) = true.

Definition setSettings (st : Store num) (cfg : option (Settings num)) : Store num :=
  {| users := users st; plans := plans st; instances := instances st;
     transactions := transactions st; settings := cfg |}.

Definition withoutSettings (st : Store num) : Store num := setSettings st None.

(** C7 as stated: with the settings record absent, every lifecycle request
    fails with ConfigurationMissing and changes nothing. *)
Definition failsFastWithoutSettings (st : Store num) (now : Z) (r : request num)
    : Prop :=
  isLifecycle r = true → settings st = None →
  handle st now r = (SettingsMissing, st).

(** C8 as stated: create and update keep every plan of the catalog within
    [minAmount <= maxAmount]. *)
Definition catalogPreserved (st : Store num) (r : request num) : Prop :=
  catalogOk st → catalogOk (handle st 0 r).2.

(** C2 as stated, on the two amounts the activation computes: the bonus
    part and the wallet part add up to the invested amount. *)
Definition fundingAddsUp (bonus amount : num) : Prop :=
  (splitFunding bonus amount).1 ⊕ (splitFunding bonus amount).2 = amount.

(** ** Listings *)

(** [Plan.find({})]: every document of the catalog with its id. *)
Definition getAllPlansForAdmin (st : Store num) : list (id * Plan num) :=
  map_to_list (plans st).

(** The body of the user listing: all plans, and the user's active
    instance populated with its plan.  A missing user, an empty or dangling
    reference give [null]; a missing plan gives an instance whose [plan]
    is [null]. *)
Definition getAllAvailablePlans (st : Store num) (uid : id)
    : list (id * Plan num) * option (id * PlanInstance num * option (Plan num)) :=
  (map_to_list (plans st),
   match users st !! uid with
   | None => None
   | Some user =>
       match populateActive st user with
       | None => None
       | Some (iid, planInstance) =>
           Some (iid, planInstance, plans st !! pi_plan planInstance)
       end
   end).

(** ** Invariants of a store *)

(** What never changes in a user document. *)
Definition identityOf (o : option (User num)) : option (string * option id) :=
  match o with
  | Some u => Some (userId u, invitedBy u)
  | None => None
  end.

(** The terms of an instance fixed at its creation. *)
Definition termsOf (i : PlanInstance num) : id * id * num * num * Z * Z :=
  (pi_user i, pi_plan i, investedAmount i, dailyProfit i, startDate i, endDate i).

(** Active references and active instances match one to one, and the
    plan of an active instance is in the catalog. *)
Definition wfMaps (us : gmap id (User num)) (ins : gmap id (PlanInstance num))
    (ps : gmap id (Plan num)) : Prop :=
  (∀ u user iid,
     us !! u = Some user → activePlanInstance user = Some iid →
     ∃ i, ins !! iid = Some i ∧ pi_user i = u ∧ status i = active)
  ∧ (∀ iid i,
       ins !! iid = Some i → status i = active →
       ∃ user, us !! pi_user i = Some user ∧ activePlanInstance user = Some iid)
  ∧ (∀ iid i,
       ins !! iid = Some i → status i = active → is_Some (ps !! pi_plan i)).

Definition wellFormed (st : Store num) : Prop :=
  wfMaps (users st) (instances st) (plans st).

End Requests.

(** ** The two runtimes *)

(** [x < y] on rationals. *)
Definition Qlt_bool (x y : Q) : bool := negb (Qle_bool y x).

(** [x.toFixed(1)] in tenths: the sign of [x] and the integer [n] with
    [n / 10] nearest to [|x|], the larger one on a tie. *)
Definition Q_toFixed1 (q : Q) : Z :=
  if Qlt_bool q 0 then (- Qfloor (- q * 10 + (1 # 2)))%Z
  else Qfloor (q * 10 + (1 # 2)).

(** Exact arithmetic on rationals, which has no NaN; the server's clock
    is on UTC, where a calendar day is 24 hours. *)
#[export] Instance exactRuntime : Runtime Q := {|
  num_ofZ := inject_Z;
  num_add := Qplus; num_sub := Qminus; num_mul := Qmult; num_div := Qdiv;
  num_opp := Qopp;
  num_lt := Qlt_bool; num_le := Qle_bool;
  num_isNaN := λ _, false;
  num_falsy := λ q, Qeq_bool q 0;
  toFixed1 := Q_toFixed1;
  addDays := λ t d, (t + d * 86400000)%Z
|}.

(** An integer as a binary64 float (exact below 2^53). *)
Definition float_ofZ (z : Z) : float :=
  match z with
  | Z0 => 0%float
  | Zpos _ => of_uint63 (Uint63.of_Z z)
  | Zneg p => (- of_uint63 (Uint63.of_Z (Zpos p)))%float
  end.

(** [x.toFixed(1)] in tenths, for a finite [x] below 10^21: the sign of
    [x] and the integer [n] with [n / 10] nearest to the exact value of
    [|x|], the larger one on a tie.  (NaN and the infinities, which print
    as words, are given 0.) *)
Definition float_toFixed1 (x : float) : Z :=
  match Prim2SF x with
  | S754_finite s m e =>                             (* |x| = m * 2^e *)
      let n :=
        if (0 <=? e)%Z then (10 * Zpos m * 2 ^ e)%Z
        else ((20 * Zpos m + 2 ^ (- e)) / 2 ^ (- e + 1))%Z in
      if s then (- n)%Z else n
  | _ => 0%Z
  end.

(** The Numbers of the source: IEEE 754 binary64, round to nearest even;
    the server's clock is on UTC. *)
#[export] Instance ieeeRuntime : Runtime float := {|
  num_ofZ := float_ofZ;
  num_add := PrimFloat.add; num_sub := PrimFloat.sub;
  num_mul := PrimFloat.mul; num_div := PrimFloat.div;
  num_opp := PrimFloat.opp;
  num_lt := PrimFloat.ltb; num_le := PrimFloat.leb;
  num_isNaN := λ x, negb (PrimFloat.eqb x x);
  num_falsy := λ x, PrimFloat.eqb x 0%float || negb (PrimFloat.eqb x x);
  toFixed1 := float_toFixed1;
  addDays := λ t d, (t + d * 86400000)%Z
|}.

(** C1 as stated: over a sequence of requests, the signed amounts of the
    transactions recorded for a user add up to the change of that user's
    wallet balance. *)
Definition ledgerMatchesWallet {num} `{RT : Runtime num} (st : Store num)
    (reqs : list (Z * request num)) (uid : id) : Prop :=
  ledgerOf (run st reqs) uid ⊖ ledgerOf st uid
  = walletOf (run st reqs) uid ⊖ walletOf st uid.

(** Nothing in the store is negative: the commission rates, the
    minAmount and dailyYieldValue of every plan, the dailyProfit of every
    instance, and both balances of every user. *)
Definition nonNegative (st : Store Q) : Prop :=
  (∀ cfg, settings st = Some cfg →
     0 <= referralCommissionRate cfg ∧ 0 <= dailyCommissionRate cfg)
  ∧ (∀ pid plan, plans st !! pid = Some plan →
       0 <= minAmount plan ∧ 0 <= dailyYieldValue plan)
  ∧ (∀ iid i, instances st !! iid = Some i → 0 <= dailyProfit i)
  ∧ (∀ uid user, users st !! uid = Some user →
       0 <= walletBalance user ∧ 0 <= bonusBalance user).

(** ** Example stores, in exact arithmetic *)

Definition planBasic : Plan Q :=
  {| name := "Basic"; minAmount := 500; maxAmount := 5000;
     dailyYieldType := "percentage"; dailyYieldValue := 2;
     durationDays := 30; hashRate := None; imageUrl := EmptyString |}.

Definition planPro : Plan Q :=
  {| name := "Pro"; minAmount := 1500; maxAmount := 9000;
     dailyYieldType := "fixed"; dailyYieldValue := 40;
     durationDays := 30; hashRate := None; imageUrl := EmptyString |}.

Definition mainSettings : Settings Q :=
  {| referralCommissionRate := 10; dailyCommissionRate := 5 |}.

(** User 1 was invited by user 2 and holds a bonus of 100. *)
Definition alice : User Q :=
  {| userId := "alice"; walletBalance := 1000; bonusBalance := 100;
     invitedBy := Some 2%positive; activePlanInstance := None |}.

Definition bob : User Q :=
  {| userId := "bob"; walletBalance := 0; bonusBalance := 0;
     invitedBy := None; activePlanInstance := None |}.

Definition demoStore : Store Q :=
  {| users := <[1%positive := alice]> (<[2%positive := bob]> ∅);
     plans := <[1%positive := planBasic]> (<[2%positive := planPro]> ∅);
     instances := ∅;
     transactions := [];
     settings := Some mainSettings |}.

(** User 1 with wallet balance [w] and an active instance. *)
Definition aliceActiveWith (w : Q) : User Q :=
  {| userId := "alice"; walletBalance := w; bonusBalance := 0;
     invitedBy := Some 2%positive; activePlanInstance := Some 1%positive |}.

Definition aliceInstance : PlanInstance Q :=
  newInstanceDoc 1 1 planBasic 1000 20 0.

(** User 1 holds an active instance of the Basic plan created at time 0;
    the referrer, user 2, holds none. *)
Definition activeStoreWith (w : Q) : Store Q :=
  {| users := <[1%positive := aliceActiveWith w]> (<[2%positive := bob]> ∅);
     plans := <[1%positive := planBasic]> (<[2%positive := planPro]> ∅);
     instances := {[1%positive := aliceInstance]};
     transactions := [];
     settings := Some mainSettings |}.

Definition aliceActive : User Q := aliceActiveWith 100.
Definition activeStore : Store Q := activeStoreWith 100.

(** User 1 holds no active instance; instance 1 of the Basic plan is
    their expired history. *)
Definition aliceIdle : User Q :=
  {| userId := "alice"; walletBalance := 1000; bonusBalance := 0;
     invitedBy := Some 2%positive; activePlanInstance := None |}.

Definition expiredStore : Store Q :=
  {| users := <[1%positive := aliceIdle]> (<[2%positive := bob]> ∅);
     plans := <[1%positive := planBasic]> (<[2%positive := planPro]> ∅);
     instances := {[1%positive := setStatus aliceInstance expired]};
     transactions := [];
     settings := Some mainSettings |}.

(** A complete body whose minAmount 10 exceeds its maxAmount 5. *)
Definition invertedBody : PlanBody Q :=
  {| b_name := Some "Inverted"; b_minAmount := Some 10; b_maxAmount := Some 5;
     b_dailyYieldType := Some "fixed"; b_dailyYieldValue := Some 1;
     b_durationDays := Some 30%Z; b_hashRate := None; b_imageUrl := None |}.

(** A partial body that only lowers maxAmount to 100. *)
Definition lowerMaxBody : PlanBody Q :=
  {| b_name := None; b_minAmount := None; b_maxAmount := Some 100;
     b_dailyYieldType := None; b_dailyYieldValue := None;
     b_durationDays := None; b_hashRate := None; b_imageUrl := None |}.

(** The referrer, user 2, holds an active instance as well. *)
Definition bobActive : User Q :=
  {| userId := "bob"; walletBalance := 0; bonusBalance := 0;
     invitedBy := None; activePlanInstance := Some 2%positive |}.

Definition referrerActiveStore : Store Q :=
  {| users := <[1%positive := aliceActive]> (<[2%positive := bobActive]> ∅);
     plans := <[1%positive := planBasic]> (<[2%positive := planPro]> ∅);
     instances :=
       <[1%positive := aliceInstance]>
         {[2%positive := newInstanceDoc 2 2 planPro 1500 40 0]};
     transactions := [];
     settings := Some mainSettings |}.

(** User 1 activates 500 on the Basic plan, lets it run out, notices on
    the next collection and renews. *)
Definition demoRequests : list (Z * request Q) :=
  [(0%Z, Activate 1 1 (Some 500));
   (2592000001%Z, Collect 1);
   (2592000002%Z, Renew 1 1)].

(** ** Example stores, in binary64 arithmetic *)

(** A plan for amounts between 1 and 5000 paying 2 % a day, and a plan
    whose minAmount is 1.1. *)
Definition planCent : Plan float :=
  {| name := "Cent"; minAmount := 1%float; maxAmount := 5000%float;
     dailyYieldType := "percentage"; dailyYieldValue := 2%float;
     durationDays := 30; hashRate := None; imageUrl := EmptyString |}.

Definition planDime : Plan float :=
  {| name := "Dime"; minAmount := 1.1%float; maxAmount := 9000%float;
     dailyYieldType := "fixed"; dailyYieldValue := 0.2%float;
     durationDays := 30; hashRate := None; imageUrl := EmptyString |}.

Definition floatSettings : Settings float :=
  {| referralCommissionRate := 10%float; dailyCommissionRate := 5%float |}.

(** A user with the given wallet and bonus balances, invited by user 2,
    without an active instance. *)
Definition carol (wallet bonus : float) : User float :=
  {| userId := "carol"; walletBalance := wallet; bonusBalance := bonus;
     invitedBy := Some 2%positive; activePlanInstance := None |}.

Definition dave : User float :=
  {| userId := "dave"; walletBalance := 0%float; bonusBalance := 0%float;
     invitedBy := None; activePlanInstance := Some 2%positive |}.

(** Instance 2, the referrer's: 1.1 on the Dime plan since time 0. *)
Definition daveInstance : PlanInstance float :=
  {| pi_user := 2; pi_plan := 2; investedAmount := 1.1%float;
     dailyProfit := 0.2%float; startDate := 0; endDate := 2592000000;
     lastCollectedDate := Some 0%Z; totalCollected := 0%float;
     status := active |}.

Definition floatStore (wallet bonus : float) : Store float :=
  {| users := <[1%positive := carol wallet bonus]> (<[2%positive := dave]> ∅);
     plans := <[1%positive := planCent]> (<[2%positive := planDime]> ∅);
     instances := {[2%positive := daveInstance]};
     transactions := [];
     settings := Some floatSettings |}.

(** User 1 with the given wallet, holding instance 1 of the Cent plan:
    invested 1, paying 0.2 a day, created at time 1000 and last collected
    at time 5000000. *)
Definition carolActive (wallet : float) : User float :=
  {| userId := "carol"; walletBalance := wallet; bonusBalance := 0%float;
     invitedBy := Some 2%positive; activePlanInstance := Some 1%positive |}.

Definition carolInstance : PlanInstance float :=
  {| pi_user := 1; pi_plan := 1; investedAmount := 1%float;
     dailyProfit := 0.2%float; startDate := 1000; endDate := 2592001000;
     lastCollectedDate := Some 5000000%Z; totalCollected := 0.2%float;
     status := active |}.

Definition floatActiveStore (wallet : float) : Store float :=
  {| users := <[1%positive := carolActive wallet]> (<[2%positive := dave]> ∅);
     plans := <[1%positive := planCent]> (<[2%positive := planDime]> ∅);
     instances := <[1%positive := carolInstance]> {[2%positive := daveInstance]};
     transactions := [];
     settings := Some floatSettings |}.

(** User 1 with the given wallet and no active instance; instance 1, of
    the Dime plan, is their expired history. *)
Definition carolExpired : PlanInstance float :=
  {| pi_user := 1; pi_plan := 2; investedAmount := 1.1%float;
     dailyProfit := 0.2%float; startDate := 0; endDate := 2592000000;
     lastCollectedDate := Some 2500000000%Z; totalCollected := 5.8%float;
     status := expired |}.

Definition floatExpiredStore (wallet : float) : Store float :=
  {| users := <[1%positive := carol wallet 0]> (<[2%positive := dave]> ∅);
     plans := <[1%positive := planCent]> (<[2%positive := planDime]> ∅);
     instances := <[1%positive := carolExpired]> {[2%positive := daveInstance]};
     transactions := [];
     settings := Some floatSettings |}.

(** * Properties *)

(** ** Comparisons *)

Lemma Qlt_bool_true (x y : Q) : Qlt_bool x y = true ↔ x < y.
Proof.
  unfold Qlt_bool. rewrite negb_true_iff. split.
  - intros H. apply Qnot_le_lt. intros Hle.
    apply Qle_bool_iff in Hle. congruence.
  - intros H. destruct (Qle_bool y x) eqn:E; [|reflexivity].
    apply Qle_bool_iff in E. exfalso. exact (Qlt_not_le _ _ H E).
Qed.

Lemma Qlt_bool_false (x y : Q) : Qlt_bool x y = false ↔ y <= x.
Proof.
  unfold Qlt_bool. rewrite negb_false_iff. apply Qle_bool_iff.
Qed.

Lemma Qle_bool_false (x y : Q) : Qle_bool x y = false ↔ y < x.
Proof.
  rewrite <- Qlt_bool_true. unfold Qlt_bool.
  destruct (Qle_bool x y); simpl; intuition congruence.
Qed.

Lemma bool_decide_is_Some_None {A} :
  bool_decide (is_Some (@None A)) = false.
Proof. apply bool_decide_eq_false. intros [x Hx]. discriminate. Qed.

Lemma bool_decide_is_Some_Some {A} (x : A) :
  bool_decide (is_Some (Some x)) = true.
Proof. apply bool_decide_eq_true. eauto. Qed.

(** ** The funding split in exact arithmetic *)

(** Shows the operations of [exactRuntime] as the operations of [Q]. *)
Ltac exact_arith :=
  cbn [num_ofZ num_add num_sub num_mul num_div num_opp num_lt num_le
       num_isNaN num_falsy exactRuntime] in *;
  change (inject_Z 0) with 0 in *;
  change (inject_Z 100) with 100 in *.

(** The same, with the outcome of every comparison as a proposition. *)
Ltac exact_props :=
  exact_arith;
  repeat match goal with
         | Hc : Qlt_bool _ _ = true |- _ => apply Qlt_bool_true in Hc
         | Hc : Qlt_bool _ _ = false |- _ => apply Qlt_bool_false in Hc
         | Hc : Qle_bool _ _ = true |- _ => apply Qle_bool_iff in Hc
         | Hc : Qle_bool _ _ = false |- _ => apply Qle_bool_false in Hc
         end.

Lemma splitFunding_bonus_le (bonus amount : Q) :
  0 <= bonus → (splitFunding bonus amount).1 <= bonus.
Proof.
  intros Hb. unfold splitFunding. exact_arith.
  destruct (Qlt_bool 0 bonus) eqn:E0; [destruct (Qle_bool amount bonus) eqn:E1|];
    simpl.
  - by apply Qle_bool_iff.
  - apply Qle_refl.
  - exact Hb.
Qed.

(** ** Reading balances after a write *)

Lemma walletOf_saveUser {num} `{RT : Runtime num} (st : Store num) k u j :
  walletOf (saveUser st k u) j
  = if decide (k = j) then walletBalance u else walletOf st j.
Proof.
  unfold walletOf, saveUser; simpl. rewrite lookup_insert.
  destruct (decide (k = j)); reflexivity.
Qed.

Lemma bonusOf_saveUser {num} `{RT : Runtime num} (st : Store num) k u j :
  bonusOf (saveUser st k u) j
  = if decide (k = j) then bonusBalance u else bonusOf st j.
Proof.
  unfold bonusOf, saveUser; simpl. rewrite lookup_insert.
  destruct (decide (k = j)); reflexivity.
Qed.

Lemma walletOf_lookup {num} `{RT : Runtime num} (st : Store num) k u :
  users st !! k = Some u → walletOf st k = walletBalance u.
Proof. unfold walletOf. by intros ->. Qed.

Lemma bonusOf_lookup {num} `{RT : Runtime num} (st : Store num) k u :
  users st !! k = Some u → bonusOf st k = bonusBalance u.
Proof. unfold bonusOf. by intros ->. Qed.

Lemma splitFunding_cases {num} `{RT : Runtime num} (bonus amount : num) :
  (num_lt (num_ofZ 0) bonus = true ∧ num_le amount bonus = true
   ∧ splitFunding bonus amount = (amount, num_ofZ 0))
  ∨ (num_lt (num_ofZ 0) bonus = true ∧ num_le amount bonus = false
     ∧ splitFunding bonus amount = (bonus, amount ⊖ bonus))
  ∨ (num_lt (num_ofZ 0) bonus = false
     ∧ splitFunding bonus amount = (num_ofZ 0, amount)).
Proof.
  unfold splitFunding.
  destruct (num_lt (num_ofZ 0) bonus); [|by right; right].
  destruct (num_le amount bonus); [by left | by right; left].
Qed.

(** ** Lookups *)

Lemma populateActive_Some {num} `{RT : Runtime num} (st : Store num) user iid inst :
  activePlanInstance user = Some iid →
  instances st !! iid = Some inst →
  populateActive st user = Some (iid, inst).
Proof. unfold populateActive. by intros -> ->. Qed.

Lemma populateActive_inv {num} `{RT : Runtime num} (st : Store num) user iid inst :
  populateActive st user = Some (iid, inst) →
  activePlanInstance user = Some iid ∧ instances st !! iid = Some inst.
Proof.
  unfold populateActive.
  destruct (activePlanInstance user) as [k|]; [|discriminate].
  destruct (instances st !! k) as [i|] eqn:Hi; [|discriminate].
  by intros [= <- <-].
Qed.

Lemma freshId_not_in {A} (m : gmap id A) : m !! freshId m = None.
Proof.
  apply not_elem_of_dom. unfold freshId. apply is_fresh.
Qed.

Lemma freshId_ne {A} (m : gmap id A) k : is_Some (m !! k) → freshId m ≠ k.
Proof.
  intros [x Hx] Heq. rewrite <- Heq, freshId_not_in in Hx. discriminate.
Qed.

(** ** The writes of each handler *)

(** Closes a conjunction of recorded facts whose last conjunct is the
    equation that fixes the existential witnesses. *)
Ltac facts :=
  split_and!; [> idtac .. | reflexivity]; first [eassumption | reflexivity].

Lemma payActivationCommission_cases {num} `{RT : Runtime num} (st : Store num) cfg user amount :
  payActivationCommission st cfg user amount = st
  ∨ ∃ rid referrer t,
      invitedBy user = Some rid ∧ users st !! rid = Some referrer
      ∧ tx_user t = rid ∧ tx_type t = commission
      ∧ tx_amount t = amount ⊗ (referralCommissionRate cfg ⊘ num_ofZ 100)
      ∧ payActivationCommission st cfg user amount
        = createTransaction
            (saveUser st rid
               (credit referrer
                  (amount ⊗ (referralCommissionRate cfg ⊘ num_ofZ 100)))) t.
Proof.
  unfold payActivationCommission.
  destruct (invitedBy user) as [rid|]; [|by left].
  destruct (users st !! rid) as [referrer|] eqn:Hr; [|by left].
  right. eexists rid, referrer, _. facts.
Qed.

Lemma payDailyCommission_cases {num} `{RT : Runtime num} (st : Store num) cfg user profit :
  payDailyCommission st cfg user profit = st
  ∨ ∃ rid referrer t,
      invitedBy user = Some rid ∧ users st !! rid = Some referrer
      ∧ is_Some (activePlanInstance referrer)
      ∧ tx_user t = rid ∧ tx_type t = commission
      ∧ tx_amount t = profit ⊗ (dailyCommissionRate cfg ⊘ num_ofZ 100)
      ∧ payDailyCommission st cfg user profit
        = createTransaction
            (saveUser st rid
               (credit referrer
                  (profit ⊗ (dailyCommissionRate cfg ⊘ num_ofZ 100)))) t.
Proof.
  unfold payDailyCommission.
  destruct (invitedBy user) as [rid|]; [|by left].
  destruct (users st !! rid) as [referrer|] eqn:Hr; [|by left].
  destruct (bool_decide (is_Some (activePlanInstance referrer))) eqn:Hact;
    [|by left].
  apply bool_decide_eq_true in Hact.
  right. eexists rid, referrer, _. facts.
Qed.

Lemma payActivationCommission_instances {num} `{RT : Runtime num} (st : Store num) cfg user amount :
  instances (payActivationCommission st cfg user amount) = instances st.
Proof.
  destruct (payActivationCommission_cases st cfg user amount)
    as [->|(rid & referrer & t & _ & _ & _ & _ & _ & ->)]; reflexivity.
Qed.

Lemma payDailyCommission_instances {num} `{RT : Runtime num} (st : Store num) cfg user profit :
  instances (payDailyCommission st cfg user profit) = instances st.
Proof.
  destruct (payDailyCommission_cases st cfg user profit)
    as [->|(rid & referrer & t & _ & _ & _ & _ & _ & _ & ->)]; reflexivity.
Qed.

Lemma payActivationCommission_settings {num} `{RT : Runtime num} (st : Store num) cfg user amount :
  settings (payActivationCommission st cfg user amount) = settings st.
Proof.
  destruct (payActivationCommission_cases st cfg user amount)
    as [->|(rid & referrer & t & _ & _ & _ & _ & _ & ->)]; reflexivity.
Qed.

Lemma payDailyCommission_settings {num} `{RT : Runtime num} (st : Store num) cfg user profit :
  settings (payDailyCommission st cfg user profit) = settings st.
Proof.
  destruct (payDailyCommission_cases st cfg user profit)
    as [->|(rid & referrer & t & _ & _ & _ & _ & _ & _ & ->)]; reflexivity.
Qed.

Lemma payActivationCommission_transactions {num} `{RT : Runtime num} (st : Store num) cfg user amount :
  ∃ extra,
    transactions (payActivationCommission st cfg user amount)
      = (extra ++ transactions st)%list
    ∧ Forall (λ t, tx_type t = commission) extra.
Proof.
  destruct (payActivationCommission_cases st cfg user amount)
    as [->|(rid & referrer & t & _ & _ & _ & Hty & _ & ->)]; [by exists []|].
  exists [t]. split; [reflexivity|]. by constructor.
Qed.

Lemma payDailyCommission_transactions {num} `{RT : Runtime num} (st : Store num) cfg user profit :
  ∃ extra,
    transactions (payDailyCommission st cfg user profit)
      = (extra ++ transactions st)%list
    ∧ Forall (λ t, tx_type t = commission) extra.
Proof.
  destruct (payDailyCommission_cases st cfg user profit)
    as [->|(rid & referrer & t & _ & _ & _ & _ & Hty & _ & ->)]; [by exists []|].
  exists [t]. split; [reflexivity|]. by constructor.
Qed.

Lemma payActivationCommission_ref {num} `{RT : Runtime num} (st : Store num) cfg user amount uid u :
  users st !! uid = Some u →
  ∃ u', users (payActivationCommission st cfg user amount) !! uid = Some u'
        ∧ activePlanInstance u' = activePlanInstance u.
Proof.
  intros Hu.
  destruct (payActivationCommission_cases st cfg user amount)
    as [->|(rid & referrer & t & _ & Hr & _ & _ & _ & ->)]; [eauto|].
  simpl. rewrite lookup_insert. case_decide; [|eauto].
  subst rid. eexists. split; [reflexivity|]. simpl. congruence.
Qed.

Lemma payDailyCommission_ref {num} `{RT : Runtime num} (st : Store num) cfg user profit uid u :
  users st !! uid = Some u →
  ∃ u', users (payDailyCommission st cfg user profit) !! uid = Some u'
        ∧ activePlanInstance u' = activePlanInstance u.
Proof.
  intros Hu.
  destruct (payDailyCommission_cases st cfg user profit)
    as [->|(rid & referrer & t & _ & Hr & _ & _ & _ & _ & ->)]; [eauto|].
  simpl. rewrite lookup_insert. case_decide; [|eauto].
  subst rid. eexists. split; [reflexivity|]. simpl. congruence.
Qed.

Lemma activatePlan_cases {num} `{RT : Runtime num} (st : Store num) uid planId amount now :
  (errorOf (activatePlan st uid planId amount now).1 ≠ None ∧ (activatePlan st uid planId amount now).2 = st)
  ∨ ∃ cfg user plan a bonusUsed walletUsed user' t,
      settings st = Some cfg ∧ users st !! uid = Some user
      ∧ activePlanInstance user = None ∧ plans st !! planId = Some plan
      ∧ amount = Some a
      ∧ (num_isNaN a = false ∧ num_lt a (minAmount plan) = false)
      ∧ num_lt (maxAmount plan) a = false
      ∧ splitFunding (bonusBalance user) a = (bonusUsed, walletUsed)
      ∧ num_lt (walletBalance user) walletUsed = false
      ∧ userId user' = userId user ∧ invitedBy user' = invitedBy user
      ∧ walletBalance user' = walletBalance user ⊖ walletUsed
      ∧ bonusBalance user' = bonusBalance user ⊖ bonusUsed
      ∧ activePlanInstance user' = Some (freshId (instances st))
      ∧ tx_user t = uid ∧ tx_type t = investment ∧ tx_amount t = num_opp a
      ∧ activatePlan st uid planId amount now
        = (Activated (freshId (instances st))
             (newInstanceDoc uid planId plan a (computeDailyProfit plan a) now),
           payActivationCommission
             (createTransaction
                (saveUser
                   (saveInstance st (freshId (instances st))
                      (newInstanceDoc uid planId plan a
                         (computeDailyProfit plan a) now))
                   uid user') t)
             cfg user' a).
Proof.
  unfold activatePlan.
  destruct (settings st) as [cfg|]; [|by left; split].
  destruct (users st !! uid) as [user|] eqn:Hu; [|by left; split].
  destruct (activePlanInstance user) as [x|] eqn:Hact.
  { rewrite bool_decide_is_Some_Some. by left; split. }
  rewrite bool_decide_is_Some_None.
  destruct (plans st !! planId) as [plan|]; [|by left; split].
  destruct amount as [a|]; [|by left; split].
  destruct (num_isNaN a || num_lt a (minAmount plan) || num_lt (maxAmount plan) a)
    eqn:Hr; [by left; split|].
  apply orb_false_iff in Hr. destruct Hr as [Hr Hhi].
  apply orb_false_iff in Hr. destruct Hr as [Hnan Hlo].
  destruct (splitFunding (bonusBalance user) a) as [bonusUsed walletUsed] eqn:Hs.
  destruct (num_lt (walletBalance user) walletUsed) eqn:Hw; [by left; split|].
  right.
  eexists cfg, user, plan, a, bonusUsed, walletUsed, _, _.
  facts.
Qed.

Lemma upgradePlan_cases {num} `{RT : Runtime num} (st : Store num) uid newPlanId now :
  (errorOf (upgradePlan st uid newPlanId now).1 ≠ None ∧ (upgradePlan st uid newPlanId now).2 = st)
  ∨ ∃ user oldId oldInst oldPlan newPlan iid user' t,
      users st !! uid = Some user
      ∧ activePlanInstance user = Some oldId
      ∧ instances st !! oldId = Some oldInst
      ∧ plans st !! pi_plan oldInst = Some oldPlan
      ∧ plans st !! newPlanId = Some newPlan
      ∧ num_le (minAmount newPlan) (minAmount oldPlan) = false
      ∧ num_lt (walletBalance user) (minAmount newPlan ⊖ minAmount oldPlan) = false
      ∧ iid = freshId (<[oldId := setStatus oldInst expired]> (instances st))
      ∧ userId user' = userId user ∧ invitedBy user' = invitedBy user
      ∧ walletBalance user'
        = walletBalance user ⊖ (minAmount newPlan ⊖ minAmount oldPlan)
      ∧ bonusBalance user' = bonusBalance user
      ∧ activePlanInstance user' = Some iid
      ∧ tx_user t = uid ∧ tx_type t = investment
      ∧ tx_amount t = num_opp (minAmount newPlan ⊖ minAmount oldPlan)
      ∧ upgradePlan st uid newPlanId now
        = (Upgraded,
           createTransaction
             (saveUser
                (saveInstance
                   (saveInstance st oldId (setStatus oldInst expired)) iid
                   (newInstanceDoc uid newPlanId newPlan (minAmount newPlan)
                      (computeDailyProfit newPlan (minAmount newPlan)) now))
                uid user') t).
Proof.
  unfold upgradePlan.
  destruct (users st !! uid) as [user|] eqn:Hu; [|by left; split].
  destruct (populateActive st user) as [[oldId oldInst]|] eqn:Hpop; [|by left; split].
  apply populateActive_inv in Hpop as [Hact Hi].
  destruct (plans st !! newPlanId) as [newPlan|]; [|by left; split].
  destruct (plans st !! pi_plan oldInst) as [oldPlan|] eqn:Hop; [|by left; split].
  destruct (num_le (minAmount newPlan) (minAmount oldPlan)) eqn:Hle; [by left; split|].
  destruct (num_lt (walletBalance user) (minAmount newPlan ⊖ minAmount oldPlan))
    eqn:Hw; [by left; split|].
  right.
  eexists user, oldId, oldInst, oldPlan, newPlan, _, _, _.
  facts.
Qed.

Lemma collectDailyProfit_cases {num} `{RT : Runtime num} (st : Store num) uid now :
  (errorOf (collectDailyProfit st uid now).1 ≠ None ∧ (collectDailyProfit st uid now).2 = st)
  ∨ (∃ cfg user iid inst user',
       settings st = Some cfg ∧ users st !! uid = Some user
       ∧ activePlanInstance user = Some iid
       ∧ instances st !! iid = Some inst
       ∧ (endDate inst < now)%Z
       ∧ userId user' = userId user ∧ invitedBy user' = invitedBy user
       ∧ walletBalance user' = walletBalance user
       ∧ bonusBalance user' = bonusBalance user
       ∧ activePlanInstance user' = None
       ∧ collectDailyProfit st uid now
         = (PlanExpired,
            saveUser (saveInstance st iid (setStatus inst expired)) uid user'))
  ∨ (∃ cfg user iid inst inst' t,
       settings st = Some cfg ∧ users st !! uid = Some user
       ∧ activePlanInstance user = Some iid
       ∧ instances st !! iid = Some inst
       ∧ (now <= endDate inst)%Z
       ∧ (lastCollectionBase inst + DAY_MS <= now)%Z
       ∧ termsOf inst' = termsOf inst ∧ status inst' = status inst
       ∧ lastCollectedDate inst' = Some now
       ∧ totalCollected inst' = totalCollected inst ⊕ dailyProfit inst
       ∧ tx_user t = uid ∧ tx_type t = collection
       ∧ tx_amount t = dailyProfit inst
       ∧ collectDailyProfit st uid now
         = (Collected (dailyProfit inst),
            payDailyCommission
              (createTransaction
                 (saveUser (saveInstance st iid inst') uid
                    (credit user (dailyProfit inst))) t)
              cfg (credit user (dailyProfit inst)) (dailyProfit inst))).
Proof.
  unfold collectDailyProfit.
  destruct (settings st) as [cfg|]; [|by left; split].
  destruct (users st !! uid) as [user|] eqn:Hu; [|by left; split].
  destruct (populateActive st user) as [[iid inst]|] eqn:Hpop; [|by left; split].
  apply populateActive_inv in Hpop as [Hact Hi].
  destruct (endDate inst <? now)%Z eqn:Hexp.
  - apply Z.ltb_lt in Hexp. right; left.
    eexists cfg, user, iid, inst, _.
    facts.
  - apply Z.ltb_ge in Hexp.
    destruct (now <? nextCollectionTime inst)%Z eqn:Hsoon; [by left; split|].
    apply Z.ltb_ge in Hsoon. unfold nextCollectionTime in Hsoon.
    right; right.
    eexists cfg, user, iid, inst, _, _.
    facts.
Qed.

Lemma renewPlan_cases {num} `{RT : Runtime num} (st : Store num) uid instanceId now :
  (errorOf (renewPlan st uid instanceId now).1 ≠ None ∧ (renewPlan st uid instanceId now).2 = st)
  ∨ ∃ user oldInstance planToRenew user' t,
      instances st !! instanceId = Some oldInstance
      ∧ users st !! uid = Some user
      ∧ pi_user oldInstance = uid ∧ status oldInstance = expired
      ∧ activePlanInstance user = None
      ∧ plans st !! pi_plan oldInstance = Some planToRenew
      ∧ num_lt (walletBalance user) (minAmount planToRenew) = false
      ∧ userId user' = userId user ∧ invitedBy user' = invitedBy user
      ∧ walletBalance user' = walletBalance user ⊖ minAmount planToRenew
      ∧ bonusBalance user' = bonusBalance user
      ∧ activePlanInstance user' = Some (freshId (instances st))
      ∧ tx_user t = uid ∧ tx_type t = investment
      ∧ tx_amount t = num_opp (minAmount planToRenew)
      ∧ renewPlan st uid instanceId now
        = (Renewed,
           createTransaction
             (saveUser
                (saveInstance st (freshId (instances st))
                   (newInstanceDoc uid (pi_plan oldInstance) planToRenew
                      (minAmount planToRenew)
                      (computeDailyProfit planToRenew (minAmount planToRenew))
                      now))
                uid user') t).
Proof.
  unfold renewPlan.
  destruct (instances st !! instanceId) as [oldInstance|]; [|by left; split].
  destruct (users st !! uid) as [user|] eqn:Hu; [|by left; split].
  destruct (bool_decide (pi_user oldInstance = uid)) eqn:Hown; [|by left; split].
  apply bool_decide_eq_true in Hown. simpl.
  destruct (status oldInstance) eqn:Hst; [by left; split|].
  destruct (activePlanInstance user) as [x|] eqn:Hact.
  { rewrite bool_decide_is_Some_Some. by left; split. }
  rewrite bool_decide_is_Some_None.
  destruct (plans st !! pi_plan oldInstance) as [planToRenew|] eqn:Hp;
    [|by left; split].
  destruct (num_lt (walletBalance user) (minAmount planToRenew)) eqn:Hw;
    [by left; split|].
  right.
  eexists user, oldInstance, planToRenew, _, _.
  facts.
Qed.

(** ** The commission of a user who is their own referrer *)

(** What the commission step of [activatePlan] does to the document of
    the activating user [uid], saved as [user']. *)
Lemma payActivationCommission_self {num} `{RT : Runtime num} (st : Store num) cfg uid user' amount :
  users st !! uid = Some user' →
  ∃ u,
    users (payActivationCommission st cfg user' amount) !! uid = Some u
    ∧ bonusBalance u = bonusBalance user'
    ∧ activePlanInstance u = activePlanInstance user'
    ∧ walletBalance u
      = if bool_decide (invitedBy user' = Some uid)
        then walletBalance user'
             ⊕ amount ⊗ (referralCommissionRate cfg ⊘ num_ofZ 100)
        else walletBalance user'.
Proof.
  intros Hu. unfold payActivationCommission.
  destruct (invitedBy user') as [rid|] eqn:Hinv.
  - destruct (decide (rid = uid)) as [->|Hne].
    + rewrite Hu, bool_decide_eq_true_2 by reflexivity. simpl.
      rewrite lookup_insert_eq. eexists. by split_and!.
    + rewrite bool_decide_eq_false_2 by congruence.
      destruct (users st !! rid) as [referrer|] eqn:Hr; simpl.
      * rewrite lookup_insert_ne by done. eexists. by split_and!.
      * eexists. by split_and!.
  - rewrite bool_decide_eq_false_2 by congruence. eexists. by split_and!.
Qed.

Lemma payDailyCommission_self {num} `{RT : Runtime num} (st : Store num) cfg uid user' profit :
  users st !! uid = Some user' →
  is_Some (activePlanInstance user') →
  ∃ u,
    users (payDailyCommission st cfg user' profit) !! uid = Some u
    ∧ bonusBalance u = bonusBalance user'
    ∧ activePlanInstance u = activePlanInstance user'
    ∧ walletBalance u
      = if bool_decide (invitedBy user' = Some uid)
        then walletBalance user'
             ⊕ profit ⊗ (dailyCommissionRate cfg ⊘ num_ofZ 100)
        else walletBalance user'.
Proof.
  intros Hu Hact. unfold payDailyCommission.
  destruct (invitedBy user') as [rid|] eqn:Hinv.
  - destruct (decide (rid = uid)) as [->|Hne].
    + rewrite Hu.
      rewrite (bool_decide_eq_true_2 (Some uid = Some uid)) by reflexivity.
      rewrite (bool_decide_eq_true_2 (is_Some _)) by done. simpl.
      rewrite lookup_insert_eq. eexists. by split_and!.
    + rewrite bool_decide_eq_false_2 by congruence.
      destruct (users st !! rid) as [referrer|] eqn:Hr.
      * destruct (bool_decide (is_Some (activePlanInstance referrer))); simpl;
          rewrite ?lookup_insert_ne by done; eexists; by split_and!.
      * eexists. by split_and!.
  - rewrite bool_decide_eq_false_2 by congruence. eexists. by split_and!.
Qed.

(** ** C2: funding order of an activation *)

(** C2 fails as it is worded: in binary64 arithmetic the two parts need
    not add up to the invested amount.  With a bonus of 42.14 an
    activation of 173.59 is accepted, and 42.14 + (173.59 - 42.14) is not
    173.59. *)
Theorem funding_parts_counterexample :
  (∃ iid planInstance st',
     activatePlan (floatStore 200 42.14) 1 1 (Some 173.59%float) 0
       = (Activated iid planInstance, st'))
  ∧ splitFunding 42.14%float 173.59%float
    = (42.14%float, (173.59 - 42.14)%float)
  ∧ ¬ fundingAddsUp 42.14%float 173.59%float.
Proof.
  split; [eexists _, _, _; vm_compute; reflexivity|].
  split; [vm_compute; reflexivity|].
  unfold fundingAddsUp. intros Heq.
  apply (f_equal (λ x, PrimFloat.eqb x 173.59%float)) in Heq.
  vm_compute in Heq. discriminate.
Qed.

(** C2, amended.  An activation with an in-range amount uses the bonus
    first: all of the amount and nothing of the wallet when the bonus is
    positive and covers it; all of a positive bonus and the wallet for
    amount - bonus otherwise; only the wallet when there is no positive
    bonus.  When the wallet is below the wallet part the request fails
    with InsufficientFunds and the store is unchanged.  Otherwise it
    succeeds and the balances become bonus - bonusUsed and wallet -
    walletUsed (a user who is their own referrer also receives the
    activation commission).  The operations are those of the runtime. *)
Theorem activate_funding_order {num} `{RT : Runtime num} (st : Store num) uid planId amount now cfg user plan :
  settings st = Some cfg →
  users st !! uid = Some user →
  activePlanInstance user = None →
  plans st !! planId = Some plan →
  num_isNaN amount = false →
  num_lt amount (minAmount plan) = false →
  num_lt (maxAmount plan) amount = false →
  ∃ bonusUsed walletUsed,
    ((num_lt (num_ofZ 0) (bonusBalance user) = true
      ∧ num_le amount (bonusBalance user) = true
      ∧ bonusUsed = amount ∧ walletUsed = num_ofZ 0)
     ∨ (num_lt (num_ofZ 0) (bonusBalance user) = true
        ∧ num_le amount (bonusBalance user) = false
        ∧ bonusUsed = bonusBalance user
        ∧ walletUsed = amount ⊖ bonusBalance user)
     ∨ (num_lt (num_ofZ 0) (bonusBalance user) = false
        ∧ bonusUsed = num_ofZ 0 ∧ walletUsed = amount))
    ∧ (num_lt (walletBalance user) walletUsed = true →
         activatePlan st uid planId (Some amount) now = (ActivateShortOfFunds, st)
         ∧ errorOf (ActivateShortOfFunds : response num) = Some InsufficientFunds)
    ∧ (num_lt (walletBalance user) walletUsed = false →
         ∃ iid planInstance st' user',
           activatePlan st uid planId (Some amount) now
             = (Activated iid planInstance, st')
           ∧ users st' !! uid = Some user'
           ∧ bonusBalance user' = bonusBalance user ⊖ bonusUsed
           ∧ walletBalance user'
             = if bool_decide (invitedBy user = Some uid)
               then walletBalance user ⊖ walletUsed
                    ⊕ amount ⊗ (referralCommissionRate cfg ⊘ num_ofZ 100)
               else walletBalance user ⊖ walletUsed).
Proof.
  intros Hcfg Hu Hact Hp Hnan Hlo Hhi.
  exists (splitFunding (bonusBalance user) amount).1,
         (splitFunding (bonusBalance user) amount).2.
  split.
  { unfold splitFunding.
    destruct (num_lt (num_ofZ 0) (bonusBalance user)); [|by right; right].
    destruct (num_le amount (bonusBalance user)); [by left|by right; left]. }
  unfold activatePlan.
  rewrite Hcfg, Hu, Hact, bool_decide_is_Some_None, Hp, Hnan, Hlo, Hhi.
  destruct (splitFunding (bonusBalance user) amount) as [bonusUsed walletUsed];
    simpl.
  split.
  - by intros ->.
  - intros ->.
    match goal with
    | |- context [payActivationCommission ?s cfg ?u amount] =>
        destruct (payActivationCommission_self s cfg uid u amount)
          as (u' & Hu' & Hbn & _ & Hw)
    end.
    { simpl. apply lookup_insert_eq. }
    eexists _, _, _, u'. split; [reflexivity|].
    split; [exact Hu'|]. split; [exact Hbn|]. exact Hw.
Qed.

(** With a bonus of 1 and a wallet of 0.1, an activation of 1.1 is
    refused: the wallet part 1.1 - 1 is 0.10000000000000009.  With a
    bonus of 42.14 and a wallet of 200, an activation of 173.59 leaves a
    wallet of 200 - (173.59 - 42.14) and no bonus. *)
Lemma activate_funding_order_witness :
  activatePlan (floatStore 0.1 1) 1 1 (Some 1.1%float) 0
    = (ActivateShortOfFunds, floatStore 0.1 1)
  ∧ ∃ iid planInstance st' user',
      activatePlan (floatStore 200 42.14) 1 1 (Some 173.59%float) 0
        = (Activated iid planInstance, st')
      ∧ users st' !! 1%positive = Some user'
      ∧ bonusBalance user' = 0%float
      ∧ walletBalance user' = (200 - (173.59 - 42.14))%float.
Proof.
  split.
  - destruct (activate_funding_order (floatStore 0.1 1) 1 1 1.1%float 0
                floatSettings (carol 0.1 1) planCent)
      as (bonusUsed & walletUsed & Hsplit & Hshort & _);
      [vm_compute; reflexivity ..|].
    apply Hshort.
    destruct Hsplit as [(_ & Hle & _)|[(_ & _ & _ & ->)|(Hpos & _)]];
      [vm_compute in Hle; discriminate Hle | vm_compute; reflexivity
      | vm_compute in Hpos; discriminate Hpos].
  - destruct (activate_funding_order (floatStore 200 42.14) 1 1 173.59%float 0
                floatSettings (carol 200 42.14) planCent)
      as (bonusUsed & walletUsed & Hsplit & _ & Hok);
      [vm_compute; reflexivity ..|].
    destruct Hsplit as [(_ & Hle & _)|[(_ & _ & -> & ->)|(Hpos & _)]];
      [vm_compute in Hle; discriminate Hle | | vm_compute in Hpos; discriminate Hpos].
    destruct Hok as (iid & planInstance & st' & user' & Hr & Hu' & Hb & Hw);
      [vm_compute; reflexivity|].
    exists iid, planInstance, st', user'.
    split; [exact Hr|]. split; [exact Hu'|].
    split; [rewrite Hb; vm_compute; reflexivity|].
    rewrite Hw. vm_compute. reflexivity.
Defined.

(** ** Shape of a successful activation *)

Lemma activatePlan_Activated_inv {num} `{RT : Runtime num} (st : Store num) uid planId amount now iid inst st' :
  activatePlan st uid planId amount now = (Activated iid inst, st') →
  ∃ cfg user plan a,
    settings st = Some cfg ∧ users st !! uid = Some user
    ∧ activePlanInstance user = None ∧ plans st !! planId = Some plan
    ∧ amount = Some a
    ∧ num_isNaN a = false
    ∧ num_lt a (minAmount plan) = false ∧ num_lt (maxAmount plan) a = false
    ∧ num_lt (walletBalance user) (splitFunding (bonusBalance user) a).2 = false
    ∧ iid = freshId (instances st)
    ∧ inst = newInstanceDoc uid planId plan a (computeDailyProfit plan a) now
    ∧ instances st' !! iid = Some inst.
Proof.
  intros Hrun.
  destruct (activatePlan_cases st uid planId amount now)
    as [[Herr _]|(cfg & user & plan & a & bonusUsed & walletUsed & user' & t
                  & Hcfg & Hu & Hact & Hp & -> & [Hnan Hlo] & Hhi & Hs & Hw
                  & _ & _ & _ & _ & _ & _ & _ & _ & Heq)].
  { rewrite Hrun in Herr. by destruct Herr. }
  rewrite Heq in Hrun. injection Hrun as <- <- <-.
  exists cfg, user, plan, a. rewrite Hs. simpl.
  split_and!; try done.
  rewrite payActivationCommission_instances. simpl. apply lookup_insert_eq.
Qed.

(** ** C9: the daily profit of a new instance *)

(** C9.  The instance created by a successful activation is stored under
    the returned id, records the invested amount, and its dailyProfit is the
    plan's dailyYieldValue for a fixed plan and
    investedAmount * dailyYieldValue / 100 for a percentage plan. *)
Theorem activate_daily_profit {num} `{RT : Runtime num} (st : Store num) uid planId amount now iid inst st' plan :
  activatePlan st uid planId amount now = (Activated iid inst, st') →
  plans st !! planId = Some plan →
  amount = Some (investedAmount inst)
  ∧ instances st' !! iid = Some inst
  ∧ (dailyYieldType plan = "fixed" →
       dailyProfit inst = dailyYieldValue plan)
  ∧ (dailyYieldType plan = "percentage" →
       dailyProfit inst
       = investedAmount inst ⊗ dailyYieldValue plan ⊘ num_ofZ 100).
Proof.
  intros H0 Hp.
  apply activatePlan_Activated_inv in H0.
  destruct H0 as (cfg & user & plan' & a & Hcfg & Hu & Hact & Hp' & -> & _ & _
                 & _ & _ & -> & -> & Hi).
  assert (plan' = plan) as -> by congruence.
  split; [reflexivity|]. split; [exact Hi|].
  simpl. unfold computeDailyProfit. split; intros ->; reflexivity.
Qed.

(** The example of the specification: 1000 on a 2 % plan earns 20 a day. *)
Lemma activate_daily_profit_witness :
  ∃ iid inst st',
    activatePlan demoStore 1 1 (Some 1000) 0 = (Activated iid inst, st')
    ∧ instances st' !! iid = Some inst
    ∧ dailyProfit inst = 1000 * 2 / 100
    ∧ dailyProfit inst == 20.
Proof.
  eexists _, _, _.
  pose proof (activate_daily_profit demoStore 1 1 (Some 1000) 0 _ _ _ planBasic
                eq_refl eq_refl) as (_ & Hi & _ & Hpct).
  split; [reflexivity|]. split; [exact Hi|].
  split; [exact (Hpct eq_refl)|reflexivity].
Defined.

(** ** C3: the 24-hour cooldown of a collection *)

(** C3.  For a user whose active instance has not expired, let base be the
    instance's lastCollectedDate, or its startDate when no collection date
    is recorded.  Before base + 24 h the request fails with
    CollectionTooSoon and the store is unchanged; the hint is
    ((base + 24 h - now) / 3600000).toFixed(1).  At or after base + 24 h
    the request succeeds, the wallet grows by dailyProfit (and then by the
    daily commission when the user is their own referrer), the instance
    records lastCollectedDate = now and totalCollected + dailyProfit, and a
    collection transaction of +dailyProfit is appended, followed only by
    commission transactions. *)
Theorem collect_cooldown {num} `{RT : Runtime num} (st : Store num) uid now cfg user iid inst :
  settings st = Some cfg →
  users st !! uid = Some user →
  activePlanInstance user = Some iid →
  instances st !! iid = Some inst →
  (now <= endDate inst)%Z →
  let base := match lastCollectedDate inst with
              | Some collected => collected
              | None => startDate inst
              end in
  ((now < base + 86400000)%Z →
     collectDailyProfit st uid now
       = (CollectionTooSoon
            (toFixed1 (num_ofZ (base + 86400000 - now) ⊘ num_ofZ 3600000 : num)),
          st))
  ∧ ((base + 86400000 <= now)%Z →
     ∃ st' user' inst',
       collectDailyProfit st uid now = (Collected (dailyProfit inst), st')
       ∧ users st' !! uid = Some user'
       ∧ walletBalance user'
         = (if bool_decide (invitedBy user = Some uid)
            then walletBalance user ⊕ dailyProfit inst
                 ⊕ dailyProfit inst ⊗ (dailyCommissionRate cfg ⊘ num_ofZ 100)
            else walletBalance user ⊕ dailyProfit inst)
       ∧ bonusBalance user' = bonusBalance user
       ∧ instances st' !! iid = Some inst'
       ∧ lastCollectedDate inst' = Some now
       ∧ totalCollected inst' = totalCollected inst ⊕ dailyProfit inst
       ∧ dailyProfit inst' = dailyProfit inst
       ∧ status inst' = status inst
       ∧ ∃ extra,
           transactions st'
             = (extra ++
                {| tx_user := uid; tx_type := collection;
                   tx_amount := dailyProfit inst;
                   tx_description := "Coleta de rendimento diário" |}
                :: transactions st)%list
           ∧ Forall (λ t, tx_type t = commission) extra).
Proof.
  intros Hcfg Hu Hact Hi Hend base.
  unfold collectDailyProfit.
  rewrite Hcfg, Hu, (populateActive_Some _ _ _ _ Hact Hi).
  assert (Hexp : (endDate inst <? now)%Z = false) by (apply Z.ltb_ge; lia).
  rewrite Hexp.
  assert (Hnext : nextCollectionTime inst = (base + 86400000)%Z) by reflexivity.
  unfold remainingHoursAt. rewrite Hnext. split.
  - intros Hsoon. apply Z.ltb_lt in Hsoon as Hb. rewrite Hb. reflexivity.
  - intros Hlate. apply Z.ltb_ge in Hlate as Hb. rewrite Hb.
    match goal with
    | |- context [payDailyCommission ?s cfg ?u ?p] =>
        destruct (payDailyCommission_self s cfg uid u p)
          as (u' & Hu' & Hbn & _ & Hw);
        [simpl; apply lookup_insert_eq | simpl; rewrite Hact; eauto |];
        destruct (payDailyCommission_transactions s cfg u p) as (extra & He & Hf)
    end.
    eexists _, u', _. split; [reflexivity|].
    split; [exact Hu'|]. split; [exact Hw|]. split; [exact Hbn|].
    split.
    { rewrite payDailyCommission_instances. simpl. apply lookup_insert_eq. }
    do 4 (split; [reflexivity|]).
    exists extra. split; [exact He | exact Hf].
Qed.

(** The instance of the example was last collected at 5000000 ms, so the
    next collection is due at 91400000 ms.  A millisecond after the last
    collection the hint reads 24.0 hours, a millisecond before the due
    time it reads 0.0 hours, and at the due time the profit of 0.2 is
    added to the wallet of 0.1, which then holds 0.30000000000000004. *)
Lemma collect_cooldown_witness :
  collectDailyProfit (floatActiveStore 0.1) 1 5000001
    = (CollectionTooSoon 240, floatActiveStore 0.1)
  ∧ collectDailyProfit (floatActiveStore 0.1) 1 91399999
    = (CollectionTooSoon 0, floatActiveStore 0.1)
  ∧ ∃ st' user',
      collectDailyProfit (floatActiveStore 0.1) 1 91400000
        = (Collected 0.2%float, st')
      ∧ users st' !! 1%positive = Some user'
      ∧ walletBalance user' = 0.30000000000000004%float.
Proof.
  destruct (collect_cooldown (floatActiveStore 0.1) 1 5000001 floatSettings
              (carolActive 0.1) 1 carolInstance eq_refl eq_refl eq_refl eq_refl)
    as [Hfirst _]; [vm_compute; discriminate|].
  destruct (collect_cooldown (floatActiveStore 0.1) 1 91399999 floatSettings
              (carolActive 0.1) 1 carolInstance eq_refl eq_refl eq_refl eq_refl)
    as [Hlast _]; [vm_compute; discriminate|].
  destruct (collect_cooldown (floatActiveStore 0.1) 1 91400000 floatSettings
              (carolActive 0.1) 1 carolInstance eq_refl eq_refl eq_refl eq_refl)
    as [_ Hdue]; [vm_compute; discriminate|].
  split; [|split].
  - rewrite Hfirst by reflexivity. vm_compute. reflexivity.
  - rewrite Hlast by reflexivity. vm_compute. reflexivity.
  - destruct Hdue as (st' & user' & inst' & Hr & Hu & Hw & _);
      [vm_compute; discriminate|].
    exists st', user'. split; [exact Hr|]. split; [exact Hu|].
    rewrite Hw. vm_compute. reflexivity.
Defined.

(** ** C4: lazy expiry on collection *)

(** C4.  When the active instance is past its endDate, a collection marks
    that instance expired, clears the user's active-instance reference and
    fails with PlanExpired.  Nothing is paid: every wallet and bonus
    balance, the instance's lastCollectedDate and totalCollected, and the
    transaction list are unchanged. *)
Theorem collect_expired {num} `{RT : Runtime num} (st : Store num) uid now cfg user iid inst :
  settings st = Some cfg →
  users st !! uid = Some user →
  activePlanInstance user = Some iid →
  instances st !! iid = Some inst →
  (endDate inst < now)%Z →
  ∃ st' user' inst',
    collectDailyProfit st uid now = (PlanExpired, st')
    ∧ instances st' !! iid = Some inst'
    ∧ status inst' = expired
    ∧ lastCollectedDate inst' = lastCollectedDate inst
    ∧ totalCollected inst' = totalCollected inst
    ∧ users st' !! uid = Some user'
    ∧ activePlanInstance user' = None
    ∧ (∀ u, walletOf st' u = walletOf st u)
    ∧ (∀ u, bonusOf st' u = bonusOf st u)
    ∧ transactions st' = transactions st.
Proof.
  intros Hcfg Hu Hact Hi Hend.
  unfold collectDailyProfit.
  rewrite Hcfg, Hu, (populateActive_Some _ _ _ _ Hact Hi).
  apply Z.ltb_lt in Hend. rewrite Hend.
  eexists _, _, _. split; [reflexivity|]. simpl.
  split; [apply lookup_insert_eq|]. do 3 (split; [reflexivity|]).
  split; [apply lookup_insert_eq|]. split; [reflexivity|].
  split; [|split; [|reflexivity]].
  - intros u. rewrite walletOf_saveUser. simpl.
    destruct (decide (uid = u)) as [<-|]; [|reflexivity].
    symmetry. by apply walletOf_lookup.
  - intros u. rewrite bonusOf_saveUser. simpl.
    destruct (decide (uid = u)) as [<-|]; [|reflexivity].
    symmetry. by apply bonusOf_lookup.
Qed.

Lemma collect_expired_witness :
  ∃ st' user' inst',
    collectDailyProfit activeStore 1 2592000001 = (PlanExpired, st')
    ∧ instances st' !! 1%positive = Some inst'
    ∧ status inst' = expired
    ∧ lastCollectedDate inst' = lastCollectedDate aliceInstance
    ∧ totalCollected inst' = totalCollected aliceInstance
    ∧ users st' !! 1%positive = Some user'
    ∧ activePlanInstance user' = None
    ∧ (∀ u, walletOf st' u = walletOf activeStore u)
    ∧ (∀ u, bonusOf st' u = bonusOf activeStore u)
    ∧ transactions st' = transactions activeStore.
Proof.
  apply (collect_expired activeStore 1 2592000001 mainSettings aliceActive 1
           aliceInstance); reflexivity.
Defined.

(** ** C5: upgrade *)

(** C5.  For a user with an active instance and an existing target plan,
    with priceDifference = newPlan.minAmount - oldPlan.minAmount as the
    runtime computes it: the upgrade fails with PreconditionFailed when
    newPlan.minAmount <= oldPlan.minAmount; otherwise it fails with
    InsufficientFunds when walletBalance < priceDifference; otherwise it
    succeeds, the wallet becomes walletBalance - priceDifference, the old
    instance is expired, and the user's active reference points to a new
    active instance of the target plan whose investedAmount is
    newPlan.minAmount.  Failures leave the store unchanged. *)
Theorem upgrade_tier_and_price {num} `{RT : Runtime num} (st : Store num) uid newPlanId now user oldId oldInst oldPlan newPlan :
  users st !! uid = Some user →
  activePlanInstance user = Some oldId →
  instances st !! oldId = Some oldInst →
  plans st !! pi_plan oldInst = Some oldPlan →
  plans st !! newPlanId = Some newPlan →
  (num_le (minAmount newPlan) (minAmount oldPlan) = true →
     upgradePlan st uid newPlanId now = (NotHigherTier, st)
     ∧ errorOf (NotHigherTier : response num) = Some PreconditionFailed)
  ∧ (num_le (minAmount newPlan) (minAmount oldPlan) = false →
     num_lt (walletBalance user) (minAmount newPlan ⊖ minAmount oldPlan) = true →
     upgradePlan st uid newPlanId now
       = (UpgradeShortOfFunds (minAmount newPlan ⊖ minAmount oldPlan), st)
     ∧ errorOf (UpgradeShortOfFunds (minAmount newPlan ⊖ minAmount oldPlan))
       = Some InsufficientFunds)
  ∧ (num_le (minAmount newPlan) (minAmount oldPlan) = false →
     num_lt (walletBalance user) (minAmount newPlan ⊖ minAmount oldPlan) = false →
     ∃ st' user' oldInst' newId newInst,
       upgradePlan st uid newPlanId now = (Upgraded, st')
       ∧ users st' !! uid = Some user'
       ∧ walletBalance user'
         = walletBalance user ⊖ (minAmount newPlan ⊖ minAmount oldPlan)
       ∧ bonusBalance user' = bonusBalance user
       ∧ instances st' !! oldId = Some oldInst'
       ∧ status oldInst' = expired
       ∧ activePlanInstance user' = Some newId
       ∧ newId ≠ oldId
       ∧ instances st !! newId = None
       ∧ instances st' !! newId = Some newInst
       ∧ status newInst = active
       ∧ pi_user newInst = uid
       ∧ pi_plan newInst = newPlanId
       ∧ investedAmount newInst = minAmount newPlan).
Proof.
  intros Hu Hact Hi Hop Hnp.
  unfold upgradePlan.
  rewrite Hu, (populateActive_Some _ _ _ _ Hact Hi), Hnp, Hop.
  split; [|split].
  - by intros ->.
  - by intros -> ->.
  - intros -> ->.
    set (ins1 := <[oldId := setStatus oldInst expired]> (instances st)).
    assert (Hne : freshId ins1 ≠ oldId).
    { apply freshId_ne. subst ins1. rewrite lookup_insert_eq. eauto. }
    assert (Hnew : instances st !! freshId ins1 = None).
    { pose proof (freshId_not_in ins1) as Hf. subst ins1.
      by rewrite lookup_insert_ne in Hf. }
    eexists _, _, _, (freshId ins1), _. split; [reflexivity|]. simpl.
    split; [apply lookup_insert_eq|]. do 2 (split; [reflexivity|]).
    split.
    { rewrite lookup_insert_ne by exact Hne. apply lookup_insert_eq. }
    do 2 (split; [reflexivity|]). split; [exact Hne|]. split; [exact Hnew|].
    split; [apply lookup_insert_eq|]. repeat split.
Qed.

(** In binary64 arithmetic: from minAmount 1, an upgrade to minAmount 1 is
    refused as no higher tier; an upgrade to minAmount 1.1 costs
    1.1 - 1 = 0.10000000000000009, which a wallet of 0.1 does not cover
    and a wallet of 0.5 does. *)
Lemma upgrade_tier_and_price_witness :
  upgradePlan (floatActiveStore 0.1) 1 1 0 = (NotHigherTier, floatActiveStore 0.1)
  ∧ upgradePlan (floatActiveStore 0.1) 1 2 0
    = (UpgradeShortOfFunds 0.10000000000000009%float, floatActiveStore 0.1)
  ∧ ∃ st' user',
      upgradePlan (floatActiveStore 0.5) 1 2 0 = (Upgraded, st')
      ∧ users st' !! 1%positive = Some user'
      ∧ walletBalance user' = (0.5 - 0.10000000000000009)%float.
Proof.
  pose proof (upgrade_tier_and_price (floatActiveStore 0.1) 1 1 0
                (carolActive 0.1) 1 carolInstance planCent planCent
                eq_refl eq_refl eq_refl eq_refl eq_refl) as (Hsame & _ & _).
  pose proof (upgrade_tier_and_price (floatActiveStore 0.1) 1 2 0
                (carolActive 0.1) 1 carolInstance planCent planDime
                eq_refl eq_refl eq_refl eq_refl eq_refl) as (_ & Hshort & _).
  pose proof (upgrade_tier_and_price (floatActiveStore 0.5) 1 2 0
                (carolActive 0.5) 1 carolInstance planCent planDime
                eq_refl eq_refl eq_refl eq_refl eq_refl) as (_ & _ & Hok).
  split; [|split].
  - apply Hsame. vm_compute. reflexivity.
  - destruct Hshort as [Hr _]; [vm_compute; reflexivity ..|].
    rewrite Hr. vm_compute. reflexivity.
  - destruct Hok as (st' & user' & _ & _ & _ & Hr & Hu & Hw & _);
      [vm_compute; reflexivity ..|].
    exists st', user'. split; [exact Hr|]. split; [exact Hu|].
    rewrite Hw. vm_compute. reflexivity.
Defined.

(** The example of the specification, in exact arithmetic: from minAmount
    500, an upgrade to minAmount 500 is refused; to minAmount 1500 it
    costs 1000, refused with a wallet of 900 and accepted with a wallet of
    1200. *)
Lemma upgrade_example_of_the_specification :
  upgradePlan (activeStoreWith 1200) 1 1 0 = (NotHigherTier, activeStoreWith 1200)
  ∧ (∃ diff, upgradePlan (activeStoreWith 900) 1 2 0
               = (UpgradeShortOfFunds diff, activeStoreWith 900)
             ∧ diff == 1000)
  ∧ ∃ st', upgradePlan (activeStoreWith 1200) 1 2 0 = (Upgraded, st')
           ∧ walletOf st' 1 == 200.
Proof.
  split; [reflexivity|]. split.
  - eexists. split; reflexivity.
  - eexists. split; reflexivity.
Qed.

(** ** C10: renewing an instance whose plan was deleted *)

(** C10.  A plan whose instances are all expired can be deleted; renewing
    an expired instance of it then reads minAmount from the missing plan
    document: the request ends in an uncaught exception (status 500), not
    in a NotFound response, and the store is left as it was. *)
Theorem renew_deleted_plan_throws {num} `{RT : Runtime num} (st : Store num) uid instanceId now user oldInst plan :
  users st !! uid = Some user →
  activePlanInstance user = None →
  instances st !! instanceId = Some oldInst →
  pi_user oldInst = uid →
  status oldInst = expired →
  plans st !! pi_plan oldInst = Some plan →
  countActive st (pi_plan oldInst) = 0%nat →
  ∃ st1,
    deletePlan st (pi_plan oldInst) = (PlanDeleted, st1)
    ∧ plans st1 !! pi_plan oldInst = None
    ∧ renewPlan st1 uid instanceId now = (Thrown, st1)
    ∧ errorOf (Thrown : response num) ≠ Some NotFound
    ∧ statusCode (Thrown : response num) = 500%Z.
Proof.
  intros Hu Hact Hi Howner Hst Hp Hcount.
  unfold deletePlan. rewrite Hp, Hcount.
  rewrite bool_decide_eq_false_2 by lia.
  eexists. split; [reflexivity|]. simpl.
  split; [apply lookup_delete_eq|].
  unfold renewPlan; simpl.
  rewrite Hi, Hu, Hst, Hact, bool_decide_is_Some_None.
  rewrite (bool_decide_eq_true_2 _ Howner). simpl.
  rewrite lookup_delete_eq. repeat split. discriminate.
Qed.

Lemma renew_deleted_plan_throws_witness :
  ∃ st1,
    deletePlan expiredStore 1 = (PlanDeleted, st1)
    ∧ plans st1 !! 1%positive = None
    ∧ renewPlan st1 1 1 0 = (Thrown, st1)
    ∧ errorOf (Thrown : response Q) ≠ Some NotFound
    ∧ statusCode (Thrown : response Q) = 500%Z.
Proof.
  apply (renew_deleted_plan_throws expiredStore 1 1 0 aliceIdle
           (setStatus aliceInstance expired) planBasic); reflexivity.
Defined.

(** ** C7: the settings record *)

(** C7 fails for an upgrade: with no settings record the upgrade of the
    example store goes through and debits the wallet. *)
Lemma upgrade_without_settings_counterexample :
  ¬ failsFastWithoutSettings (withoutSettings (activeStoreWith 1200)) 0 (Upgrade 1 2).
Proof.
  intros Hf. specialize (Hf eq_refl eq_refl). vm_compute in Hf. discriminate.
Qed.

(** C7, amended.  With the settings record absent, Activate and
    CollectDailyProfit fail with ConfigurationMissing and leave the store
    unchanged, whatever their arguments.  Upgrade and Renew never read the
    settings record: in no store do they answer ConfigurationMissing, and
    their result does not depend on the record. *)
Theorem settings_checked_by_activate_and_collect {num} `{RT : Runtime num} (st : Store num) now :
  settings st = None →
  (∀ uid planId amount,
     activatePlan st uid planId amount now = (SettingsMissing, st))
  ∧ (∀ uid, collectDailyProfit st uid now = (SettingsMissing, st))
  ∧ errorOf (SettingsMissing : response num) = Some ConfigurationMissing
  ∧ (∀ uid newPlanId,
       errorOf (upgradePlan st uid newPlanId now).1 ≠ Some ConfigurationMissing)
  ∧ (∀ uid instanceId,
       errorOf (renewPlan st uid instanceId now).1 ≠ Some ConfigurationMissing)
  ∧ (∀ cfg uid newPlanId,
       upgradePlan (setSettings st cfg) uid newPlanId now
       = ((upgradePlan st uid newPlanId now).1,
          setSettings (upgradePlan st uid newPlanId now).2 cfg))
  ∧ (∀ cfg uid instanceId,
       renewPlan (setSettings st cfg) uid instanceId now
       = ((renewPlan st uid instanceId now).1,
          setSettings (renewPlan st uid instanceId now).2 cfg)).
Proof.
  intros Hcfg. split; [|split; [|split; [|split; [|split; [|split]]]]].
  - intros. unfold activatePlan. by rewrite Hcfg.
  - intros. unfold collectDailyProfit. by rewrite Hcfg.
  - reflexivity.
  - intros uid newPlanId. unfold upgradePlan.
    repeat (case_match; simpl; try discriminate).
  - intros uid instanceId. unfold renewPlan.
    repeat (case_match; simpl; try discriminate).
  - intros cfg uid newPlanId. unfold upgradePlan, populateActive; simpl.
    repeat (case_match; simpl; try reflexivity).
  - intros cfg uid instanceId. unfold renewPlan; simpl.
    repeat (case_match; simpl; try reflexivity).
Qed.

Lemma settings_checked_by_activate_and_collect_witness :
  activatePlan (withoutSettings demoStore) 1 1 (Some 1000) 0
    = (SettingsMissing, withoutSettings demoStore)
  ∧ collectDailyProfit (withoutSettings activeStore) 1 86400000
    = (SettingsMissing, withoutSettings activeStore).
Proof.
  split.
  - apply (settings_checked_by_activate_and_collect (withoutSettings demoStore) 0).
    reflexivity.
  - apply (settings_checked_by_activate_and_collect (withoutSettings activeStore)
             86400000).
    reflexivity.
Defined.

(** ** C8: the catalog invariant *)

Lemma demoStore_catalogOk : catalogOk demoStore.
Proof.
  intros pid plan. unfold demoStore; simpl.
  rewrite lookup_insert. case_decide.
  - intros [= <-]. reflexivity.
  - rewrite lookup_insert. case_decide; [|by rewrite lookup_empty].
    intros [= <-]. reflexivity.
Qed.

(** C8 fails: a create with minAmount 10 and maxAmount 5 is stored as it
    is, and an update that only lowers maxAmount to 100 leaves the Basic
    plan with minAmount 500. *)
Lemma catalog_invariant_counterexample :
  ¬ catalogPreserved demoStore (CreatePlan invertedBody None)
  ∧ ¬ catalogPreserved demoStore (UpdatePlan 1 lowerMaxBody None).
Proof.
  split; intros Hp; specialize (Hp demoStore_catalogOk).
  - specialize (Hp 3%positive (mkPlan "Inverted" 10 5 "fixed" 1 30 None EmptyString)
                   eq_refl).
    vm_compute in Hp. discriminate.
  - specialize (Hp 1%positive
                   (mkPlan "Basic" 500 100 "percentage" 2 30 None EmptyString)
                   eq_refl).
    vm_compute in Hp. discriminate.
Qed.

Lemma catalogOk_insert {num} `{RT : Runtime num} (st : Store num) pid plan :
  catalogOk st →
  num_le (minAmount plan) (maxAmount plan) = true →
  catalogOk (setPlans st (<[pid := plan]> (plans st))).
Proof.
  intros Hok Hle pid' plan'. simpl. rewrite lookup_insert.
  case_decide; [intros [= <-]; exact Hle | apply Hok].
Qed.

Lemma catalogOk_at {num} `{RT : Runtime num} (st : Store num) pid plan :
  catalogOk (setPlans st (<[pid := plan]> (plans st))) →
  num_le (minAmount plan) (maxAmount plan) = true.
Proof. intros Hok. apply (Hok pid). simpl. apply lookup_insert_eq. Qed.

(** C8, amended.  Neither handler checks the bounds.  A created plan
    carries the minAmount and maxAmount of the request; an updated plan
    carries, field by field, the request's value when present and the old
    value otherwise.  Starting from a catalog in which every plan has
    minAmount <= maxAmount, the catalog after a successful create or update
    has the property exactly when the stored plan has it; a refused request
    leaves the store unchanged. *)
Theorem catalog_invariant_iff_stored_plan_ok {num} `{RT : Runtime num} (st : Store num) body file :
  catalogOk st →
  (∀ pid plan st',
     createPlan st body file = (PlanCreated pid plan, st') →
     b_minAmount body = Some (minAmount plan)
     ∧ b_maxAmount body = Some (maxAmount plan)
     ∧ plans st' !! pid = Some plan
     ∧ (catalogOk st' ↔ num_le (minAmount plan) (maxAmount plan) = true))
  ∧ (∀ pid plan st',
       updatePlan st pid body file = (PlanUpdated plan, st') →
       ∃ old,
         plans st !! pid = Some old
         ∧ minAmount plan = default (minAmount old) (b_minAmount body)
         ∧ maxAmount plan = default (maxAmount old) (b_maxAmount body)
         ∧ plans st' !! pid = Some plan
         ∧ (catalogOk st' ↔ num_le (minAmount plan) (maxAmount plan) = true))
  ∧ (createPlan st body file = (MissingFields, st)
     ∨ ∃ pid plan st', createPlan st body file = (PlanCreated pid plan, st'))
  ∧ (∀ pid, updatePlan st pid body file = (PlanNotFound, st)
            ∨ ∃ plan st', updatePlan st pid body file = (PlanUpdated plan, st')).
Proof.
  intros Hok. split; [|split; [|split]].
  - intros pid plan st' Hc. unfold createPlan in Hc.
    destruct (b_name body) as [n|]; [|discriminate].
    destruct (b_minAmount body) as [lo|]; [|discriminate].
    destruct (b_maxAmount body) as [hi|]; [|discriminate].
    destruct (b_dailyYieldType body) as [ty|]; [|discriminate].
    destruct (b_dailyYieldValue body) as [v|]; [|discriminate].
    destruct (b_durationDays body) as [d|]; [|discriminate].
    match type of Hc with (if ?c then _ else _) = _ => destruct c end;
      [|discriminate].
    inversion Hc; subst; clear Hc. simpl.
    do 2 (split; [reflexivity|]). split; [apply lookup_insert_eq|].
    split.
    + intros Hc. apply catalogOk_at in Hc. exact Hc.
    + intros Hc. by apply catalogOk_insert.
  - intros pid plan st' Hc. unfold updatePlan in Hc.
    destruct (plans st !! pid) as [old|] eqn:Hold; [|discriminate].
    inversion Hc; subst; clear Hc. exists old. split; [reflexivity|].
    split; [by destruct file|]. split; [by destruct file|].
    split; [apply lookup_insert_eq|].
    split.
    + intros Hc. apply catalogOk_at in Hc. exact Hc.
    + intros Hc. by apply catalogOk_insert.
  - unfold createPlan.
    repeat (case_match; eauto).
  - intros pid. unfold updatePlan. destruct (plans st !! pid); eauto.
Qed.

Lemma catalog_invariant_iff_stored_plan_ok_witness :
  ∃ plan st',
    updatePlan demoStore 1 lowerMaxBody None = (PlanUpdated plan, st')
    ∧ minAmount plan = 500 ∧ maxAmount plan = 100
    ∧ (catalogOk st' ↔ minAmount plan <= maxAmount plan).
Proof.
  eexists _, _.
  destruct (catalog_invariant_iff_stored_plan_ok demoStore lowerMaxBody None
              demoStore_catalogOk) as (_ & Hupd & _).
  destruct (Hupd 1%positive _ _ eq_refl) as (old & Hold & Hlo & Hhi & _ & Hiff).
  split; [reflexivity|]. split; [reflexivity|]. split; [reflexivity|].
  rewrite Hiff. apply Qle_bool_iff.
Defined.

(** ** C6: referral commissions *)

(** C6.  Let the user have an invitedBy reference to an existing referrer.
    An activation that passes the range test and whose wallet part (the
    amount less the bonus used first) the wallet covers succeeds, credits
    the referrer's wallet with
    investedAmount * (referralCommissionRate / 100) and records it as a
    commission transaction after the investment transaction; nothing is
    asked of the referrer's own plan.  A successful collection credits
    dailyProfit * (dailyCommissionRate / 100) and records a commission
    transaction when the referrer has an active-instance reference, and
    leaves the referrer's document as it was, with no commission
    transaction, when the referrer has none.  (For a user who is their own
    referrer the credit is added to the wallet as the activation or the
    collection left it.) *)
Theorem referral_commissions {num} `{RT : Runtime num} (st : Store num) uid rid cfg user referrer now :
  settings st = Some cfg →
  users st !! uid = Some user →
  invitedBy user = Some rid →
  users st !! rid = Some referrer →
  (∀ planId plan amount,
     activePlanInstance user = None →
     plans st !! planId = Some plan →
     num_isNaN amount = false →
     num_lt amount (minAmount plan) = false →
     num_lt (maxAmount plan) amount = false →
     let walletUsed :=
       if num_lt (num_ofZ 0) (bonusBalance user)
       then if num_le amount (bonusBalance user) then num_ofZ 0
            else amount ⊖ bonusBalance user
       else amount in
     num_lt (walletBalance user) walletUsed = false →
     ∃ iid inst st' referrer',
       activatePlan st uid planId (Some amount) now = (Activated iid inst, st')
       ∧ users st' !! rid = Some referrer'
       ∧ walletBalance referrer'
         = (if decide (rid = uid) then walletBalance user ⊖ walletUsed
            else walletBalance referrer)
           ⊕ amount ⊗ (referralCommissionRate cfg ⊘ num_ofZ 100)
       ∧ transactions st'
           = {| tx_user := rid; tx_type := commission;
                tx_amount := amount ⊗ (referralCommissionRate cfg ⊘ num_ofZ 100);
                tx_description :=
                  "Comissão por ativação de plano do usuário " ++ userId user |}
             :: {| tx_user := uid; tx_type := investment;
                   tx_amount := num_opp amount;
                   tx_description :=
                     "Investimento no plano " ++ dquote ++ name plan ++ dquote |}
             :: transactions st)
  ∧ (∀ iid inst,
       activePlanInstance user = Some iid →
       instances st !! iid = Some inst →
       (now <= endDate inst)%Z →
       (match lastCollectedDate inst with
        | Some collected => collected
        | None => startDate inst
        end + 86400000 <= now)%Z →
       let profit := dailyProfit inst in
       let dailyCommission := profit ⊗ (dailyCommissionRate cfg ⊘ num_ofZ 100) in
       let collectionTx :=
         {| tx_user := uid; tx_type := collection; tx_amount := profit;
            tx_description := "Coleta de rendimento diário" |} in
       ∃ st',
         collectDailyProfit st uid now = (Collected profit, st')
         ∧ (is_Some (activePlanInstance referrer) →
              (∃ referrer',
                 users st' !! rid = Some referrer'
                 ∧ walletBalance referrer'
                   = (if decide (rid = uid) then walletBalance user ⊕ profit
                      else walletBalance referrer)
                     ⊕ dailyCommission)
              ∧ transactions st'
                  = {| tx_user := rid; tx_type := commission;
                       tx_amount := dailyCommission;
                       tx_description :=
                         "Comissão diária do lucro do usuário " ++ userId user |}
                    :: collectionTx :: transactions st)
         ∧ (activePlanInstance referrer = None →
              users st' !! rid = Some referrer
              ∧ transactions st' = collectionTx :: transactions st)).
Proof.
  intros Hcfg Hu Hinv Hr. split.
  - intros planId plan amount Hact Hp Hnan Hlo Hhi walletUsed Hw.
    assert (∃ bonusUsed,
              splitFunding (bonusBalance user) amount = (bonusUsed, walletUsed))
      as (bonusUsed & Hs).
    { unfold splitFunding. subst walletUsed.
      destruct (num_lt (num_ofZ 0) (bonusBalance user));
        [destruct (num_le amount (bonusBalance user))|]; eauto. }
    unfold activatePlan.
    rewrite Hcfg, Hu, Hact, bool_decide_is_Some_None, Hp, Hnan, Hlo, Hhi, Hs, Hw.
    simpl.
    unfold payActivationCommission; simpl. rewrite Hinv.
    destruct (decide (rid = uid)) as [->|Hne].
    + rewrite lookup_insert_eq. simpl.
      eexists _, _, _, _. split; [reflexivity|]. simpl.
      rewrite lookup_insert_eq. split; [reflexivity|].
      split; reflexivity.
    + rewrite lookup_insert_ne, Hr by done. simpl.
      eexists _, _, _, _. split; [reflexivity|]. simpl.
      rewrite lookup_insert_eq. split; [reflexivity|].
      split; reflexivity.
  - intros iid inst Hact Hi Hend Hlate profit dailyCommission collectionTx.
    unfold collectDailyProfit.
    rewrite Hcfg, Hu, (populateActive_Some _ _ _ _ Hact Hi).
    assert (Hexp : (endDate inst <? now)%Z = false) by (apply Z.ltb_ge; lia).
    rewrite Hexp.
    assert (Hnext : (now <? nextCollectionTime inst)%Z = false).
    { apply Z.ltb_ge. exact Hlate. }
    rewrite Hnext.
    eexists. split; [reflexivity|].
    unfold payDailyCommission; simpl. rewrite Hinv.
    destruct (decide (rid = uid)) as [->|Hne].
    + assert (referrer = user) as -> by congruence.
      rewrite lookup_insert_eq; simpl. rewrite Hact, bool_decide_is_Some_Some.
      split.
      * intros _. simpl. rewrite lookup_insert_eq.
        split; [eexists; split; reflexivity | reflexivity].
      * intros Hnone. congruence.
    + rewrite lookup_insert_ne, Hr by done. split.
      * intros Hsome. rewrite (bool_decide_eq_true_2 _ Hsome). simpl.
        rewrite lookup_insert_eq.
        split; [eexists; split; reflexivity | reflexivity].
      * intros Hnone. rewrite Hnone, bool_decide_is_Some_None. simpl.
        rewrite lookup_insert_ne, Hr by done.
        split; reflexivity.
Qed.

(** In binary64 arithmetic, with rates of 10 % and 5 %: the activation of
    173.59 credits the referrer, who is not asked for a plan of their own,
    with 173.59 * (10 / 100); a collection of 0.2 credits a referrer
    holding an instance with 0.2 * (5 / 100).  In the example of the
    specification a referrer without an instance receives nothing on a
    collection. *)
Lemma referral_commissions_witness :
  (∃ iid inst st' referrer',
     activatePlan (floatStore 200 42.14) 1 1 (Some 173.59%float) 0
       = (Activated iid inst, st')
     ∧ users st' !! 2%positive = Some referrer'
     ∧ walletBalance referrer' = (0 + 173.59 * (10 / 100))%float)
  ∧ (∃ st' referrer',
       collectDailyProfit (floatActiveStore 0.1) 1 91400000
         = (Collected 0.2%float, st')
       ∧ users st' !! 2%positive = Some referrer'
       ∧ walletBalance referrer' = (0 + 0.2 * (5 / 100))%float
       ∧ length (transactions st') = 2%nat)
  ∧ (∃ st',
       collectDailyProfit activeStore 1 86400000 = (Collected 20, st')
       ∧ users st' !! 2%positive = Some bob
       ∧ length (transactions st') = 1%nat).
Proof.
  split; [|split].
  - destruct (referral_commissions (floatStore 200 42.14) 1 2 floatSettings
                (carol 200 42.14) dave 0 eq_refl eq_refl eq_refl eq_refl)
      as [Hact _].
    destruct (Hact 1%positive planCent 173.59%float eq_refl eq_refl)
      as (iid & inst & st' & referrer' & Hrun & Hu & Hw & _);
      [vm_compute; reflexivity ..|].
    exists iid, inst, st', referrer'.
    split; [exact Hrun|]. split; [exact Hu|]. rewrite Hw. reflexivity.
  - destruct (referral_commissions (floatActiveStore 0.1) 1 2 floatSettings
                (carolActive 0.1) dave 91400000 eq_refl eq_refl eq_refl eq_refl)
      as [_ Hcol].
    destruct (Hcol 1%positive carolInstance eq_refl eq_refl)
      as (st' & Hrun & Hsome & _); [vm_compute; discriminate ..|].
    destruct Hsome as [(referrer' & Hu & Hw) Htx]; [simpl; eauto|].
    exists st', referrer'. split; [exact Hrun|]. split; [exact Hu|].
    split; [rewrite Hw; reflexivity|]. rewrite Htx. reflexivity.
  - destruct (referral_commissions activeStore 1 2 mainSettings aliceActive bob
                86400000 eq_refl eq_refl eq_refl eq_refl) as [_ Hcol].
    destruct (Hcol 1%positive aliceInstance eq_refl eq_refl)
      as (st' & Hrun & _ & Hnone); [vm_compute; discriminate ..|].
    destruct (Hnone eq_refl) as [Hu Htx].
    exists st'. split; [exact Hrun|]. split; [exact Hu|]. rewrite Htx. reflexivity.
Defined.

(** ** C1: the ledger against the balances *)

(** Exact and binary64 arithmetic both satisfy the two identities. *)
#[export] Instance exactLaws : RuntimeLaws Q.
Proof.
  split.
  - reflexivity.
  - intros [n d]. cbn. unfold Qminus, Qplus. simpl.
    f_equal; lia.
Qed.

Lemma SFsub_SFadd_opp prec emax x y :
  SFsub prec emax x y = SFadd prec emax x (SFopp y).
Proof.
  destruct x as [sx|sx| |sx mx ex], y as [sy|sy| |sy my ey];
    try reflexivity; simpl.
  - destruct sx, sy; reflexivity.
  - destruct sx, sy; reflexivity.
  - f_equal. destruct sy; simpl; lia.
Qed.

#[export] Instance ieeeLaws : RuntimeLaws float.
Proof.
  split.
  - intros x y. cbn.
    apply Prim2SF_inj.
    rewrite sub_spec, add_spec, opp_spec. apply SFsub_SFadd_opp.
  - intros x. cbn. apply Prim2SF_inj. rewrite sub_spec.
    change (Prim2SF 0) with (S754_zero false).
    destruct (Prim2SF x) as [s|s| |s m e]; try reflexivity;
      destruct s; reflexivity.
Qed.

(** *** Replaying the new transactions on the old balances *)

Lemma replayLedger_app {num} `{RT : Runtime num} uid (newer older : list (Transaction num)) w :
  replayLedger uid (newer ++ older)%list w
  = replayLedger uid newer (replayLedger uid older w).
Proof.
  induction newer as [|t newer IH]; simpl; [reflexivity|].
  rewrite IH. reflexivity.
Qed.

Lemma ledgerReplayed_refl {num} `{RT : Runtime num} (st : Store num) :
  ledgerReplayed st st [].
Proof.
  split; [reflexivity|]. split; [|done].
  intros uid user Hu. exists user. by split_and!.
Qed.

Lemma ledgerReplayed_trans {num} `{RT : Runtime num} (st st1 st2 : Store num) new1 new2 :
  ledgerReplayed st st1 new1 →
  ledgerReplayed st1 st2 new2 →
  ledgerReplayed st st2 (new2 ++ new1)%list.
Proof.
  intros (Ht1 & Hu1 & Hn1) (Ht2 & Hu2 & Hn2). split; [|split].
  - rewrite Ht2, Ht1. apply app_assoc.
  - intros uid user Hu.
    destruct (Hu1 uid user Hu) as (user1 & Hl1 & Hw1 & Hb1).
    destruct (Hu2 uid user1 Hl1) as (user2 & Hl2 & Hw2 & Hb2).
    exists user2. split; [exact Hl2|]. split.
    + rewrite Hw2, Hw1, replayLedger_app. reflexivity.
    + congruence.
  - intros uid Hu. apply Hn2, Hn1, Hu.
Qed.

Lemma ledgerReplayed_same {num} `{RT : Runtime num} (st s : Store num) :
  users s = users st → transactions s = transactions st →
  ledgerReplayed st s [].
Proof.
  intros Hus Htx. split; [exact Htx|]. rewrite Hus. split; [|done].
  intros uid user Hu. exists user. by split_and!.
Qed.

(** A store that differs from [st] in other collections only, then one
    user document saved with the same balances. *)
Lemma ledgerReplayed_save {num} `{RT : Runtime num} (st s : Store num) k u0 u' :
  users s = users st → transactions s = transactions st →
  users st !! k = Some u0 →
  walletBalance u' = walletBalance u0 →
  bonusBalance u' = bonusBalance u0 →
  ledgerReplayed st (saveUser s k u') [].
Proof.
  intros Hus Htx Hk Hw Hb. split; [exact Htx|]. simpl. rewrite Hus. split.
  - intros uid user Hu. rewrite lookup_insert. case_decide.
    + subst uid. exists u'. split; [reflexivity|]. simpl. split; congruence.
    + exists user. by split_and!.
  - intros uid Hu. rewrite lookup_insert_ne; [exact Hu|]. congruence.
Qed.

(** The same with a transaction of the saved user, whose amount was added
    to the wallet. *)
Lemma ledgerReplayed_tx {num} `{RT : Runtime num} (st s : Store num) k u0 u' t :
  users s = users st → transactions s = transactions st →
  users st !! k = Some u0 →
  tx_user t = k →
  walletBalance u' = walletBalance u0 ⊕ tx_amount t →
  bonusBalance u' = bonusBalance u0 →
  ledgerReplayed st (createTransaction (saveUser s k u') t) [t].
Proof.
  intros Hus Htx Hk Ht Hw Hb. split; [simpl; by rewrite Htx|].
  simpl. rewrite Hus. split.
  - intros uid user Hu. rewrite lookup_insert. case_decide.
    + subst uid. exists u'. split; [reflexivity|].
      rewrite (bool_decide_eq_true_2 _ Ht). split; congruence.
    + exists user. split; [exact Hu|].
      rewrite bool_decide_eq_false_2 by congruence. by split.
  - intros uid Hu. rewrite lookup_insert_ne; [exact Hu|]. congruence.
Qed.

Lemma payActivationCommission_replayed {num} `{RT : Runtime num} (st : Store num) cfg user amount :
  ∃ new, ledgerReplayed st (payActivationCommission st cfg user amount) new.
Proof.
  destruct (payActivationCommission_cases st cfg user amount)
    as [->|(rid & referrer & t & _ & Hr & Ht & _ & Ha & ->)].
  - exists []. apply ledgerReplayed_refl.
  - exists [t]. apply (ledgerReplayed_tx st st rid referrer); try done.
    simpl. by rewrite Ha.
Qed.

Lemma payDailyCommission_replayed {num} `{RT : Runtime num} (st : Store num) cfg user profit :
  ∃ new, ledgerReplayed st (payDailyCommission st cfg user profit) new.
Proof.
  destruct (payDailyCommission_cases st cfg user profit)
    as [->|(rid & referrer & t & _ & Hr & _ & Ht & _ & Ha & ->)].
  - exists []. apply ledgerReplayed_refl.
  - exists [t]. apply (ledgerReplayed_tx st st rid referrer); try done.
    simpl. by rewrite Ha.
Qed.

Section Replay.
Context {num : Type} `{RuntimeLaws num}.

Lemma activatePlan_replayed (st : Store num) uid planId amount now :
  noBonus st →
  ∃ new, ledgerReplayed st (activatePlan st uid planId amount now).2 new.
Proof.
  intros Hnb.
  destruct (activatePlan_cases st uid planId amount now)
    as [[_ ->]|(cfg & user & plan & a & bonusUsed & walletUsed & user' & t
                & Hcfg & Hu & Hact & Hp & -> & _ & _ & Hs & Hw
                & _ & _ & Hwal & Hbon & _ & Ht & _ & Ha & ->)].
  { exists []. apply ledgerReplayed_refl. }
  cbn [snd].
  unfold splitFunding in Hs. rewrite (Hnb uid user Hu) in Hs.
  injection Hs as <- <-.
  match goal with
  | |- context [payActivationCommission ?s cfg user' a] =>
      destruct (payActivationCommission_replayed s cfg user' a) as (extra & Hex);
      assert (ledgerReplayed st s [t]) as Hfirst
  end.
  { apply (ledgerReplayed_tx st _ uid user); try done.
    - rewrite Hwal, Ha. apply sub_add_opp.
    - rewrite Hbon. apply sub_zero. }
  eexists. eapply ledgerReplayed_trans; eassumption.
Qed.

Lemma upgradePlan_replayed (st : Store num) uid newPlanId now :
  ∃ new, ledgerReplayed st (upgradePlan st uid newPlanId now).2 new.
Proof.
  destruct (upgradePlan_cases st uid newPlanId now)
    as [[_ ->]|(user & oldId & oldInst & oldPlan & newPlan & iid & user' & t
                & Hu & _ & _ & _ & _ & _ & _ & _ & _ & _ & Hwal & Hbon & _
                & Ht & _ & Ha & ->)].
  { exists []. apply ledgerReplayed_refl. }
  cbn [snd]. exists [t].
  apply (ledgerReplayed_tx st _ uid user); try done.
  rewrite Hwal, Ha. apply sub_add_opp.
Qed.

Lemma collectDailyProfit_replayed (st : Store num) uid now :
  ∃ new, ledgerReplayed st (collectDailyProfit st uid now).2 new.
Proof.
  destruct (collectDailyProfit_cases st uid now)
    as [[_ ->]|[(cfg & user & iid & inst & user' & _ & Hu & _ & _ & _ & _ & _
                 & Hwal & Hbon & _ & ->)
               |(cfg & user & iid & inst & inst' & t & _ & Hu & _ & _ & _ & _
                 & _ & _ & _ & _ & Ht & _ & Ha & ->)]].
  - exists []. apply ledgerReplayed_refl.
  - cbn [snd]. exists [].
    by apply (ledgerReplayed_save st _ uid user).
  - cbn [snd].
    match goal with
    | |- context [payDailyCommission ?s cfg ?u ?p] =>
        destruct (payDailyCommission_replayed s cfg u p) as (extra & Hex);
        assert (ledgerReplayed st s [t]) as Hfirst
    end.
    { apply (ledgerReplayed_tx st _ uid user); try done.
      simpl. by rewrite Ha. }
    eexists. eapply ledgerReplayed_trans; eassumption.
Qed.

Lemma renewPlan_replayed (st : Store num) uid instanceId now :
  ∃ new, ledgerReplayed st (renewPlan st uid instanceId now).2 new.
Proof.
  destruct (renewPlan_cases st uid instanceId now)
    as [[_ ->]|(user & oldInstance & planToRenew & user' & t
                & _ & Hu & _ & _ & _ & _ & _ & _ & _ & Hwal & Hbon & _
                & Ht & _ & Ha & ->)].
  { exists []. apply ledgerReplayed_refl. }
  cbn [snd]. exists [t].
  apply (ledgerReplayed_tx st _ uid user); try done.
  rewrite Hwal, Ha. apply sub_add_opp.
Qed.

Lemma handle_replayed (st : Store num) now r :
  noBonus st → ∃ new, ledgerReplayed st (handle st now r).2 new.
Proof.
  intros Hnb. destruct r; simpl.
  - by apply activatePlan_replayed.
  - apply upgradePlan_replayed.
  - apply collectDailyProfit_replayed.
  - apply renewPlan_replayed.
  - exists []. unfold createPlan.
    repeat case_match; by apply ledgerReplayed_same.
  - exists []. unfold updatePlan.
    repeat case_match; by apply ledgerReplayed_same.
  - exists []. unfold deletePlan.
    repeat case_match; by apply ledgerReplayed_same.
Qed.

Lemma ledgerReplayed_noBonus (st st' : Store num) new :
  ledgerReplayed st st' new → noBonus st → noBonus st'.
Proof.
  intros (_ & Hu & Hn) Hnb uid user' Hl'.
  destruct (users st !! uid) as [user|] eqn:Hl.
  - destruct (Hu uid user Hl) as (u2 & Hl2 & _ & Hb).
    assert (u2 = user') as -> by congruence.
    rewrite Hb. by apply (Hnb uid).
  - rewrite (Hn uid Hl) in Hl'. discriminate.
Qed.

Lemma run_replayed reqs : ∀ st : Store num,
  noBonus st → ∃ new, ledgerReplayed st (run st reqs) new.
Proof.
  induction reqs as [|[now r] rest IH]; intros st Hnb; simpl.
  - exists []. apply ledgerReplayed_refl.
  - destruct (handle_replayed st now r Hnb) as (new1 & H1).
    destruct (IH _ (ledgerReplayed_noBonus _ _ _ H1 Hnb)) as (new2 & H2).
    exists (new2 ++ new1)%list. eapply ledgerReplayed_trans; eassumption.
Qed.

End Replay.



Lemma floatStore_noBonus wallet : noBonus (floatStore wallet 0).
Proof.
  intros uid user. unfold floatStore; simpl.
  rewrite lookup_insert. case_decide.
  - intros [= <-]. vm_compute. reflexivity.
  - rewrite lookup_insert. case_decide; [|by rewrite lookup_empty].
    intros [= <-]. vm_compute. reflexivity.
Qed.


(** * Further properties of the handlers *)

(** ** Failures do not write *)

(** Every refused request leaves the store exactly as it was, with one
    exception: the lazy expiry of [collectDailyProfit], which answers
    PlanExpired after writing. *)
Theorem refused_request_leaves_store {num} `{RT : Runtime num} (st : Store num) now r k :
  errorOf (handle st now r).1 = Some k →
  (handle st now r).1 ≠ PlanExpired →
  (handle st now r).2 = st.
Proof.
  destruct r; simpl.
  - unfold activatePlan. repeat case_match; simpl; congruence.
  - unfold upgradePlan. repeat case_match; simpl; congruence.
  - unfold collectDailyProfit. repeat case_match; simpl; congruence.
  - unfold renewPlan. repeat case_match; simpl; congruence.
  - unfold createPlan. repeat case_match; simpl; congruence.
  - unfold updatePlan. repeat case_match; simpl; congruence.
  - unfold deletePlan. repeat case_match; simpl; congruence.
Qed.

Lemma refused_request_leaves_store_witness :
  (handle demoStore 0 (Activate 1 1 (Some 10))).1 = AmountOutOfRange
  ∧ (handle demoStore 0 (Activate 1 1 (Some 10))).2 = demoStore.
Proof.
  split; [reflexivity|].
  apply (refused_request_leaves_store demoStore 0 (Activate 1 1 (Some 10))
           InvalidAmount); [reflexivity | discriminate].
Defined.

(** ** The ledger is append-only *)

Ltac tx_close :=
  simpl; split;
  [ reflexivity
  | split; [simpl; lia
           | let Hn := fresh in
             intros Hn; first [reflexivity | exfalso; apply Hn; reflexivity]] ].

Ltac tx_extra :=
  first [ exists (@nil (Transaction _)); tx_close
        | eexists [_]; tx_close
        | eexists [_; _]; tx_close ].

Lemma handle_transactions {num} `{RT : Runtime num} (st : Store num) now r :
  ∃ extra,
    transactions (handle st now r).2 = (extra ++ transactions st)%list
    ∧ (length extra ≤ 2)%nat
    ∧ (errorOf (handle st now r).1 ≠ None → extra = []).
Proof.
  destruct r; simpl.
  - unfold activatePlan, payActivationCommission. repeat case_match; tx_extra.
  - unfold upgradePlan. repeat case_match; tx_extra.
  - unfold collectDailyProfit, payDailyCommission. repeat case_match; tx_extra.
  - unfold renewPlan. repeat case_match; tx_extra.
  - unfold createPlan. repeat case_match; tx_extra.
  - unfold updatePlan. repeat case_match; tx_extra.
  - unfold deletePlan. repeat case_match; tx_extra.
Qed.

(** No request sequence removes or rewrites a recorded transaction: the
    transactions present before are a suffix of those present after. *)
Theorem transactions_append_only {num} `{RT : Runtime num} reqs :
  ∀ st : Store num, ∃ extra, transactions (run st reqs) = (extra ++ transactions st)%list.
Proof.
  induction reqs as [|[now r] rest IH]; intros st; simpl.
  - by exists [].
  - destruct (IH (handle st now r).2) as (e1 & He1).
    destruct (handle_transactions st now r) as (e2 & He2 & _).
    exists (e1 ++ e2)%list. by rewrite He1, He2, app_assoc.
Qed.

(** One request records at most two transactions, and a refused request
    records none. *)
Theorem request_records_at_most_two {num} `{RT : Runtime num} (st : Store num) now r :
  ∃ extra,
    transactions (handle st now r).2 = (extra ++ transactions st)%list
    ∧ (length extra ≤ 2)%nat
    ∧ (errorOf (handle st now r).1 ≠ None → extra = []).
Proof. apply handle_transactions. Qed.

(** ** What no request changes *)

Lemma identityOf_insert {num} `{RT : Runtime num} (us : gmap id (User num)) k u0 u' j :
  us !! k = Some u0 →
  userId u' = userId u0 → invitedBy u' = invitedBy u0 →
  identityOf (<[k := u']> us !! j) = identityOf (us !! j).
Proof.
  intros Hk Hid Hinv. rewrite lookup_insert.
  destruct (decide (k = j)) as [<-|]; [|reflexivity].
  rewrite Hk. simpl. by rewrite Hid, Hinv.
Qed.

Lemma payActivationCommission_identity {num} `{RT : Runtime num} (st : Store num) cfg user amount j :
  identityOf (users (payActivationCommission st cfg user amount) !! j)
  = identityOf (users st !! j).
Proof.
  destruct (payActivationCommission_cases st cfg user amount)
    as [->|(rid & referrer & t & _ & Hr & _ & _ & _ & ->)]; [reflexivity|].
  simpl. by apply (identityOf_insert _ rid referrer).
Qed.

Lemma payDailyCommission_identity {num} `{RT : Runtime num} (st : Store num) cfg user profit j :
  identityOf (users (payDailyCommission st cfg user profit) !! j)
  = identityOf (users st !! j).
Proof.
  destruct (payDailyCommission_cases st cfg user profit)
    as [->|(rid & referrer & t & _ & Hr & _ & _ & _ & _ & ->)]; [reflexivity|].
  simpl. by apply (identityOf_insert _ rid referrer).
Qed.

Lemma handle_identity {num} `{RT : Runtime num} (st : Store num) now r j :
  identityOf (users (handle st now r).2 !! j) = identityOf (users st !! j).
Proof.
  destruct r; simpl.
  - destruct (activatePlan_cases st uid planId amount now)
      as [[_ ->]|(cfg & user & plan & a & bu & wu & user' & t & _ & Hu & _ & _ & _
              & _ & _ & _ & _ & Hid & Hinv & _ & _ & _ & _ & _ & _ & ->)];
      [reflexivity|].
    cbn [snd]. rewrite payActivationCommission_identity.
    simpl. by apply (identityOf_insert _ uid user).
  - destruct (upgradePlan_cases st uid newPlanId now)
      as [[_ ->]|(user & oldId & oldInst & oldPlan & newPlan & iid & user' & t & Hu
              & _ & _ & _ & _ & _ & _ & _ & Hid & Hinv & _ & _ & _ & _ & _ & _
              & ->)];
      [reflexivity|].
    simpl. by apply (identityOf_insert _ uid user).
  - destruct (collectDailyProfit_cases st uid now)
      as [[_ ->]|[(cfg & user & iid & inst & user' & _ & Hu & _ & _ & _ & Hid & Hinv
               & _ & _ & _ & ->)
             |(cfg & user & iid & inst & inst' & t & _ & Hu & _ & _ & _ & _ & _
               & _ & _ & _ & _ & _ & _ & ->)]];
      [reflexivity| |].
    + simpl. by apply (identityOf_insert _ uid user).
    + cbn [snd]. rewrite payDailyCommission_identity.
      simpl. by apply (identityOf_insert _ uid user).
  - destruct (renewPlan_cases st uid instanceId now)
      as [[_ ->]|(user & oldInstance & planToRenew & user' & t & _ & Hu & _ & _ & _
              & _ & _ & Hid & Hinv & _ & _ & _ & _ & _ & _ & ->)];
      [reflexivity|].
    simpl. by apply (identityOf_insert _ uid user).
  - unfold createPlan. repeat case_match; reflexivity.
  - unfold updatePlan. repeat case_match; reflexivity.
  - unfold deletePlan. repeat case_match; reflexivity.
Qed.

(** No request sequence creates or deletes a user, or changes a user's
    userId or invitedBy: only balances and the active-instance reference
    are ever written. *)
Theorem users_identity_fixed {num} `{RT : Runtime num} reqs :
  ∀ (st : Store num) j, identityOf (users (run st reqs) !! j) = identityOf (users st !! j).
Proof.
  induction reqs as [|[now r] rest IH]; intros st j; simpl.
  - reflexivity.
  - rewrite IH. apply handle_identity.
Qed.

Lemma handle_settings {num} `{RT : Runtime num} (st : Store num) now r : settings (handle st now r).2 = settings st.
Proof.
  destruct r; simpl.
  - unfold activatePlan, payActivationCommission. repeat case_match; simpl; congruence.
  - unfold upgradePlan. repeat case_match; simpl; congruence.
  - unfold collectDailyProfit, payDailyCommission. repeat case_match; simpl; congruence.
  - unfold renewPlan. repeat case_match; simpl; congruence.
  - unfold createPlan. repeat case_match; simpl; congruence.
  - unfold updatePlan. repeat case_match; simpl; congruence.
  - unfold deletePlan. repeat case_match; simpl; congruence.
Qed.

Lemma handle_plans_lifecycle {num} `{RT : Runtime num} (st : Store num) now r :
  isLifecycle r = true → plans (handle st now r).2 = plans st.
Proof.
  destruct r; simpl; try discriminate; intros _.
  - unfold activatePlan, payActivationCommission. repeat case_match; simpl; congruence.
  - unfold upgradePlan. repeat case_match; simpl; congruence.
  - unfold collectDailyProfit, payDailyCommission. repeat case_match; simpl; congruence.
  - unfold renewPlan. repeat case_match; simpl; congruence.
Qed.

Lemma handle_admin_frame {num} `{RT : Runtime num} (st : Store num) now r :
  isLifecycle r = false →
  users (handle st now r).2 = users st
  ∧ instances (handle st now r).2 = instances st
  ∧ transactions (handle st now r).2 = transactions st.
Proof.
  destruct r; simpl; try discriminate; intros _.
  - unfold createPlan. repeat case_match; done.
  - unfold updatePlan. repeat case_match; done.
  - unfold deletePlan. repeat case_match; done.
Qed.

(** The settings record is never written, the lifecycle requests never
    write the catalog, and the catalog requests never write users,
    instances or transactions. *)
Theorem requests_write_their_own_collections {num} `{RT : Runtime num} reqs :
  ∀ st : Store num,
    settings (run st reqs) = settings st
    ∧ (Forall (λ nr : Z * request num, isLifecycle nr.2 = true) reqs →
       plans (run st reqs) = plans st)
    ∧ (Forall (λ nr : Z * request num, isLifecycle nr.2 = false) reqs →
       users (run st reqs) = users st
       ∧ instances (run st reqs) = instances st
       ∧ transactions (run st reqs) = transactions st).
Proof.
  induction reqs as [|[now r] rest IH]; intros st; simpl.
  - done.
  - destruct (IH (handle st now r).2) as (Hs & Hp & Ha).
    split; [by rewrite Hs, handle_settings|]. split.
    + intros Hall. apply Forall_cons in Hall as [Hr Hrest].
      rewrite (Hp Hrest). by apply handle_plans_lifecycle.
    + intros Hall. apply Forall_cons in Hall as [Hr Hrest].
      destruct (Ha Hrest) as (-> & -> & ->).
      by apply handle_admin_frame.
Qed.

(** ** Instances are kept as history *)

Lemma handle_instances {num} `{RT : Runtime num} (st : Store num) now r iid i :
  instances st !! iid = Some i →
  ∃ i', instances (handle st now r).2 !! iid = Some i'
        ∧ termsOf i' = termsOf i
        ∧ (status i = expired → status i' = expired).
Proof.
  intros Hi.
  assert (Hsame : ∃ i', instances st !! iid = Some i' ∧ termsOf i' = termsOf i
                        ∧ (status i = expired → status i' = expired))
    by (exists i; done).
  assert (Hfresh : ∀ d : PlanInstance num,
            <[freshId (instances st) := d]> (instances st) !! iid = Some i).
  { intros d. rewrite lookup_insert_ne; [done|].
    apply freshId_ne. eauto. }
  destruct r; simpl.
  - destruct (activatePlan_cases st uid planId amount now)
      as [[_ ->]|(cfg & user & plan & a & bu & wu & user' & t & _ & _ & _ & _ & _
              & _ & _ & _ & _ & _ & _ & _ & _ & _ & _ & _ & _ & ->)];
      [done|].
    cbn [snd]. rewrite payActivationCommission_instances. simpl.
    exists i. by rewrite Hfresh.
  - destruct (upgradePlan_cases st uid newPlanId now)
      as [[_ ->]|(user & oldId & oldInst & oldPlan & newPlan & k & user' & t & _
              & _ & Hold & _ & _ & _ & _ & -> & _ & _ & _ & _ & _ & _ & _ & _
              & ->)];
      [done|].
    simpl. rewrite lookup_insert_ne.
    2:{ apply freshId_ne. rewrite lookup_insert.
        case_decide; [eauto|]. rewrite Hi. eauto. }
    rewrite lookup_insert. case_decide as Hk; [|exists i; done].
    subst oldId. assert (oldInst = i) as -> by congruence.
    eexists. split; [reflexivity|]. done.
  - destruct (collectDailyProfit_cases st uid now)
      as [[_ ->]|[(cfg & user & k & inst & user' & _ & _ & _ & Hk & _ & _ & _
               & _ & _ & _ & ->)
             |(cfg & user & k & inst & inst' & t & _ & _ & _ & Hk & _ & _
               & Hterms & Hst & _ & _ & _ & _ & _ & ->)]];
      [done| |].
    + simpl. rewrite lookup_insert. case_decide as Hkk; [|exists i; done].
      subst k. assert (inst = i) as -> by congruence.
      eexists. split; [reflexivity|]. done.
    + cbn [snd]. rewrite payDailyCommission_instances. simpl.
      rewrite lookup_insert. case_decide as Hkk; [|exists i; done].
      subst k. assert (inst = i) as -> by congruence.
      exists inst'. split; [reflexivity|]. split; [exact Hterms|].
      by rewrite Hst.
  - destruct (renewPlan_cases st uid instanceId now)
      as [[_ ->]|(user & oldInstance & planToRenew & user' & t & _ & _ & _ & _ & _
              & _ & _ & _ & _ & _ & _ & _ & _ & _ & _ & ->)];
      [done|].
    simpl. exists i. by rewrite Hfresh.
  - unfold createPlan. repeat case_match; done.
  - unfold updatePlan. repeat case_match; done.
  - unfold deletePlan. repeat case_match; done.
Qed.

(** An instance is never deleted and its terms never change: whatever
    requests follow, it is still stored under its id with the same owner,
    plan, investedAmount, dailyProfit, startDate and endDate, and once
    expired it stays expired. *)
Theorem instances_kept_as_history {num} `{RT : Runtime num} reqs :
  ∀ (st : Store num) iid i,
    instances st !! iid = Some i →
    ∃ i', instances (run st reqs) !! iid = Some i'
          ∧ termsOf i' = termsOf i
          ∧ (status i = expired → status i' = expired).
Proof.
  induction reqs as [|[now r] rest IH]; intros st iid i Hi; simpl.
  - exists i. done.
  - destruct (handle_instances st now r iid i Hi) as (i1 & H1 & Ht1 & Hs1).
    destruct (IH _ iid i1 H1) as (i2 & H2 & Ht2 & Hs2).
    exists i2. split; [exact H2|]. split; [congruence|]. auto.
Qed.

Lemma instances_kept_as_history_witness :
  ∃ i', instances (run activeStore [(2592000001%Z, Collect 1);
                                    (2592000002%Z, Renew 1 1)])
          !! 1%positive = Some i'
        ∧ termsOf i' = termsOf aliceInstance
        ∧ status i' = expired.
Proof.
  destruct (instances_kept_as_history
              [(2592000001%Z, Collect 1); (2592000002%Z, Renew 1 1)]
              activeStore 1%positive aliceInstance eq_refl)
    as (i' & Hi & Ht & _).
  exists i'. split; [exact Hi|]. split; [exact Ht|].
  vm_compute in Hi. injection Hi as <-. reflexivity.
Defined.

(** ** Active references and active instances *)

Lemma countActive_positive {num} `{RT : Runtime num} (st : Store num) pid :
  (0 < countActive st pid)%nat
  ↔ ∃ iid i, instances st !! iid = Some i ∧ pi_plan i = pid ∧ status i = active.
Proof.
  unfold countActive. split.
  - intros Hpos.
    destruct (map_size_ne_0_lookup_1
                (filter (λ kv : id * PlanInstance num,
                           pi_plan kv.2 = pid ∧ status kv.2 = active)
                        (instances st))) as (iid & i & Hi); [lia|].
    apply map_lookup_filter_Some in Hi as (Hi & Hp & Hs).
    by exists iid, i.
  - intros (iid & i & Hi & Hp & Hs).
    assert (size (filter (λ kv : id * PlanInstance num,
                            pi_plan kv.2 = pid ∧ status kv.2 = active)
                         (instances st)) ≠ 0%nat); [|lia].
    apply (map_size_ne_0_lookup_2 _ iid). exists i.
    by apply map_lookup_filter_Some.
Qed.

Lemma wfMaps_same_ref {num} `{RT : Runtime num} (us : gmap id (User num))
    (ins : gmap id (PlanInstance num)) (ps : gmap id (Plan num)) k u0 u' :
  wfMaps us ins ps →
  us !! k = Some u0 →
  activePlanInstance u' = activePlanInstance u0 →
  wfMaps (<[k := u']> us) ins ps.
Proof.
  intros (H1 & H2 & H3) Hk Href. split; [|split; [|exact H3]].
  - intros u user iid Hu Hact. rewrite lookup_insert in Hu.
    case_decide; [|by eapply H1].
    injection Hu as <-. subst u. apply (H1 k u0); congruence.
  - intros iid i Hi Hs. destruct (H2 iid i Hi Hs) as (user & Hu & Hact).
    rewrite lookup_insert. case_decide; [|eauto].
    exists u'. split; [reflexivity|]. congruence.
Qed.

Lemma wfMaps_open {num} `{RT : Runtime num} (us : gmap id (User num))
    (ins : gmap id (PlanInstance num)) (ps : gmap id (Plan num)) uid user user' iid inst :
  wfMaps us ins ps →
  us !! uid = Some user → activePlanInstance user = None →
  ins !! iid = None →
  pi_user inst = uid → status inst = active → is_Some (ps !! pi_plan inst) →
  activePlanInstance user' = Some iid →
  wfMaps (<[uid := user']> us) (<[iid := inst]> ins) ps.
Proof.
  intros (H1 & H2 & H3) Hu Hnone Hfresh Hown Hst Hplan Href.
  split; [|split].
  - intros u0 user0 iid0 Hu0 Hact0. rewrite lookup_insert in Hu0.
    case_decide as Hk.
    + injection Hu0 as <-. subst u0. assert (iid0 = iid) as -> by congruence.
      exists inst. by rewrite lookup_insert_eq.
    + destruct (H1 u0 user0 iid0 Hu0 Hact0) as (i & Hi & Ho & Hs).
      exists i. rewrite lookup_insert_ne; [done|congruence].
  - intros iid0 i0 Hi0 Hs0. rewrite lookup_insert in Hi0.
    case_decide as Hk.
    + injection Hi0 as <-. subst iid0. exists user'.
      by rewrite Hown, lookup_insert_eq.
    + destruct (H2 iid0 i0 Hi0 Hs0) as (user0 & Hu0 & Hact0).
      exists user0. rewrite lookup_insert_ne; [done|].
      intros Heq. rewrite <- Heq, Hu in Hu0. congruence.
  - intros iid0 i0 Hi0 Hs0. rewrite lookup_insert in Hi0.
    case_decide; [by injection Hi0 as <-|by eapply H3].
Qed.

Lemma wfMaps_close {num} `{RT : Runtime num} (us : gmap id (User num))
    (ins : gmap id (PlanInstance num)) (ps : gmap id (Plan num)) uid user user' iid inst inst' :
  wfMaps us ins ps →
  us !! uid = Some user → activePlanInstance user = Some iid →
  ins !! iid = Some inst →
  status inst' = expired →
  activePlanInstance user' = None →
  wfMaps (<[uid := user']> us) (<[iid := inst']> ins) ps.
Proof.
  intros (H1 & H2 & H3) Hu Href Hi Hexp Hnone.
  destruct (H1 uid user iid Hu Href) as (i & Hi' & Hown & Hst).
  assert (i = inst) as -> by congruence.
  split; [|split].
  - intros u0 user0 iid0 Hu0 Hact0. rewrite lookup_insert in Hu0.
    case_decide as Hk; [injection Hu0 as <-; congruence|].
    destruct (H1 u0 user0 iid0 Hu0 Hact0) as (i & Hi0 & Ho & Hs).
    exists i. rewrite lookup_insert_ne; [done|].
    intros <-. congruence.
  - intros iid0 i0 Hi0 Hs0. rewrite lookup_insert in Hi0.
    case_decide as Hk; [injection Hi0 as <-; congruence|].
    destruct (H2 iid0 i0 Hi0 Hs0) as (user0 & Hu0 & Hact0).
    exists user0. rewrite lookup_insert_ne; [done|].
    intros Heq. rewrite <- Heq, Hu in Hu0. congruence.
  - intros iid0 i0 Hi0 Hs0. rewrite lookup_insert in Hi0.
    case_decide; [injection Hi0 as <-; congruence|by eapply H3].
Qed.

Lemma wfMaps_touch {num} `{RT : Runtime num} (us : gmap id (User num))
    (ins : gmap id (PlanInstance num)) (ps : gmap id (Plan num)) iid inst inst' :
  wfMaps us ins ps →
  ins !! iid = Some inst →
  pi_user inst' = pi_user inst → pi_plan inst' = pi_plan inst →
  status inst' = status inst →
  wfMaps us (<[iid := inst']> ins) ps.
Proof.
  intros (H1 & H2 & H3) Hi Hown Hplan Hst. split; [|split].
  - intros u0 user0 iid0 Hu0 Hact0.
    destruct (H1 u0 user0 iid0 Hu0 Hact0) as (i & Hi0 & Ho & Hs).
    rewrite lookup_insert. case_decide as Hk; [|eauto].
    subst iid0. exists inst'. split; [reflexivity|]. split; congruence.
  - intros iid0 i0 Hi0 Hs0. rewrite lookup_insert in Hi0.
    case_decide as Hk; [|by eapply H2].
    injection Hi0 as <-. subst iid0. rewrite Hown.
    apply H2; congruence.
  - intros iid0 i0 Hi0 Hs0. rewrite lookup_insert in Hi0.
    case_decide as Hk; [|by eapply H3].
    injection Hi0 as <-. rewrite Hplan. apply (H3 iid inst); congruence.
Qed.

Lemma wfMaps_plans {num} `{RT : Runtime num} (us : gmap id (User num))
    (ins : gmap id (PlanInstance num)) (ps : gmap id (Plan num)) ps' :
  wfMaps us ins ps →
  (∀ iid i, ins !! iid = Some i → status i = active →
            is_Some (ps !! pi_plan i) → is_Some (ps' !! pi_plan i)) →
  wfMaps us ins ps'.
Proof.
  intros (H1 & H2 & H3) Hmono. split; [exact H1|]. split; [exact H2|].
  intros iid i Hi Hs. eauto.
Qed.

Lemma payActivationCommission_wellFormed {num} `{RT : Runtime num} (st : Store num) cfg user amount :
  wellFormed st → wellFormed (payActivationCommission st cfg user amount).
Proof.
  intros Hwf.
  destruct (payActivationCommission_cases st cfg user amount)
    as [->|(rid & referrer & t & _ & Hr & _ & _ & _ & ->)]; [exact Hwf|].
  unfold wellFormed; simpl. by apply (wfMaps_same_ref _ _ _ rid referrer).
Qed.

Lemma payDailyCommission_wellFormed {num} `{RT : Runtime num} (st : Store num) cfg user profit :
  wellFormed st → wellFormed (payDailyCommission st cfg user profit).
Proof.
  intros Hwf.
  destruct (payDailyCommission_cases st cfg user profit)
    as [->|(rid & referrer & t & _ & Hr & _ & _ & _ & _ & ->)]; [exact Hwf|].
  unfold wellFormed; simpl. by apply (wfMaps_same_ref _ _ _ rid referrer).
Qed.

Lemma handle_wellFormed {num} `{RT : Runtime num} (st : Store num) now r :
  wellFormed st → wellFormed (handle st now r).2.
Proof.
  intros Hwf. destruct r; simpl.
  - destruct (activatePlan_cases st uid planId amount now)
      as [[_ ->]|(cfg & user & plan & a & bu & wu & user' & t & _ & Hu & Hnone & Hp
              & _ & _ & _ & _ & _ & _ & _ & _ & _ & Href & _ & _ & _ & ->)];
      [exact Hwf|].
    cbn [snd]. apply payActivationCommission_wellFormed.
    unfold wellFormed; simpl.
    apply (wfMaps_open _ _ _ uid user); try done. apply freshId_not_in.
  - destruct (upgradePlan_cases st uid newPlanId now)
      as [[_ ->]|(user & oldId & oldInst & oldPlan & newPlan & iid & user' & t & Hu
              & Hact & Hold & _ & Hnp & _ & _ & -> & _ & _ & _ & _ & Href & _
              & _ & _ & ->)];
      [exact Hwf|].
    unfold wellFormed; simpl.
    set (closed :=
           {| userId := userId user; walletBalance := walletBalance user;
              bonusBalance := bonusBalance user; invitedBy := invitedBy user;
              activePlanInstance := None |}).
    rewrite <- (insert_insert_eq (users st) uid user' closed).
    apply (wfMaps_open _ _ _ uid closed); try done;
      first [ by apply (wfMaps_close _ _ _ uid user _ oldId oldInst)
            | apply lookup_insert_eq
            | apply freshId_not_in ].
  - destruct (collectDailyProfit_cases st uid now)
      as [[_ ->]|[(cfg & user & iid & inst & user' & _ & Hu & Hact & Hi & _ & _ & _
               & _ & _ & Hnone & ->)
             |(cfg & user & iid & inst & inst' & t & _ & Hu & Hact & Hi & _ & _
               & Hterms & Hst & _ & _ & _ & _ & _ & ->)]];
      [exact Hwf| |].
    + unfold wellFormed; simpl.
      by apply (wfMaps_close _ _ _ uid user _ iid inst).
    + cbn [snd]. apply payDailyCommission_wellFormed.
      unfold wellFormed; simpl.
      apply (wfMaps_same_ref _ _ _ uid user); [|exact Hu|reflexivity].
      unfold termsOf in Hterms.
      apply (wfMaps_touch _ _ _ iid inst); [exact Hwf|exact Hi|..|exact Hst];
        congruence.
  - destruct (renewPlan_cases st uid instanceId now)
      as [[_ ->]|(user & oldInstance & planToRenew & user' & t & _ & Hu & _ & _
              & Hnone & Hp & _ & _ & _ & _ & _ & Href & _ & _ & _ & ->)];
      [exact Hwf|].
    unfold wellFormed; simpl.
    apply (wfMaps_open _ _ _ uid user); try done. apply freshId_not_in.
  - unfold createPlan. repeat case_match; simpl; try exact Hwf;
      unfold wellFormed; simpl;
      (apply (wfMaps_plans _ _ (plans st)); [exact Hwf|]);
      intros iid i _ _ Hsome; rewrite lookup_insert; case_decide; eauto.
  - unfold updatePlan. repeat case_match; simpl; try exact Hwf;
      unfold wellFormed; simpl;
      (apply (wfMaps_plans _ _ (plans st)); [exact Hwf|]);
      intros iid i _ _ Hsome; rewrite lookup_insert; case_decide; eauto.
  - unfold deletePlan.
    destruct (plans st !! pid) as [plan|]; [|exact Hwf].
    destruct (bool_decide (0 < countActive st pid)%nat) eqn:Hc; [exact Hwf|].
    apply bool_decide_eq_false in Hc.
    unfold wellFormed; simpl. apply (wfMaps_plans _ _ (plans st)); [exact Hwf|].
    intros iid i Hi Hs Hsome. rewrite lookup_delete_ne; [exact Hsome|].
    intros Heq. apply Hc. apply countActive_positive. by exists iid, i.
Qed.

Lemma run_wellFormed {num} `{RT : Runtime num} reqs :
  ∀ st : Store num, wellFormed st → wellFormed (run st reqs).
Proof.
  induction reqs as [|[now r] rest IH]; intros st Hwf; simpl; [exact Hwf|].
  apply IH. by apply handle_wellFormed.
Qed.

(** A store in which active references and active-status instances match
    one to one, and in which the plan of every active instance is in the
    catalog, stays so under every request sequence. *)
Theorem wellFormed_preserved {num} `{RT : Runtime num} reqs :
  ∀ st : Store num, wellFormed st → wellFormed (run st reqs).
Proof.
  induction reqs as [|[now r] rest IH]; intros st Hwf; simpl.
  - exact Hwf.
  - apply IH. by apply handle_wellFormed.
Qed.

Lemma wellFormed_without_references {num} `{RT : Runtime num} (st : Store num) :
  instances st = ∅ →
  (∀ u user, users st !! u = Some user → activePlanInstance user = None) →
  wellFormed st.
Proof.
  intros Hins Hnone. unfold wellFormed. rewrite Hins. split; [|split].
  - intros u user iid Hu Hact. rewrite (Hnone u user Hu) in Hact. discriminate.
  - intros iid i Hi. by rewrite lookup_empty in Hi.
  - intros iid i Hi. by rewrite lookup_empty in Hi.
Qed.

Lemma demoStore_wellFormed : wellFormed demoStore.
Proof.
  apply wellFormed_without_references; [reflexivity|].
  intros u user. unfold demoStore; simpl.
  rewrite lookup_insert. case_decide; [by intros [= <-]|].
  rewrite lookup_insert. case_decide; [by intros [= <-]|].
  by rewrite lookup_empty.
Qed.

Lemma wellFormed_preserved_witness :
  wellFormed (run demoStore (demoRequests ++ [(2592000003%Z, DeletePlan 2)])%list).
Proof.
  apply (wellFormed_preserved _ demoStore). exact demoStore_wellFormed.
Defined.

(** In every store reached from a well-formed one, a user owns at most one
    instance with status active. *)
Theorem at_most_one_active_instance {num} `{RT : Runtime num} (st : Store num) reqs iid1 iid2 i1 i2 :
  wellFormed st →
  instances (run st reqs) !! iid1 = Some i1 → status i1 = active →
  instances (run st reqs) !! iid2 = Some i2 → status i2 = active →
  pi_user i1 = pi_user i2 →
  iid1 = iid2.
Proof.
  intros Hwf H1 Hs1 H2 Hs2 Hown.
  destruct (run_wellFormed reqs st Hwf) as (_ & Hact & _).
  destruct (Hact iid1 i1 H1 Hs1) as (u1 & Hu1 & Hr1).
  destruct (Hact iid2 i2 H2 Hs2) as (u2 & Hu2 & Hr2).
  rewrite Hown in Hu1. congruence.
Qed.

Lemma at_most_one_active_instance_witness :
  ∃ i, instances (run demoStore demoRequests) !! 2%positive = Some i
       ∧ status i = active
       ∧ ∀ iid i', instances (run demoStore demoRequests) !! iid = Some i'
                   → status i' = active → pi_user i' = 1%positive
                   → iid = 2%positive.
Proof.
  exists (newInstanceDoc 1 1 planBasic 500 (computeDailyProfit planBasic 500)
            2592000002).
  split; [reflexivity|]. split; [reflexivity|].
  intros iid i' Hi Hs Hown.
  eapply (at_most_one_active_instance demoStore demoRequests iid 2%positive i');
    [exact demoStore_wellFormed | exact Hi | exact Hs
    | reflexivity | reflexivity | exact Hown].
Defined.

(** In a well-formed store the user listing shows, for a user with an
    active reference, an active instance owned by that user together with
    its plan; the populated plan is never null. *)
Theorem listing_shows_active_instance {num} `{RT : Runtime num} (st : Store num) uid user iid :
  wellFormed st →
  users st !! uid = Some user →
  activePlanInstance user = Some iid →
  ∃ inst plan,
    (getAllAvailablePlans st uid).2 = Some (iid, inst, Some plan)
    ∧ pi_user inst = uid ∧ status inst = active
    ∧ (pi_plan inst, plan) ∈ (getAllAvailablePlans st uid).1.
Proof.
  intros (H1 & _ & H3) Hu Hact.
  destruct (H1 uid user iid Hu Hact) as (inst & Hi & Hown & Hst).
  destruct (H3 iid inst Hi Hst) as (plan & Hp).
  exists inst, plan. unfold getAllAvailablePlans; simpl.
  rewrite Hu, (populateActive_Some _ _ _ _ Hact Hi), Hp.
  split; [reflexivity|]. split; [exact Hown|]. split; [exact Hst|].
  by apply elem_of_map_to_list.
Qed.

Lemma listing_shows_active_instance_witness :
  ∃ inst plan,
    (getAllAvailablePlans (run demoStore [(0%Z, Activate 1 1 (Some 1000))]) 1).2
      = Some (1%positive, inst, Some plan)
    ∧ pi_user inst = 1%positive ∧ status inst = active
    ∧ name plan = "Basic".
Proof.
  assert (∃ user,
            users (run demoStore [(0%Z, Activate 1 1 (Some 1000))]) !! 1%positive
            = Some user
            ∧ activePlanInstance user = Some 1%positive)
    as (user & Hu & Hact)
    by (eexists; split; vm_compute; reflexivity).
  destruct (listing_shows_active_instance
              (run demoStore [(0%Z, Activate 1 1 (Some 1000))]) 1
              user 1%positive
              (run_wellFormed _ demoStore demoStore_wellFormed) Hu Hact)
    as (inst & plan & Hl & Hown & Hst & _).
  exists inst, plan. split; [exact Hl|]. split; [exact Hown|]. split; [exact Hst|].
  vm_compute in Hl. injection Hl as <- <-. reflexivity.
Defined.

(** A user listing for a missing user, or for a user whose reference is
    empty or dangling, shows no active instance and still lists every plan
    of the catalog; the admin listing lists the same plans. *)
Theorem listing_without_active_instance {num} `{RT : Runtime num} (st : Store num) uid :
  (users st !! uid = None
   ∨ ∃ user, users st !! uid = Some user
             ∧ match activePlanInstance user with
               | None => True
               | Some iid => instances st !! iid = None
               end) →
  (getAllAvailablePlans st uid).2 = None
  ∧ (getAllAvailablePlans st uid).1 = getAllPlansForAdmin st
  ∧ ∀ pid plan,
      (pid, plan) ∈ getAllPlansForAdmin st ↔ plans st !! pid = Some plan.
Proof.
  intros H. split; [|split; [reflexivity|]].
  - unfold getAllAvailablePlans, populateActive; simpl.
    destruct H as [->|(user & -> & Href)]; [reflexivity|].
    destruct (activePlanInstance user); [by rewrite Href|reflexivity].
  - intros pid plan. unfold getAllPlansForAdmin. apply elem_of_map_to_list.
Qed.

Lemma listing_without_active_instance_witness :
  (getAllAvailablePlans demoStore 7).2 = None
  ∧ (getAllAvailablePlans demoStore 1).2 = None
  ∧ (1%positive, planBasic) ∈ getAllPlansForAdmin demoStore.
Proof.
  split; [|split].
  - apply (listing_without_active_instance demoStore 7). by left.
  - apply (listing_without_active_instance demoStore 1). right.
    by exists alice.
  - apply (listing_without_active_instance demoStore 1);
      [right; by exists alice | reflexivity].
Defined.

(** ** Exceptions *)

(** In a well-formed store no request of an existing user makes
    [activatePlan], [upgradePlan] or [collectDailyProfit] throw: the
    populated plan of an upgrade is never null. *)
Theorem known_user_never_throws {num} `{RT : Runtime num} (st : Store num) uid now :
  wellFormed st →
  is_Some (users st !! uid) →
  (∀ planId amount, (activatePlan st uid planId amount now).1 ≠ Thrown)
  ∧ (∀ newPlanId, (upgradePlan st uid newPlanId now).1 ≠ Thrown)
  ∧ (collectDailyProfit st uid now).1 ≠ Thrown.
Proof.
  intros (H1 & _ & H3) [user Hu]. split; [|split].
  - intros planId amount. unfold activatePlan. rewrite Hu.
    repeat case_match; simpl; discriminate.
  - intros newPlanId. unfold upgradePlan. rewrite Hu.
    destruct (populateActive st user) as [[oldId oldInst]|] eqn:Hpop;
      [|discriminate].
    apply populateActive_inv in Hpop as [Hact Hi].
    destruct (H1 uid user oldId Hu Hact) as (i & Hi' & _ & Hst).
    assert (i = oldInst) as -> by congruence.
    destruct (H3 oldId oldInst Hi Hst) as (oldPlan & ->).
    repeat case_match; simpl; discriminate.
  - unfold collectDailyProfit. rewrite Hu.
    repeat case_match; simpl; discriminate.
Qed.

Lemma known_user_never_throws_witness :
  (upgradePlan (run demoStore [(0%Z, Activate 1 1 (Some 1000))]) 1 2 5).1 ≠ Thrown.
Proof.
  apply (known_user_never_throws
           (run demoStore [(0%Z, Activate 1 1 (Some 1000))]) 1 5).
  - apply run_wellFormed. exact demoStore_wellFormed.
  - vm_compute. eauto.
Defined.

(** A request on behalf of a user id with no document throws in
    [upgradePlan], and in [activatePlan] and [collectDailyProfit] once the
    settings record is found; [renewPlan] answers 404 when the instance is
    missing too and throws otherwise.  The store is unchanged. *)
Theorem unknown_user_throws {num} `{RT : Runtime num} (st : Store num) uid now :
  users st !! uid = None →
  (∀ newPlanId, upgradePlan st uid newPlanId now = (Thrown, st))
  ∧ (is_Some (settings st) →
     (∀ planId amount, activatePlan st uid planId amount now = (Thrown, st))
     ∧ collectDailyProfit st uid now = (Thrown, st))
  ∧ (∀ instanceId,
       renewPlan st uid instanceId now
       = (match instances st !! instanceId with
          | Some _ => Thrown
          | None => HistoryNotFound
          end, st)).
Proof.
  intros Hu. split; [|split].
  - intros. unfold upgradePlan. by rewrite Hu.
  - intros [cfg Hcfg]. split.
    + intros. unfold activatePlan. by rewrite Hcfg, Hu.
    + unfold collectDailyProfit. by rewrite Hcfg, Hu.
  - intros instanceId. unfold renewPlan.
    destruct (instances st !! instanceId); [by rewrite Hu|reflexivity].
Qed.

Lemma unknown_user_throws_witness :
  upgradePlan demoStore 9 1 0 = (Thrown, demoStore)
  ∧ activatePlan demoStore 9 1 (Some 1000) 0 = (Thrown, demoStore)
  ∧ renewPlan expiredStore 9 1 0 = (Thrown, expiredStore)
  ∧ renewPlan demoStore 9 1 0 = (HistoryNotFound, demoStore).
Proof.
  destruct (unknown_user_throws demoStore 9 0 eq_refl) as (Hup & Hact & Hren).
  destruct (unknown_user_throws expiredStore 9 0 eq_refl) as (_ & _ & Hren').
  split; [apply Hup|]. split; [apply Hact; simpl; eauto|].
  split; [apply (Hren' 1%positive) | apply (Hren 1%positive)].
Defined.

(** ** The catalog *)

(** Deleting an existing plan is refused exactly when some instance of the
    plan has status active: the answer then carries the positive number of
    such instances and the store is unchanged.  Otherwise the plan, and
    only that plan, leaves the catalog and its listing. *)
Theorem delete_refused_iff_active_instance {num} `{RT : Runtime num} (st : Store num) pid plan :
  plans st !! pid = Some plan →
  ((∃ iid i, instances st !! iid = Some i ∧ pi_plan i = pid ∧ status i = active) →
     deletePlan st pid = (PlanHasActiveHolders (countActive st pid), st)
     ∧ (0 < countActive st pid)%nat)
  ∧ ((¬ ∃ iid i, instances st !! iid = Some i ∧ pi_plan i = pid
                 ∧ status i = active) →
     ∃ st', deletePlan st pid = (PlanDeleted, st')
            ∧ plans st' !! pid = None
            ∧ (∀ k, k ≠ pid → plans st' !! k = plans st !! k)
            ∧ ∀ k p, (k, p) ∈ getAllPlansForAdmin st'
                     ↔ (k, p) ∈ getAllPlansForAdmin st ∧ k ≠ pid).
Proof.
  intros Hp. unfold deletePlan. rewrite Hp. split.
  - intros Hex. apply countActive_positive in Hex.
    by rewrite bool_decide_eq_true_2.
  - intros Hno. rewrite bool_decide_eq_false_2
      by (intros Hc; apply Hno; by apply countActive_positive).
    eexists. split; [reflexivity|]. simpl.
    split; [apply lookup_delete_eq|].
    split; [intros k Hk; by apply lookup_delete_ne|].
    intros k p. unfold getAllPlansForAdmin; simpl.
    rewrite !elem_of_map_to_list, lookup_delete.
    destruct (decide (pid = k)) as [->|Hk].
    + split; [discriminate | intros [_ Hne]; by destruct Hne].
    + split; [intros ?; split; [done|congruence] | by intros [? _]].
Qed.

Lemma delete_refused_iff_active_instance_witness :
  deletePlan activeStore 1 = (PlanHasActiveHolders 1, activeStore)
  ∧ ∃ st', deletePlan activeStore 2 = (PlanDeleted, st')
           ∧ plans st' !! 2%positive = None
           ∧ plans st' !! 1%positive = Some planBasic.
Proof.
  destruct (delete_refused_iff_active_instance activeStore 1 planBasic eq_refl)
    as [Hheld _].
  destruct (delete_refused_iff_active_instance activeStore 2 planPro eq_refl)
    as [_ Hfree].
  split.
  - destruct Hheld as [Hr _]; [by exists 1%positive, aliceInstance|].
    rewrite Hr. reflexivity.
  - destruct Hfree as (st' & Hr & Hgone & Hkeep & _).
    + intros (iid & i & Hi & Hp & Hs). unfold activeStore in Hi; simpl in Hi.
      apply lookup_singleton_Some in Hi as [_ <-]. discriminate.
    + exists st'. split; [exact Hr|]. split; [exact Hgone|].
      rewrite Hkeep by discriminate. reflexivity.
Defined.

(** In a well-formed store the plan of the instance a user currently holds
    cannot be deleted. *)
Theorem held_plan_cannot_be_deleted {num} `{RT : Runtime num} (st : Store num) uid user iid inst :
  wellFormed st →
  users st !! uid = Some user →
  activePlanInstance user = Some iid →
  instances st !! iid = Some inst →
  ∃ n, deletePlan st (pi_plan inst) = (PlanHasActiveHolders n, st)
       ∧ (0 < n)%nat.
Proof.
  intros (H1 & _ & H3) Hu Hact Hi.
  destruct (H1 uid user iid Hu Hact) as (i & Hi' & _ & Hst).
  assert (i = inst) as -> by congruence.
  destruct (H3 iid inst Hi Hst) as (plan & Hp).
  assert (Hpos : (0 < countActive st (pi_plan inst))%nat).
  { apply countActive_positive. by exists iid, inst. }
  exists (countActive st (pi_plan inst)). split; [|exact Hpos].
  unfold deletePlan. by rewrite Hp, bool_decide_eq_true_2.
Qed.

Lemma held_plan_cannot_be_deleted_witness :
  ∃ n, deletePlan (run demoStore demoRequests) 1
         = (PlanHasActiveHolders n, run demoStore demoRequests)
       ∧ (0 < n)%nat.
Proof.
  apply (held_plan_cannot_be_deleted (run demoStore demoRequests) 1
           (mkUser "alice" 100 0 (Some 2%positive) (Some 2%positive)) 2%positive
           (newInstanceDoc 1 1 planBasic 500 (computeDailyProfit planBasic 500)
              2592000002));
    [apply run_wellFormed; exact demoStore_wellFormed | reflexivity..].
Defined.

Lemma assignBody_idempotent {num} `{RT : Runtime num} (plan : Plan num) body :
  assignBody (assignBody plan body) body = assignBody plan body.
Proof.
  unfold assignBody; simpl.
  destruct body as [n lo hi ty v d h img]; simpl.
  destruct n, lo, hi, ty, v, d, h, img; reflexivity.
Qed.

(** An update of a missing plan answers 404 without a write.  An update of
    an existing plan rewrites that plan only; a body without fields and
    without a file rewrites it to itself; and sending the same update twice
    gives the same answer and the same store as sending it once. *)
Theorem update_is_local_and_idempotent {num} `{RT : Runtime num} (st : Store num) pid body file :
  (plans st !! pid = None → updatePlan st pid body file = (PlanNotFound, st))
  ∧ (∀ k, k ≠ pid →
       plans (updatePlan st pid body file).2 !! k = plans st !! k)
  ∧ (∀ plan, plans st !! pid = Some plan →
       body = mkPlanBody None None None None None None None None →
       file = None →
       (updatePlan st pid body file).1 = PlanUpdated plan
       ∧ plans (updatePlan st pid body file).2 = plans st)
  ∧ updatePlan (updatePlan st pid body file).2 pid body file
    = updatePlan st pid body file.
Proof.
  unfold updatePlan. split; [|split; [|split]].
  - by intros ->.
  - intros k Hk. destruct (plans st !! pid); [|reflexivity].
    simpl. by rewrite lookup_insert_ne.
  - intros plan Hp -> ->. rewrite Hp. simpl.
    assert (assignBody plan (mkPlanBody None None None None None None None None)
            = plan) as -> by (by destruct plan).
    split; [reflexivity|]. by apply insert_id.
  - destruct (plans st !! pid) as [plan|] eqn:Hp; simpl; [|by rewrite Hp].
    rewrite lookup_insert_eq.
    assert (Hsame :
      match file with
      | Some p =>
          setImageUrl
            (assignBody
               match file with
               | Some p0 => setImageUrl (assignBody plan body) p0
               | None => assignBody plan body
               end body) p
      | None =>
          assignBody
            match file with
            | Some p0 => setImageUrl (assignBody plan body) p0
            | None => assignBody plan body
            end body
      end
      = match file with
        | Some p => setImageUrl (assignBody plan body) p
        | None => assignBody plan body
        end).
    { destruct file as [p|]; [|apply assignBody_idempotent].
      unfold setImageUrl, assignBody; simpl.
      destruct body as [n lo hi ty v d h img]; simpl.
      destruct n, lo, hi, ty, v, d, h; reflexivity. }
    rewrite Hsame. unfold setPlans; simpl. by rewrite insert_insert_eq.
Qed.

(** ** Collection and the catalog *)

(** A collection never reads the catalog: whatever the catalog holds (the
    plan updated, or deleted), it gives the same answer, pays the
    dailyProfit frozen in the instance, and leaves the catalog as it is. *)
Theorem collect_ignores_catalog {num} `{RT : Runtime num} (st : Store num) ps uid now :
  collectDailyProfit (setPlans st ps) uid now
  = ((collectDailyProfit st uid now).1,
     setPlans (collectDailyProfit st uid now).2 ps).
Proof.
  unfold collectDailyProfit, payDailyCommission, populateActive; simpl.
  repeat case_match; simplify_eq/=; try reflexivity.
Qed.

Lemma update_is_local_and_idempotent_witness :
  updatePlan demoStore 5 lowerMaxBody None = (PlanNotFound, demoStore)
  ∧ plans (updatePlan demoStore 1 lowerMaxBody None).2 !! 2%positive
    = Some planPro.
Proof.
  destruct (update_is_local_and_idempotent demoStore 5 lowerMaxBody None)
    as (Hmissing & _).
  destruct (update_is_local_and_idempotent demoStore 1 lowerMaxBody None)
    as (_ & Hlocal & _).
  split; [by apply Hmissing|].
  rewrite (Hlocal 2%positive) by discriminate. reflexivity.
Defined.

(** ** One request after another *)

(** After a successful collection at [t1], a second collection at any
    instant before [t1] + 24 h (and not past endDate) is refused with
    CollectionTooSoon, counts the hours from [t1] and shows them to one
    decimal, and pays nothing. *)
Theorem collect_twice_too_soon {num} `{RT : Runtime num} (st : Store num) uid t1 t2 cfg user iid inst :
  settings st = Some cfg →
  users st !! uid = Some user →
  activePlanInstance user = Some iid →
  instances st !! iid = Some inst →
  (t1 <= endDate inst)%Z →
  (lastCollectionBase inst + DAY_MS <= t1)%Z →
  (t2 <= endDate inst)%Z →
  (t2 < t1 + DAY_MS)%Z →
  ∃ st1,
    collectDailyProfit st uid t1 = (Collected (dailyProfit inst), st1)
    ∧ collectDailyProfit st1 uid t2
      = (CollectionTooSoon
           (toFixed1 (num_ofZ (t1 + DAY_MS - t2) ⊘ num_ofZ HOUR_MS : num)),
         st1).
Proof.
  intros Hcfg Hu Hact Hi Hend1 Hlate Hend2 Hsoon.
  destruct (collectDailyProfit_cases st uid t1)
    as [[Herr _]|[(c & u & k & i & u' & _ & Hu' & Hact' & Hi' & Hexp & _)
                 |(c & u & k & i & i' & t & Hc & Hu' & Hact' & Hi' & _ & _
                   & Hterms & Hst & Hlast & _ & _ & _ & _ & Hrun)]].
  - exfalso. apply Herr. unfold collectDailyProfit.
    rewrite Hcfg, Hu, (populateActive_Some _ _ _ _ Hact Hi).
    assert ((endDate inst <? t1)%Z = false) as -> by (apply Z.ltb_ge; lia).
    unfold nextCollectionTime.
    assert ((t1 <? lastCollectionBase inst + DAY_MS)%Z = false) as ->
      by (apply Z.ltb_ge; lia).
    reflexivity.
  - exfalso. assert (u = user) as -> by congruence.
    assert (k = iid) as -> by congruence.
    assert (i = inst) as -> by congruence. lia.
  - assert (u = user) as -> by congruence.
    assert (k = iid) as -> by congruence.
    assert (i = inst) as -> by congruence.
    assert (c = cfg) as -> by congruence.
    eexists. split; [exact Hrun|].
    match goal with
    | |- collectDailyProfit ?s uid t2 = _ => set (st1 := s)
    end.
    assert (Hcfg1 : settings st1 = Some cfg).
    { subst st1. by rewrite payDailyCommission_settings. }
    assert (Hi1 : instances st1 !! iid = Some i').
    { subst st1. rewrite payDailyCommission_instances. simpl.
      apply lookup_insert_eq. }
    destruct (payDailyCommission_ref
                (createTransaction
                   (saveUser (saveInstance st iid i') uid
                      (credit user (dailyProfit inst))) t)
                cfg (credit user (dailyProfit inst)) (dailyProfit inst)
                uid (credit user (dailyProfit inst)))
      as (u1 & Hu1 & Href1); [simpl; apply lookup_insert_eq|].
    fold st1 in Hu1. simpl in Href1.
    unfold collectDailyProfit.
    rewrite Hcfg1, Hu1.
    rewrite (populateActive_Some st1 u1 iid i') by congruence.
    unfold termsOf in Hterms. injection Hterms as _ _ _ _ _ Hend.
    assert ((endDate i' <? t2)%Z = false) as -> by (apply Z.ltb_ge; lia).
    unfold remainingHoursAt, nextCollectionTime, lastCollectionBase.
    rewrite Hlast.
    assert ((t2 <? t1 + DAY_MS)%Z = true) as -> by (apply Z.ltb_lt; lia).
    reflexivity.
Qed.

Lemma collect_twice_too_soon_witness :
  ∃ st1,
    collectDailyProfit activeStore 1 86400000 = (Collected 20, st1)
    ∧ collectDailyProfit st1 1 90000000 = (CollectionTooSoon 230, st1).
Proof.
  destruct (collect_twice_too_soon activeStore 1 86400000 90000000
              mainSettings aliceActive 1 aliceInstance
              eq_refl eq_refl eq_refl eq_refl)
    as (st1 & H1 & H2); [vm_compute; discriminate ..| reflexivity |].
  exists st1. split; [exact H1|]. rewrite H2. reflexivity.
Defined.

(** A successful activation leaves the user with an active reference: any
    further activation is refused with AlreadyHasActivePlan, whatever plan
    and amount it names, and a collection before 24 h have passed (and not
    past endDate) is refused with CollectionTooSoon. *)
Theorem activate_then_refused {num} `{RT : Runtime num} (st : Store num) uid planId amount now iid inst st1 :
  activatePlan st uid planId amount now = (Activated iid inst, st1) →
  (∀ planId' amount' now',
     activatePlan st1 uid planId' amount' now' = (AlreadyHasActivePlan, st1))
  ∧ (∀ now', (now' <= endDate inst)%Z → (now' < now + DAY_MS)%Z →
       collectDailyProfit st1 uid now'
       = (CollectionTooSoon (remainingHoursAt inst now'), st1)).
Proof.
  intros Hrun.
  destruct (activatePlan_cases st uid planId amount now)
    as [[Herr _]|(cfg & user & plan & a & bu & wu & user' & t & Hcfg & Hu & _
                  & _ & _ & _ & _ & _ & _ & _ & _ & _ & _ & Href & _ & _ & _
                  & Heq)].
  { exfalso. apply Herr. by rewrite Hrun. }
  rewrite Heq in Hrun. injection Hrun as <- <- <-.
  match goal with
  | |- context [activatePlan ?s uid _ _ _] => set (st1 := s)
  end.
  assert (Hcfg1 : settings st1 = Some cfg).
  { subst st1. by rewrite payActivationCommission_settings. }
  assert (Hi1 : instances st1 !! freshId (instances st)
                = Some (newInstanceDoc uid planId plan a
                          (computeDailyProfit plan a) now)).
  { subst st1. rewrite payActivationCommission_instances. simpl.
    apply lookup_insert_eq. }
  destruct (payActivationCommission_ref
              (createTransaction
                 (saveUser
                    (saveInstance st (freshId (instances st))
                       (newInstanceDoc uid planId plan a
                          (computeDailyProfit plan a) now))
                    uid user') t)
              cfg user' a uid user')
    as (u1 & Hu1 & Href1); [simpl; apply lookup_insert_eq|].
  fold st1 in Hu1. rewrite Href in Href1.
  split.
  - intros planId' amount' now'. unfold activatePlan.
    by rewrite Hcfg1, Hu1, Href1, bool_decide_is_Some_Some.
  - intros now' Hend Hsoon. unfold collectDailyProfit.
    rewrite Hcfg1, Hu1, (populateActive_Some st1 u1 _ _ Href1 Hi1).
    assert ((endDate (newInstanceDoc uid planId plan a
                        (computeDailyProfit plan a) now) <? now')%Z = false)
      as -> by (apply Z.ltb_ge; exact Hend).
    unfold nextCollectionTime, lastCollectionBase; simpl.
    assert ((now' <? now + DAY_MS)%Z = true) as -> by (apply Z.ltb_lt; lia).
    reflexivity.
Qed.

Lemma activate_then_refused_witness :
  ∃ iid inst st1,
    activatePlan demoStore 1 1 (Some 500) 0 = (Activated iid inst, st1)
    ∧ activatePlan st1 1 2 (Some 2000) 5 = (AlreadyHasActivePlan, st1)
    ∧ ∃ hours, collectDailyProfit st1 1 3600000 = (CollectionTooSoon hours, st1).
Proof.
  eexists _, _, _.
  pose proof (activate_then_refused demoStore 1 1 (Some 500) 0 _ _ _ eq_refl)
    as [Hact Hcol].
  split; [reflexivity|]. split; [apply Hact|].
  eexists. apply Hcol; vm_compute; [discriminate|reflexivity].
Defined.

(** ** Order of the checks *)



(** An upgrade or a collection of a user without an active instance is
    refused (400) without a write, and a dangling reference counts as
    none; an upgrade to a plan id missing from the catalog answers 404. *)
Theorem no_active_instance_refusals {num} `{RT : Runtime num} (st : Store num) uid now user :
  users st !! uid = Some user →
  (populateActive st user = None →
     (∀ newPlanId, upgradePlan st uid newPlanId now = (NoPlanToUpgrade, st))
     ∧ (is_Some (settings st) →
        collectDailyProfit st uid now = (NoPlanToCollect, st)))
  ∧ (populateActive st user = None
     ↔ match activePlanInstance user with
       | None => True
       | Some iid => instances st !! iid = None
       end)
  ∧ (∀ newPlanId, is_Some (populateActive st user) →
       plans st !! newPlanId = None →
       upgradePlan st uid newPlanId now = (NewPlanNotFound, st)).
Proof.
  intros Hu. split; [|split].
  - intros Hpop. split.
    + intros. unfold upgradePlan. by rewrite Hu, Hpop.
    + intros [cfg Hcfg]. unfold collectDailyProfit. by rewrite Hcfg, Hu, Hpop.
  - unfold populateActive. destruct (activePlanInstance user) as [iid|]; [|done].
    destruct (instances st !! iid); split; done.
  - intros newPlanId [[iid inst] Hpop] Hnp. unfold upgradePlan.
    by rewrite Hu, Hpop, Hnp.
Qed.

Lemma no_active_instance_refusals_witness :
  upgradePlan demoStore 1 2 0 = (NoPlanToUpgrade, demoStore)
  ∧ collectDailyProfit demoStore 1 0 = (NoPlanToCollect, demoStore)
  ∧ upgradePlan activeStore 1 9 0 = (NewPlanNotFound, activeStore).
Proof.
  destruct (no_active_instance_refusals demoStore 1 0 alice eq_refl)
    as (Hnone & _ & _).
  destruct (no_active_instance_refusals activeStore 1 0 aliceActive eq_refl)
    as (_ & _ & Hnp).
  destruct (Hnone eq_refl) as [Hup Hcol].
  split; [apply Hup|]. split; [apply Hcol; simpl; eauto|].
  apply Hnp; [simpl; eauto | reflexivity].
Defined.

(** ** renewPlan *)

(** A renewal checks, in this order: the instance exists and belongs to the
    user (404 otherwise), the instance is expired, the user has no active
    reference, the wallet covers the plan's current minAmount.  Nothing is
    written by a refused renewal, and the bonus balance is never
    consulted. *)
Theorem renew_refusal_order {num} `{RT : Runtime num} (st : Store num) uid instanceId now user :
  users st !! uid = Some user →
  (instances st !! instanceId = None →
     renewPlan st uid instanceId now = (HistoryNotFound, st))
  ∧ (∀ oldInstance, instances st !! instanceId = Some oldInstance →
       (pi_user oldInstance ≠ uid →
          renewPlan st uid instanceId now = (HistoryNotFound, st))
       ∧ (pi_user oldInstance = uid → status oldInstance = active →
          renewPlan st uid instanceId now = (NotExpired, st))
       ∧ (pi_user oldInstance = uid → status oldInstance = expired →
          is_Some (activePlanInstance user) →
          renewPlan st uid instanceId now = (RenewWhileActive, st))
       ∧ (∀ plan, pi_user oldInstance = uid → status oldInstance = expired →
            activePlanInstance user = None →
            plans st !! pi_plan oldInstance = Some plan →
            num_lt (walletBalance user) (minAmount plan) = true →
            renewPlan st uid instanceId now
            = (RenewShortOfFunds (minAmount plan), st))).
Proof.
  intros Hu. unfold renewPlan. split.
  - by intros ->.
  - intros oldInstance ->. rewrite Hu. split; [|split; [|split]].
    + intros Hne. by rewrite bool_decide_eq_false_2.
    + intros Hown ->. by rewrite bool_decide_eq_true_2.
    + intros Hown -> Hsome.
      by rewrite (bool_decide_eq_true_2 _ Hown), (bool_decide_eq_true_2 _ Hsome).
    + intros plan Hown Hst Hnone Hp Hshort.
      rewrite Hst, Hnone, Hp, bool_decide_is_Some_None.
      rewrite (bool_decide_eq_true_2 _ Hown).
      by rewrite Hshort.
Qed.

Lemma renew_refusal_order_witness :
  renewPlan expiredStore 1 7 0 = (HistoryNotFound, expiredStore)
  ∧ renewPlan expiredStore 2 1 0 = (HistoryNotFound, expiredStore)
  ∧ renewPlan activeStore 1 1 0 = (NotExpired, activeStore).
Proof.
  destruct (renew_refusal_order expiredStore 1 7 0 aliceIdle eq_refl)
    as [Hmissing _].
  destruct (renew_refusal_order expiredStore 2 1 0 bob eq_refl)
    as [_ Hother].
  destruct (renew_refusal_order activeStore 1 1 0 aliceActive eq_refl)
    as [_ Hactive].
  split; [by apply Hmissing|]. split.
  - destruct (Hother _ eq_refl) as (H & _). apply H. discriminate.
  - destruct (Hactive _ eq_refl) as (_ & H & _). by apply H.
Defined.

(** A renewal that passes the checks debits the wallet, and only the
    wallet, by the plan's current minAmount; keeps the old instance as it
    is; and stores a new active instance of the same plan for the same
    user with investedAmount = minAmount, with dailyProfit the plan's
    current dailyYieldValue for a fixed plan and
    minAmount * dailyYieldValue / 100 otherwise, running from now to now
    moved forward by durationDays calendar days, with
    lastCollectedDate = now and totalCollected = 0.  It records one
    investment transaction of -minAmount. *)
Theorem renew_success {num} `{RT : Runtime num} (st : Store num) uid instanceId now user oldInstance plan :
  users st !! uid = Some user →
  instances st !! instanceId = Some oldInstance →
  pi_user oldInstance = uid →
  status oldInstance = expired →
  activePlanInstance user = None →
  plans st !! pi_plan oldInstance = Some plan →
  num_lt (walletBalance user) (minAmount plan) = false →
  ∃ st' user' newId newInst t,
    renewPlan st uid instanceId now = (Renewed, st')
    ∧ users st' !! uid = Some user'
    ∧ walletBalance user' = walletBalance user ⊖ minAmount plan
    ∧ bonusBalance user' = bonusBalance user
    ∧ activePlanInstance user' = Some newId
    ∧ newId ≠ instanceId
    ∧ instances st' !! instanceId = Some oldInstance
    ∧ instances st' !! newId = Some newInst
    ∧ pi_user newInst = uid
    ∧ pi_plan newInst = pi_plan oldInstance
    ∧ investedAmount newInst = minAmount plan
    ∧ (dailyYieldType plan = "fixed" →
         dailyProfit newInst = dailyYieldValue plan)
    ∧ (dailyYieldType plan ≠ "fixed" →
         dailyProfit newInst
         = minAmount plan ⊗ dailyYieldValue plan ⊘ num_ofZ 100)
    ∧ startDate newInst = now
    ∧ endDate newInst = addDays num now (durationDays plan)
    ∧ status newInst = active
    ∧ lastCollectedDate newInst = Some now
    ∧ totalCollected newInst = num_ofZ 0
    ∧ transactions st' = t :: transactions st
    ∧ tx_user t = uid ∧ tx_type t = investment
    ∧ tx_amount t = num_opp (minAmount plan).
Proof.
  intros Hu Hi Hown Hst Hnone Hp Hw. unfold renewPlan.
  rewrite Hi, Hu, Hst, Hnone, Hp, bool_decide_is_Some_None.
  rewrite (bool_decide_eq_true_2 _ Hown). simpl.
  rewrite Hw.
  eexists _, _, (freshId (instances st)), _, _.
  split; [reflexivity|]. simpl.
  assert (Hne : freshId (instances st) ≠ instanceId)
    by (apply freshId_ne; eauto).
  split; [apply lookup_insert_eq|]. do 3 (split; [reflexivity|]).
  split; [exact Hne|].
  split; [by rewrite lookup_insert_ne|].
  split; [apply lookup_insert_eq|]. simpl. unfold computeDailyProfit.
  do 3 (split; [reflexivity|]).
  split; [by intros ->|]. split.
  - intros Hfix. apply String.eqb_neq in Hfix. by rewrite Hfix.
  - repeat split.
Qed.

(** In binary64 arithmetic: renewing an expired instance of the Dime plan
    (fixed, 0.2 a day, minAmount 1.1, 30 days) at time 5 from a wallet of
    1.2 leaves 1.2 - 1.1 and creates an instance paying 0.2 a day until
    2592000005.  In the example store of the specification a renewal of
    the Basic plan (2 %, minAmount 500) pays 500 * 2 / 100 a day. *)
Lemma renew_success_witness :
  (∃ st' user' newId newInst,
     renewPlan (floatExpiredStore 1.2) 1 1 5 = (Renewed, st')
     ∧ users st' !! 1%positive = Some user'
     ∧ walletBalance user' = (1.2 - 1.1)%float
     ∧ instances st' !! newId = Some newInst
     ∧ investedAmount newInst = 1.1%float
     ∧ dailyProfit newInst = 0.2%float
     ∧ endDate newInst = 2592000005%Z)
  ∧ ∃ st' newId newInst,
      renewPlan expiredStore 1 1 5 = (Renewed, st')
      ∧ instances st' !! newId = Some newInst
      ∧ dailyProfit newInst = 500 * 2 / 100
      ∧ walletOf st' 1 == 500.
Proof.
  split.
  - destruct (renew_success (floatExpiredStore 1.2) 1 1 5 (carol 1.2 0)
                carolExpired planDime
                eq_refl eq_refl eq_refl eq_refl eq_refl eq_refl)
      as (st' & user' & newId & newInst & t & Hr & Hu & Hw & _ & _ & _ & _
          & Hi & _ & _ & Hinv & Hfix & _ & _ & Hend & _);
      [vm_compute; reflexivity|].
    exists st', user', newId, newInst.
    split; [exact Hr|]. split; [exact Hu|]. split; [exact Hw|].
    split; [exact Hi|]. split; [exact Hinv|].
    split; [exact (Hfix eq_refl)|]. exact Hend.
  - destruct (renew_success expiredStore 1 1 5 aliceIdle
                (setStatus aliceInstance expired) planBasic
                eq_refl eq_refl eq_refl eq_refl eq_refl eq_refl)
      as (st' & user' & newId & newInst & t & Hr & Hu & Hw & _ & _ & _ & _
          & Hi & _ & _ & _ & _ & Hpct & _);
      [reflexivity|].
    exists st', newId, newInst.
    split; [exact Hr|]. split; [exact Hi|].
    split; [apply Hpct; discriminate|].
    rewrite (walletOf_lookup _ _ _ Hu), Hw. reflexivity.
Defined.

(** ** Upgrade and renewal pay no commission *)

(** An upgrade and a renewal write no user document but the requester's,
    whoever invited the requester, and never touch the requester's bonus
    balance; a successful one records exactly one transaction, of type
    investment, for the requester. *)
Theorem upgrade_and_renew_touch_only_requester {num} `{RT : Runtime num} (st : Store num) uid k now :
  (∀ j, j ≠ uid →
     users (upgradePlan st uid k now).2 !! j = users st !! j
     ∧ users (renewPlan st uid k now).2 !! j = users st !! j)
  ∧ bonusOf (upgradePlan st uid k now).2 uid = bonusOf st uid
  ∧ bonusOf (renewPlan st uid k now).2 uid = bonusOf st uid
  ∧ (∀ st', (upgradePlan st uid k now = (Upgraded, st')
             ∨ renewPlan st uid k now = (Renewed, st')) →
       ∃ t, transactions st' = t :: transactions st
            ∧ tx_user t = uid ∧ tx_type t = investment).
Proof.
  split; [|split; [|split]].
  - intros j Hj. split.
    + destruct (upgradePlan_cases st uid k now)
        as [[_ ->]|(user & oldId & oldInst & oldPlan & newPlan & iid & user'
                    & t & _ & _ & _ & _ & _ & _ & _ & _ & _ & _ & _ & _ & _
                    & _ & _ & _ & ->)]; [reflexivity|].
      simpl. by rewrite lookup_insert_ne.
    + destruct (renewPlan_cases st uid k now)
        as [[_ ->]|(user & oldInstance & planToRenew & user' & t & _ & _ & _
                    & _ & _ & _ & _ & _ & _ & _ & _ & _ & _ & _ & _ & ->)];
        [reflexivity|].
      simpl. by rewrite lookup_insert_ne.
  - destruct (upgradePlan_cases st uid k now)
      as [[_ ->]|(user & oldId & oldInst & oldPlan & newPlan & iid & user'
                  & t & Hu & _ & _ & _ & _ & _ & _ & _ & _ & _ & _ & Hb & _
                  & _ & _ & _ & ->)]; [reflexivity|].
    unfold bonusOf; simpl. by rewrite lookup_insert_eq, Hu.
  - destruct (renewPlan_cases st uid k now)
      as [[_ ->]|(user & oldInstance & planToRenew & user' & t & _ & Hu & _
                  & _ & _ & _ & _ & _ & _ & _ & Hb & _ & _ & _ & _ & ->)];
      [reflexivity|].
    unfold bonusOf; simpl. by rewrite lookup_insert_eq, Hu.
  - intros st' [Hrun|Hrun].
    + destruct (upgradePlan_cases st uid k now)
        as [[Herr _]|(user & oldId & oldInst & oldPlan & newPlan & iid & user'
                      & t & _ & _ & _ & _ & _ & _ & _ & _ & _ & _ & _ & _ & _
                      & Htu & Htt & _ & Heq)].
      { exfalso. apply Herr. by rewrite Hrun. }
      rewrite Heq in Hrun. injection Hrun as <-. by exists t.
    + destruct (renewPlan_cases st uid k now)
        as [[Herr _]|(user & oldInstance & planToRenew & user' & t & _ & _ & _
                      & _ & _ & _ & _ & _ & _ & _ & _ & _ & Htu & Htt & _
                      & Heq)].
      { exfalso. apply Herr. by rewrite Hrun. }
      rewrite Heq in Hrun. injection Hrun as <-. by exists t.
Qed.

Lemma upgrade_and_renew_touch_only_requester_witness :
  users (upgradePlan (activeStoreWith 1200) 1 2 0).2 !! 2%positive = Some bob
  ∧ ∃ t, transactions (upgradePlan (activeStoreWith 1200) 1 2 0).2 = [t]
         ∧ tx_type t = investment.
Proof.
  destruct (upgrade_and_renew_touch_only_requester (activeStoreWith 1200) 1 2 0)
    as (Hother & _ & _ & Htx).
  split.
  - destruct (Hother 2%positive) as [H _]; [discriminate|]. rewrite H. reflexivity.
  - destruct (Htx (upgradePlan (activeStoreWith 1200) 1 2 0).2)
      as (t & Ht & _ & Hty); [left; reflexivity|].
    exists t. split; [exact Ht|exact Hty].
Defined.

(** ** The instance created by an upgrade *)

(** The instance a successful upgrade creates starts afresh: its
    dailyProfit is the new plan's dailyYieldValue for a fixed plan and
    newPlan.minAmount * dailyYieldValue / 100 otherwise, it runs from now
    to now moved forward by the new plan's durationDays calendar days, its
    totalCollected is 0 and its lastCollectedDate is now, whenever the
    previous instance was last collected: a collection within the next
    24 h is refused as too soon. *)
Theorem upgrade_starts_afresh {num} `{RT : Runtime num} (st : Store num) uid newPlanId now user oldId oldInst oldPlan newPlan :
  users st !! uid = Some user →
  activePlanInstance user = Some oldId →
  instances st !! oldId = Some oldInst →
  plans st !! pi_plan oldInst = Some oldPlan →
  plans st !! newPlanId = Some newPlan →
  num_le (minAmount newPlan) (minAmount oldPlan) = false →
  num_lt (walletBalance user) (minAmount newPlan ⊖ minAmount oldPlan) = false →
  ∃ st' user' newId newInst,
    upgradePlan st uid newPlanId now = (Upgraded, st')
    ∧ users st' !! uid = Some user'
    ∧ activePlanInstance user' = Some newId
    ∧ instances st' !! newId = Some newInst
    ∧ (dailyYieldType newPlan = "fixed" →
         dailyProfit newInst = dailyYieldValue newPlan)
    ∧ (dailyYieldType newPlan ≠ "fixed" →
         dailyProfit newInst
         = minAmount newPlan ⊗ dailyYieldValue newPlan ⊘ num_ofZ 100)
    ∧ startDate newInst = now
    ∧ endDate newInst = addDays num now (durationDays newPlan)
    ∧ totalCollected newInst = num_ofZ 0
    ∧ lastCollectedDate newInst = Some now
    ∧ (∀ cfg now',
         settings st = Some cfg →
         (now' <= endDate newInst)%Z → (now' < now + 86400000)%Z →
         collectDailyProfit st' uid now'
         = (CollectionTooSoon
              (toFixed1 (num_ofZ (now + 86400000 - now') ⊘ num_ofZ 3600000 : num)),
            st')).
Proof.
  intros Hu Hact Hi Hop Hnp Hlt Hw. unfold upgradePlan.
  rewrite Hu, (populateActive_Some _ _ _ _ Hact Hi), Hnp, Hop.
  rewrite Hlt, Hw.
  eexists _, _, _, _. split; [reflexivity|]. simpl.
  split; [apply lookup_insert_eq|]. split; [reflexivity|].
  split; [apply lookup_insert_eq|]. simpl. unfold computeDailyProfit.
  split; [by intros ->|]. split.
  { intros Hne. apply String.eqb_neq in Hne. by rewrite Hne. }
  do 4 (split; [reflexivity|]).
  intros cfg now' Hcfg Hend Hsoon.
  unfold collectDailyProfit, populateActive. simpl.
  rewrite Hcfg, lookup_insert_eq. simpl. rewrite lookup_insert_eq.
  match goal with
  | |- context [(endDate ?d <? now')%Z] =>
      assert ((endDate d <? now')%Z = false) as ->
        by (apply Z.ltb_ge; exact Hend);
      assert ((now' <? nextCollectionTime d)%Z = true) as ->
        by (apply Z.ltb_lt; exact Hsoon)
  end.
  reflexivity.
Qed.

(** In binary64 arithmetic: upgrading at time 7 from the Cent plan to the
    Dime plan (fixed, 0.2 a day, 30 days) with a wallet of 0.5 creates an
    instance paying 0.2 a day until 2592000007, last collected at 7
    although the old instance was last collected at 5000000; a collection
    at 86400006, due by the old instance, is refused with a hint of 0.0
    hours. *)
Lemma upgrade_starts_afresh_witness :
  ∃ st' newId newInst,
    upgradePlan (floatActiveStore 0.5) 1 2 7 = (Upgraded, st')
    ∧ instances st' !! newId = Some newInst
    ∧ dailyProfit newInst = 0.2%float
    ∧ endDate newInst = 2592000007%Z
    ∧ totalCollected newInst = 0%float
    ∧ lastCollectedDate newInst = Some 7%Z
    ∧ collectDailyProfit st' 1 86400006 = (CollectionTooSoon 0, st').
Proof.
  destruct (upgrade_starts_afresh (floatActiveStore 0.5) 1 2 7
              (carolActive 0.5) 1 carolInstance planCent planDime
              eq_refl eq_refl eq_refl eq_refl eq_refl)
    as (st' & user' & newId & newInst & Hr & Hu & Href & Hi & Hfix & _ & _
        & Hend & Htot & Hlast & Hsoon);
    [vm_compute; reflexivity ..|].
  exists st', newId, newInst. split; [exact Hr|]. split; [exact Hi|].
  split; [exact (Hfix eq_refl)|]. split; [exact Hend|].
  split; [exact Htot|]. split; [exact Hlast|].
  rewrite (Hsoon floatSettings 86400006%Z eq_refl);
    [vm_compute; reflexivity | rewrite Hend; vm_compute; discriminate | lia].
Defined.

(** ** Arithmetic of the helpers *)



(** ** Balances stay non-negative *)

Lemma nonNegative_createTransaction (st : Store Q) t :
  nonNegative st → nonNegative (createTransaction st t).
Proof. intros H. exact H. Qed.

Lemma nonNegative_saveUser (st : Store Q) k u :
  nonNegative st → 0 <= walletBalance u → 0 <= bonusBalance u →
  nonNegative (saveUser st k u).
Proof.
  intros (Hs & Hp & Hi & Hu) Hw Hb. split; [exact Hs|]. split; [exact Hp|].
  split; [exact Hi|]. intros uid user. simpl. rewrite lookup_insert.
  case_decide; [by intros [= <-] | apply Hu].
Qed.

Lemma nonNegative_saveInstance (st : Store Q) k i :
  nonNegative st → 0 <= dailyProfit i → nonNegative (saveInstance st k i).
Proof.
  intros (Hs & Hp & Hi & Hu) Hd. split; [exact Hs|]. split; [exact Hp|].
  split; [|exact Hu]. intros iid i'. simpl. rewrite lookup_insert.
  case_decide; [by intros [= <-] | apply Hi].
Qed.

Lemma percent_nonneg (x rate : Q) : 0 <= x → 0 <= rate → 0 <= x * (rate / 100).
Proof.
  intros Hx Hr. apply Qmult_le_0_compat; [exact Hx|].
  unfold Qdiv. apply Qmult_le_0_compat; [exact Hr|]. unfold Qle; simpl; lia.
Qed.

Lemma computeDailyProfit_nonneg (plan : Plan Q) amount :
  0 <= dailyYieldValue plan → 0 <= amount →
  0 <= computeDailyProfit plan amount.
Proof.
  intros Hv Ha. unfold computeDailyProfit. exact_arith.
  destruct (String.eqb (dailyYieldType plan) "fixed"); [exact Hv|].
  unfold Qdiv. apply Qmult_le_0_compat; [by apply Qmult_le_0_compat|].
  unfold Qle; simpl; lia.
Qed.

Lemma payActivationCommission_nonNegative (st : Store Q) cfg user amount :
  nonNegative st → settings st = Some cfg → 0 <= amount →
  nonNegative (payActivationCommission st cfg user amount).
Proof.
  intros Hnn Hcfg Ha.
  destruct (payActivationCommission_cases st cfg user amount)
    as [->|(rid & referrer & t & _ & Hr & _ & _ & _ & ->)]; [exact Hnn|].
  apply nonNegative_createTransaction.
  destruct Hnn as (Hs & Hp & Hi & Hu).
  destruct (Hs cfg Hcfg) as [Hrate _]. destruct (Hu rid referrer Hr) as [Hw Hb].
  pose proof (percent_nonneg amount _ Ha Hrate).
  apply nonNegative_saveUser; [done| simpl; exact_arith; lra | exact Hb].
Qed.

Lemma payDailyCommission_nonNegative (st : Store Q) cfg user profit :
  nonNegative st → settings st = Some cfg → 0 <= profit →
  nonNegative (payDailyCommission st cfg user profit).
Proof.
  intros Hnn Hcfg Ha.
  destruct (payDailyCommission_cases st cfg user profit)
    as [->|(rid & referrer & t & _ & Hr & _ & _ & _ & _ & ->)]; [exact Hnn|].
  apply nonNegative_createTransaction.
  destruct Hnn as (Hs & Hp & Hi & Hu).
  destruct (Hs cfg Hcfg) as [_ Hrate]. destruct (Hu rid referrer Hr) as [Hw Hb].
  pose proof (percent_nonneg profit _ Ha Hrate).
  apply nonNegative_saveUser; [done| simpl; exact_arith; lra | exact Hb].
Qed.

Lemma handle_nonNegative (st : Store Q) now r :
  isLifecycle r = true → nonNegative st → nonNegative (handle st now r).2.
Proof.
  intros Hlife Hnn. pose proof Hnn as (Hs & Hp & Hi & Hu).
  destruct r; simpl; try discriminate.
  - destruct (activatePlan_cases st uid planId amount now)
      as [[_ ->]|(cfg & user & plan & a & bu & wu & user' & t & Hcfg & Husr & _
                  & Hplan & _ & [_ Hlo] & _ & Hsplit & Hwu & _ & _ & Hw' & Hb' & _
                  & _ & _ & _ & ->)]; [exact Hnn|].
    exact_props.
    destruct (Hp planId plan Hplan) as [Hmin Hval].
    destruct (Hu uid user Husr) as [Hw Hb].
    assert (Ha : 0 <= a) by lra.
    pose proof (splitFunding_bonus_le (bonusBalance user) a Hb) as Hbu.
    rewrite Hsplit in Hbu. simpl in Hbu.
    cbn [snd]. apply payActivationCommission_nonNegative; [|exact Hcfg|exact Ha].
    apply nonNegative_createTransaction.
    apply nonNegative_saveUser; [|rewrite Hw'; lra|rewrite Hb'; lra].
    apply nonNegative_saveInstance; [exact Hnn|].
    by apply computeDailyProfit_nonneg.
  - destruct (upgradePlan_cases st uid newPlanId now)
      as [[_ ->]|(user & oldId & oldInst & oldPlan & newPlan & iid & user' & t
                  & Husr & _ & Hold & _ & Hnp & _ & Hwd & _ & _ & _ & Hw' & Hb'
                  & _ & _ & _ & _ & ->)]; [exact Hnn|].
    exact_props.
    destruct (Hp newPlanId newPlan Hnp) as [Hmin Hval].
    destruct (Hu uid user Husr) as [Hw Hb].
    apply nonNegative_createTransaction.
    apply nonNegative_saveUser; [|rewrite Hw'; lra|rewrite Hb'; lra].
    apply nonNegative_saveInstance; [|by apply computeDailyProfit_nonneg].
    apply nonNegative_saveInstance; [exact Hnn|]. simpl. by apply (Hi oldId).
  - destruct (collectDailyProfit_cases st uid now)
      as [[_ ->]|[(cfg & user & iid & inst & user' & _ & Husr & _ & Hinst & _
                   & _ & _ & Hw' & Hb' & _ & ->)
                 |(cfg & user & iid & inst & inst' & t & Hcfg & Husr & _ & Hinst
                   & _ & _ & Hterms & _ & _ & _ & _ & _ & _ & ->)]];
      [exact Hnn| |].
    + destruct (Hu uid user Husr) as [Hw Hb].
      apply nonNegative_saveUser; [|rewrite Hw'; lra|rewrite Hb'; lra].
      apply nonNegative_saveInstance; [exact Hnn|]. simpl. by apply (Hi iid).
    + destruct (Hu uid user Husr) as [Hw Hb].
      pose proof (Hi iid inst Hinst) as Hprofit.
      unfold termsOf in Hterms. injection Hterms as _ _ _ Hdp _ _.
      cbn [snd].
      apply payDailyCommission_nonNegative; [|exact Hcfg|exact Hprofit].
      apply nonNegative_createTransaction.
      apply nonNegative_saveUser; [|simpl; exact_arith; lra|exact Hb].
      apply nonNegative_saveInstance; [exact Hnn|]. by rewrite Hdp.
  - destruct (renewPlan_cases st uid instanceId now)
      as [[_ ->]|(user & oldInstance & planToRenew & user' & t & _ & Husr & _
                  & _ & _ & Hplan & Hwd & _ & _ & Hw' & Hb' & _ & _ & _ & _
                  & ->)]; [exact Hnn|].
    exact_props.
    destruct (Hp _ planToRenew Hplan) as [Hmin Hval].
    destruct (Hu uid user Husr) as [Hw Hb].
    apply nonNegative_createTransaction.
    apply nonNegative_saveUser; [|rewrite Hw'; lra|rewrite Hb'; lra].
    apply nonNegative_saveInstance; [exact Hnn|].
    by apply computeDailyProfit_nonneg.
Qed.


Lemma demoStore_nonNegative : nonNegative demoStore.
Proof.
  split; [|split; [|split]].
  - intros cfg [= <-]. split; unfold Qle; simpl; lia.
  - intros pid plan. unfold demoStore; simpl.
    rewrite lookup_insert. case_decide;
      [intros [= <-]; split; unfold Qle; simpl; lia|].
    rewrite lookup_insert. case_decide;
      [intros [= <-]; split; unfold Qle; simpl; lia|].
    by rewrite lookup_empty.
  - intros iid i. unfold demoStore; simpl. by rewrite lookup_empty.
  - intros uid user. unfold demoStore; simpl.
    rewrite lookup_insert. case_decide;
      [intros [= <-]; split; unfold Qle; simpl; lia|].
    rewrite lookup_insert. case_decide;
      [intros [= <-]; split; unfold Qle; simpl; lia|].
    by rewrite lookup_empty.
Qed.


Lemma request_records_at_most_two_witness :
  ∃ extra,
    transactions (handle demoStore 0 (Activate 1 1 (Some 10))).2
      = (extra ++ transactions demoStore)%list
    ∧ extra = [].
Proof.
  destruct (request_records_at_most_two demoStore 0 (Activate 1 1 (Some 10)))
    as (extra & He & _ & Hnil).
  exists extra. split; [exact He|]. apply Hnil. discriminate.
Defined.

Lemma requests_write_their_own_collections_witness :
  settings (run demoStore demoRequests) = settings demoStore
  ∧ plans (run demoStore demoRequests) = plans demoStore
  ∧ users (run demoStore [(0%Z, UpdatePlan 1 lowerMaxBody None);
                          (1%Z, DeletePlan 2)]) = users demoStore.
Proof.
  destruct (requests_write_their_own_collections demoRequests demoStore)
    as (Hs & Hp & _).
  destruct (requests_write_their_own_collections
              [(0%Z, UpdatePlan 1 lowerMaxBody None); (1%Z, DeletePlan 2)]
              demoStore) as (_ & _ & Ha).
  split; [exact Hs|]. split; [apply Hp; repeat constructor|].
  apply Ha; repeat constructor.
Defined.
